(** * Content pipeline of the academic website: model and verification

    Shallow embedding of the Node scripts of the repository:
    - [content/scripts/academic-integration.js]: BibTeX extraction, merge of
      extracted publications, validation and metrics;
    - the content editor ([addPublication], [saveData], [loadAndDisplayData]);
    - the content generator ([loadData], [renderTemplate], the HTML renderers,
      [generateStructuredData], [generateSitemap]).

    Conventions of the model.
    - A JavaScript string is a [string]: a sequence of code units, here the
      code units below 256.  Character classes ([\s], [\w]) and [toLowerCase]
      are the JavaScript ones restricted to that range.
    - A number is an integer ([Num z]) or [NaN]; the scripts only ever produce
      integers (years, counts), and [parseInt] is exact on them.
    - A property of a parsed JSON object is [Undefined] (absent), [Null] or a
      value ([Val]); the records list the properties the scripts read.
    - The clock ([new Date()]) is an explicit environment, the data directory
      an explicit store threaded through the operations.
    - A JavaScript exception is an explicit error result. *)

From Stdlib Require Import Ascii String List ZArith Lia Bool DecimalString DecimalNat DecimalZ.
From stdpp Require Import base option list strings gmap.

#[local] Open Scope Z_scope.
#[local] Arguments String.append !_ _ / : simpl nomatch.

(** ** JavaScript values of the model *)

(** A property read from an object. *)
Inductive field (A : Type) : Type :=
| Undefined : field A
| Null : field A
| Val : A -> field A.
Arguments Undefined {A}.
Arguments Null {A}.
Arguments Val {A} _.

(** A number: the scripts compute with integers and [NaN]. *)
Inductive number : Type :=
| NaN : number
| Num : Z -> number.

(** The result of code that can throw. *)
Inductive result (A : Type) : Type :=
| Ok : A -> result A
| Throw : string -> result A.
Arguments Ok {A} _.
Arguments Throw {A} _.

(** Sequencing of code that can throw, with stdpp's [x ← r; k] notation. *)
#[global] Instance result_ret : MRet result := fun _ a => Ok a.
#[global] Instance result_bind : MBind result := fun _ _ k r =>
  match r with
  | Ok a => k a
  | Throw e => Throw e
  end.

#[global] Instance result_fmap : FMap result := fun _ _ f r =>
  match r with
  | Ok a => Ok (f a)
  | Throw e => Throw e
  end.

#[global] Instance field_eq_dec {A} `{EqDecision A} : EqDecision (field A).
Proof. solve_decision. Defined.

#[global] Instance number_eq_dec : EqDecision number.
Proof. solve_decision. Defined.

Module Js.

(** *** Characters *)

Definition code (c : ascii) : N := N_of_ascii c.

(** [\s] on the code units below 256: TAB, LF, VT, FF, CR, space, NBSP. *)
Definition is_space (c : ascii) : bool :=
  let n := code c in
  ((9 <=? n) && (n <=? 13) || (n =? 32) || (n =? 160))%N.

Definition is_digit (c : ascii) : bool :=
  let n := code c in ((48 <=? n) && (n <=? 57))%N.

Definition is_upper (c : ascii) : bool :=
  let n := code c in ((65 <=? n) && (n <=? 90))%N.

Definition is_lower (c : ascii) : bool :=
  let n := code c in ((97 <=? n) && (n <=? 122))%N.

(** [\w] is [[A-Za-z0-9_]]. *)
Definition is_word (c : ascii) : bool :=
  is_upper c || is_lower c || is_digit c || (code c =? 95)%N.

(** [toLowerCase] on one code unit: A-Z, and the Latin-1 capitals
    (U+00C0..U+00DE except the multiplication sign U+00D7). *)
Definition lower_char (c : ascii) : ascii :=
  let n := code c in
  if is_upper c then ascii_of_N (n + 32)
  else if ((192 <=? n) && (n <=? 222) && negb (n =? 215))%N then ascii_of_N (n + 32)
  else c.

(** *** Strings *)

Fixpoint toLowerCase (s : string) : string :=
  match s with
  | EmptyString => EmptyString
  | String c s' => String (lower_char c) (toLowerCase s')
  end.

(** Every code unit of [s] satisfies [q]. *)
Fixpoint all (q : ascii -> bool) (s : string) : bool :=
  match s with
  | EmptyString => true
  | String c s' => q c && all q s'
  end.

(** [s.startsWith(p)] *)
Fixpoint startsWith (p s : string) : bool :=
  match p, s with
  | EmptyString, _ => true
  | String a p', String b s' => if decide (a = b) then startsWith p' s' else false
  | String _ _, EmptyString => false
  end.

(** [s.includes(p)] *)
Fixpoint includes (p s : string) : bool :=
  startsWith p s ||
  match s with
  | EmptyString => false
  | String _ s' => includes p s'
  end.

Fixpoint drop_space (s : string) : string :=
  match s with
  | String c s' => if is_space c then drop_space s' else s
  | EmptyString => EmptyString
  end.

(** [s.trim()] *)
Definition trim (s : string) : string :=
  String.rev (drop_space (String.rev (drop_space s))).

(** [s.split(sep)] for a non-empty separator: the pieces between successive
    leftmost occurrences of [sep].  [skip] counts the code units of a
    separator that was just recognised and is still to be passed over;
    [acc] is the current piece, reversed. *)
Fixpoint split_go (sep : string) (skip : nat) (acc : string) (s : string) : list string :=
  match s with
  | EmptyString => [String.rev acc]
  | String c s' =>
      match skip with
      | S k => split_go sep k acc s'
      | O =>
          if startsWith sep s
          then String.rev acc :: split_go sep (String.length sep - 1) EmptyString s'
          else split_go sep 0 (String c acc) s'
      end
  end.

Definition split (sep s : string) : list string := split_go sep 0 EmptyString s.

(** [l.join(sep)] on an array of strings. *)
Fixpoint join (sep : string) (l : list string) : string :=
  match l with
  | [] => EmptyString
  | [x] => x
  | x :: l' => x +:+ sep +:+ join sep l'
  end.

(** [s.replace(pat, rep)] with a string pattern: the first occurrence only.
    ([rep] holds no [$], so it is inserted as it is.) *)
Fixpoint replace_first_go (pat rep : string) (skip : option nat) (s : string) : string :=
  match s with
  | EmptyString =>
      match skip with
      | None => if startsWith pat s then rep else EmptyString
      | Some _ => EmptyString
      end
  | String c s' =>
      match skip with
      | Some (S k) => replace_first_go pat rep (Some k) s'
      | Some O => String c (replace_first_go pat rep (Some O) s')
      | None =>
          if startsWith pat s
          then rep +:+
               match String.length pat with
               | O => String c (replace_first_go pat rep (Some O) s')
               | S k => replace_first_go pat rep (Some k) s'
               end
          else String c (replace_first_go pat rep None s')
      end
  end.

Definition replace_first (pat rep s : string) : string :=
  replace_first_go pat rep None s.

(** *** Numbers *)

(** Value of a hexadecimal digit, if [c] is one. *)
Definition hex_value (c : ascii) : option Z :=
  let n := code c in
  if is_digit c then Some (Z.of_N n - 48)
  else if ((97 <=? n) && (n <=? 102))%N then Some (Z.of_N n - 87)
  else if ((65 <=? n) && (n <=? 70))%N then Some (Z.of_N n - 55)
  else None.

(** The longest prefix of radix-[r] digits of [s], read as an integer;
    [None] when there is no digit. *)
Fixpoint digits_go (r : Z) (acc : option Z) (s : string) : option Z :=
  match s with
  | EmptyString => acc
  | String c s' =>
      match hex_value c with
      | Some d =>
          if d <? r then digits_go r (Some (from_option id 0 acc * r + d)) s'
          else acc
      | None => acc
      end
  end.

(** [parseInt(s)] without a radix: leading white space, a sign, an optional
    [0x] prefix, then the longest run of digits. *)
Definition parseInt (s : string) : number :=
  let s := drop_space s in
  let '(sign, s) :=
    match s with
    | String "-" s' => (-1, s')
    | String "+" s' => (1, s')
    | _ => (1, s)
    end in
  let '(radix, s) :=
    match s with
    | String "0" (String "x" s') => (16, s')
    | String "0" (String "X" s') => (16, s')
    | _ => (10, s)
    end in
  match digits_go radix None s with
  | Some n => Num (sign * n)
  | None => NaN
  end.

(** Decimal digits of a natural number and of an integer. *)
Definition nat_to_string (n : nat) : string :=
  DecimalString.NilEmpty.string_of_uint (Nat.to_uint n).

Definition Z_to_string (z : Z) : string :=
  DecimalString.NilEmpty.string_of_int (Z.to_int z).

(** [String(n)] for a number. *)
Definition number_to_string (n : number) : string :=
  match n with
  | NaN => "NaN"
  | Num z => Z_to_string z
  end.

(** ToNumber of a numeric property: [undefined] is [NaN], [null] is 0. *)
Definition to_number (f : field number) : number :=
  match f with
  | Undefined => NaN
  | Null => Num 0
  | Val n => n
  end.

(** [a < b] and [a > b] on numbers: false as soon as one side is [NaN]. *)
Definition lt (a b : number) : bool :=
  match a, b with
  | Num x, Num y => x <? y
  | _, _ => false
  end.

Definition gt (a b : number) : bool := lt b a.

(** ToBoolean on the values of the model. *)
Definition truthy_string (s : string) : bool :=
  negb (bool_decide (s = EmptyString)).

Definition truthy_number (n : number) : bool :=
  match n with
  | NaN => false
  | Num z => negb (z =? 0)
  end.

Definition truthy {A} (t : A -> bool) (f : field A) : bool :=
  match f with
  | Val a => t a
  | _ => false
  end.

(** [x || d] where [x] is a string property. *)
Definition or_string (f : field string) (d : string) : string :=
  match f with
  | Val s => if truthy_string s then s else d
  | _ => d
  end.

(** A template literal's [${x}]. *)
Definition show {A} (sh : A -> string) (f : field A) : string :=
  match f with
  | Undefined => "undefined"
  | Null => "null"
  | Val a => sh a
  end.

End Js.

(** ** Regular expressions

    The scripts scan their inputs with regular-expression literals.  The
    matcher below is the backtracking matcher of the language: a pattern is
    matched against the input at a position, with a continuation that matches
    what follows; a greedy quantifier tries one more iteration before it
    tries the continuation, a lazy one the other way round, and an iteration
    that consumes nothing is rejected. *)

Module Regex.

Inductive regex : Type :=
| Eps : regex
| Chr : ascii -> regex
| Cls : (ascii -> bool) -> regex
| Seq : regex -> regex -> regex
| Star : bool -> regex -> regex
| Group : nat -> regex -> regex.

(** [r+] and [r+?] *)
Definition Plus (greedy : bool) (r : regex) : regex := Seq r (Star greedy r).

Definition seq (l : list regex) : regex := foldr Seq Eps l.

(** The captures of a match: group number to captured text. *)
Abbreviation captures := (gmap nat string).

(** The text consumed between the input [x] and its suffix [x']. *)
Definition consumed (x x' : string) : string :=
  String.substring 0 (String.length x - String.length x') x.

(** The loop of a quantifier [r*] or [r*?], for the matcher [m1] of [r].
    [fuel] bounds the number of iterations; each one consumes input, so
    the length of the input is enough. *)
Definition star_loop {R : Type}
    (m1 : string -> captures -> (string -> captures -> option R) -> option R)
    (greedy : bool) (k : string -> captures -> option R)
    : nat -> string -> captures -> option R :=
  fix loop (fuel : nat) (x : string) (c : captures) {struct fuel} : option R :=
    let more (_ : unit) :=
      match fuel with
      | O => None
      | S fuel' =>
          m1 x c (fun x' c' =>
            if (String.length x' <? String.length x)%nat
            then loop fuel' x' c' else None)
      end in
    if greedy
    then match more () with Some a => Some a | None => k x c end
    else match k x c with Some a => Some a | None => more () end.

Fixpoint rmatch {R : Type} (r : regex) (x : string) (c : captures)
    (k : string -> captures -> option R) {struct r} : option R :=
  match r with
  | Eps => k x c
  | Chr a =>
      match x with
      | String b x' => if decide (a = b) then k x' c else None
      | EmptyString => None
      end
  | Cls p =>
      match x with
      | String b x' => if p b then k x' c else None
      | EmptyString => None
      end
  | Seq r1 r2 => rmatch r1 x c (fun x' c' => rmatch r2 x' c' k)
  | Group n r1 => rmatch r1 x c (fun x' c' => k x' (<[n := consumed x x']> c'))
  | Star greedy r1 =>
      star_loop (fun x c k' => rmatch r1 x c k') greedy k (String.length x) x c
  end.

(** Does the whole of [s] match [r]? *)
Definition full_match (r : regex) (s : string) : bool :=
  bool_decide (is_Some (rmatch r s ∅ (fun x' _ =>
    if bool_decide (x' = EmptyString) then Some tt else None))).

(** The texts a pattern matches, apart from the order in which the matcher
    tries them. *)
Inductive matches : regex -> string -> Prop :=
| matches_eps : matches Eps EmptyString
| matches_chr a : matches (Chr a) (String a EmptyString)
| matches_cls (p : ascii -> bool) a : p a = true -> matches (Cls p) (String a EmptyString)
| matches_seq r1 r2 s1 s2 :
    matches r1 s1 -> matches r2 s2 -> matches (Seq r1 r2) (s1 +:+ s2)
| matches_group n r s : matches r s -> matches (Group n r) s
| matches_star_nil greedy r : matches (Star greedy r) EmptyString
| matches_star_cons greedy r s1 s2 :
    s1 <> EmptyString -> matches r s1 -> matches (Star greedy r) s2 ->
    matches (Star greedy r) (s1 +:+ s2).

(** A pattern every match of which consumes input. *)
Fixpoint consumes (r : regex) : bool :=
  match r with
  | Eps => false
  | Chr _ | Cls _ => true
  | Seq r1 r2 => consumes r1 || consumes r2
  | Star _ _ => false
  | Group _ r1 => consumes r1
  end.

(** A pattern whose characters all satisfy [q]. *)
Fixpoint within (q : ascii -> bool) (r : regex) : Prop :=
  match r with
  | Eps => True
  | Chr a => q a = true
  | Cls p => forall a, p a = true -> q a = true
  | Seq r1 r2 => within q r1 /\ within q r2
  | Star _ r1 => within q r1
  | Group _ r1 => within q r1
  end.

(** A pattern without capture groups. *)
Fixpoint groupless (r : regex) : bool :=
  match r with
  | Eps | Chr _ | Cls _ => true
  | Seq r1 r2 => groupless r1 && groupless r2
  | Star _ r1 => groupless r1
  | Group _ _ => false
  end.

(** A match that starts exactly at the head of [x]: the captures and the
    rest of the input after the match. *)
Definition match_here (r : regex) (x : string) : option (captures * string) :=
  rmatch r x ∅ (fun x' c => Some (c, x')).

(** [re.exec(s)] from the current [lastIndex]: the leftmost match in [x]. *)
Fixpoint exec (r : regex) (x : string) : option (captures * string) :=
  match match_here r x with
  | Some m => Some m
  | None =>
      match x with
      | EmptyString => None
      | String _ x' => exec r x'
      end
  end.

(** The loop [while ((m = re.exec(s)) !== null)] of a global regular
    expression: the successive matches.  Each match of the patterns below
    consumes input, so [fuel] beyond the length of [x] is never used. *)
Fixpoint exec_all_go (fuel : nat) (r : regex) (x : string) : list captures :=
  match fuel with
  | O => []
  | S fuel' =>
      match exec r x with
      | Some (c, x') => c :: exec_all_go fuel' r x'
      | None => []
      end
  end.

Definition exec_all (r : regex) (x : string) : list captures :=
  exec_all_go (S (String.length x)) r x.

(** [s.replace(re, f)] with a global regular expression and a function: the
    text between the matches is kept, each match is replaced by what [f]
    returns for its text and captures.  The result of [f] is converted to
    a string, which can throw: the matches are handled from left to
    right, and the first exception ends the call. *)
Fixpoint replace_all_go (fuel : nat) (r : regex) (f : string -> captures -> result string)
    (x : string) : result string :=
  match fuel with
  | O => Ok x
  | S fuel' =>
      match match_here r x with
      | Some (c, x') =>
          text ← f (consumed x x') c;
          rest ← replace_all_go fuel' r f x';
          Ok (text +:+ rest)
      | None =>
          match x with
          | EmptyString => Ok EmptyString
          | String a x' =>
              rest ← replace_all_go fuel' r f x';
              Ok (String a rest)
          end
      end
  end.

Definition replace_all (r : regex) (f : string -> captures -> result string) (x : string)
    : result string :=
  replace_all_go (S (String.length x)) r f x.

(** [m[n]] for a group that took part in the match. *)
Definition group (n : nat) (c : captures) : string := default EmptyString (c !! n).

Definition any : regex := Cls (fun _ => true).
Definition word : regex := Cls Js.is_word.
Definition space : regex := Cls Js.is_space.
Definition none_of (a : ascii) : regex := Cls (fun b => negb (bool_decide (a = b))).

End Regex.

(** ** Data model *)

(** The clock, as the scripts read it. *)
Record Env : Type := mkEnv {
  currentYear : Z;      (* new Date().getFullYear() *)
  today : string        (* new Date().toISOString().split('T')[0] *)
}.

(** One entry of [publications.json]. *)
Module Publication.
Record t : Type := mk {
  id : field string;
  title : field string;
  authors : field (list string);
  journal : field string;
  year : field number;
  doi : field string;
  abstract : field string;
  image : field string;
  type : field string;
  status : field string;
  awards : field (list string)
}.
End Publication.

#[global] Instance publication_eq_dec : EqDecision Publication.t.
Proof. solve_decision. Defined.

(** The [statistics] object of [publications.json]: the two properties the
    editor and the merge assign, the ones the metrics run assigns, and the
    remaining properties, which every operation carries over. *)
Module Statistics.
Record t : Type := mk {
  total_publications : field number;
  last_updated : field string;
  publications_by_year : field (gmap string nat);
  publications_by_status : field (gmap string nat);
  publications_by_type : field (gmap string nat);
  latest_publication : field Publication.t;
  collaboration_network : field (list string);
  others : gmap string string
}.
End Statistics.

(** The document [publications.json]. *)
Module PublicationsData.
Record t : Type := mk {
  publications : list Publication.t;
  statistics : field Statistics.t
}.
End PublicationsData.

(** The document [personal.json], as far as the scripts modelled here read
    it. *)
Module Institution.
Record t : Type := mk {
  name : field string;
  url : field string
}.
End Institution.

Module Education.
Record t : Type := mk {
  institution : field string;
  url : field string
}.
End Education.

Module Background.
Record t : Type := mk {
  education : field (list Education.t)
}.
End Background.

Module Personal.
Record t : Type := mk {
  name : field string;
  title : field string;
  institution : field Institution.t;
  social : field (list (string * string));     (* platform to URL, in property order *)
  background : field Background.t
}.
End Personal.

(** One entry of [news.json]. *)
Module NewsItem.
Record t : Type := mk {
  id : field string;
  title : field string;
  date : field string;
  category : field string;
  summary : field string;
  content : field string;
  images : field (list string);
  featured : field bool;
  tags : field (list string)
}.
End NewsItem.

(** The sections of [resources.json]. *)
Module Link.
Record t : Type := mk {
  title : field string;
  url : field string;
  provider : field string
}.
End Link.

Module Resource.
Record t : Type := mk {
  title : field string;
  description : field string;
  links : list Link.t
}.
End Resource.

Module ResourceSection.
Record t : Type := mk {
  title : field string;
  description : field string;
  resources : list Resource.t
}.
End ResourceSection.

(** The sections of [activities.json]. *)
Module Activity.
Record t : Type := mk {
  title : field string;
  description : field string;
  image : field string;
  date : field string;
  location : field string
}.
End Activity.

Module ActivitySection.
Record t : Type := mk {
  id : field string;
  title : field string;
  description : field string;
  activities : list Activity.t
}.
End ActivitySection.

(** The data directory and the BibTeX file, each file as the document
    [JSON.parse] gives for it: [None] is a file that is missing or does
    not parse.  [news.json] holds the array [news]; [resources.json] and
    [activities.json] hold the object [sections], here its values in
    property order. *)
Record Store : Type := mkStore {
  personal_json : option Personal.t;
  publications_json : option PublicationsData.t;
  news_json : option (list NewsItem.t);
  resources_json : option (list ResourceSection.t);
  activities_json : option (list ActivitySection.t);
  references_bib : option string
}.

(** ** BibTeX extraction ([parseBibtexFile]) *)

Module Bibtex.
Import Regex.

(** The literal [/@(\w+)\{([^,]+),\s*([\s\S]*?)\n\}/g]. *)
Definition entryRegex : regex :=
  seq [Chr "@"; Group 1 (Plus true word); Chr "{";
       Group 2 (Plus true (none_of ",")); Chr ",";
       Star true space; Group 3 (Star false any); Chr "010"; Chr "}"].

(** The literal [/(\w+)\s*=\s*\{(V)\}/g], where the group [V] is [[^}]*]. *)
Definition fieldRegex : regex :=
  seq [Group 1 (Plus true word); Star true space; Chr "="; Star true space;
       Chr "{"; Group 2 (Star true (none_of "}")); Chr "}"].

(** The inner loop: [fields[fieldMatch[1]] = fieldMatch[2]] for each match. *)
Definition parseFields (content : string) : gmap string string :=
  foldl (fun fields m => <[group 1 m := group 2 m]> fields) ∅
        (exec_all fieldRegex content).

(** A property of [fields], as a value that may be absent. *)
Definition prop (fields : gmap string string) (k : string) : field string :=
  match fields !! k with
  | Some v => Val v
  | None => Undefined
  end.

(** [parseInt(fields.year) || new Date().getFullYear()] *)
Definition entryYear (env : Env) (fields : gmap string string) : number :=
  let y := match fields !! "year" with
           | Some v => Js.parseInt v
           | None => NaN            (* parseInt(undefined) *)
           end in
  if Js.truthy_number y then y else Num (currentYear env).

(** The object pushed for an entry. *)
Definition makePublication (env : Env) (key : string) (fields : gmap string string)
    : Publication.t :=
  {| Publication.id := Val key;
     Publication.title := prop fields "title";
     Publication.authors :=
       Val (if Js.truthy Js.truthy_string (prop fields "author")
            then Js.split " and " (default EmptyString (fields !! "author"))
            else []);
     Publication.journal := Val (Js.or_string (prop fields "journal") "Unknown Journal");
     Publication.year := Val (entryYear env fields);
     Publication.doi :=
       (if Js.truthy Js.truthy_string (prop fields "doi")
        then prop fields "doi" else Null);
     Publication.abstract := Val (Js.or_string (prop fields "abstract") EmptyString);
     Publication.image := Undefined;
     Publication.type := Val "journal";
     Publication.status := Val "published";
     Publication.awards := Undefined |}.

(** The body of the outer loop for one match of [entryRegex]. *)
Definition entryPublication (env : Env) (m : captures) : option Publication.t :=
  let type := group 1 m in
  let key := group 2 m in
  let fields := parseFields (group 3 m) in
  if bool_decide (Js.toLowerCase type = "article")
     && Js.truthy Js.truthy_string (prop fields "title")
  then Some (makePublication env key fields)
  else None.

(** The publications of a BibTeX text. *)
Definition parseBibtex (env : Env) (bibtexContent : string) : list Publication.t :=
  omap (entryPublication env) (exec_all entryRegex bibtexContent).

(** [parseBibtexFile(path)]: [None] is the [null] returned when the file
    does not exist or cannot be read. *)
Definition parseBibtexFile (env : Env) (file : option string) : option (list Publication.t) :=
  match file with
  | None => None
  | Some bibtexContent => Some (parseBibtex env bibtexContent)
  end.

End Bibtex.

(** ** The data directory *)

(** What [JSON.parse] reads back after [JSON.stringify] wrote a
    publication: a [NaN] year is written as [null]. *)
Definition normalizePublication (p : Publication.t) : Publication.t :=
  match Publication.year p with
  | Val NaN =>
      {| Publication.id := Publication.id p;
         Publication.title := Publication.title p;
         Publication.authors := Publication.authors p;
         Publication.journal := Publication.journal p;
         Publication.year := Null;
         Publication.doi := Publication.doi p;
         Publication.abstract := Publication.abstract p;
         Publication.image := Publication.image p;
         Publication.type := Publication.type p;
         Publication.status := Publication.status p;
         Publication.awards := Publication.awards p |}
  | _ => p
  end.

Definition normalizeStatistics (stats : Statistics.t) : Statistics.t :=
  {| Statistics.total_publications := Statistics.total_publications stats;
     Statistics.last_updated := Statistics.last_updated stats;
     Statistics.publications_by_year := Statistics.publications_by_year stats;
     Statistics.publications_by_status := Statistics.publications_by_status stats;
     Statistics.publications_by_type := Statistics.publications_by_type stats;
     Statistics.latest_publication :=
       match Statistics.latest_publication stats with
       | Val p => Val (normalizePublication p)
       | f => f
       end;
     Statistics.collaboration_network := Statistics.collaboration_network stats;
     Statistics.others := Statistics.others stats |}.

(** [fs.writeFileSync(publications.json, JSON.stringify(data, null, 2))] *)
Definition writePublications (data : PublicationsData.t) (st : Store) : Store :=
  {| personal_json := personal_json st;
     publications_json :=
       Some {| PublicationsData.publications :=
                 map normalizePublication (PublicationsData.publications data);
               PublicationsData.statistics :=
                 match PublicationsData.statistics data with
                 | Val stats => Val (normalizeStatistics stats)
                 | f => f
                 end |};
     news_json := news_json st;
     resources_json := resources_json st;
     activities_json := activities_json st;
     references_bib := references_bib st |}.

(** The assignments [statistics.total_publications = n] and
    [statistics.last_updated = today]. *)
Definition setTotals (n : nat) (env : Env) (stats : Statistics.t) : Statistics.t :=
  {| Statistics.total_publications := Val (Num (Z.of_nat n));
     Statistics.last_updated := Val (today env);
     Statistics.publications_by_year := Statistics.publications_by_year stats;
     Statistics.publications_by_status := Statistics.publications_by_status stats;
     Statistics.publications_by_type := Statistics.publications_by_type stats;
     Statistics.latest_publication := Statistics.latest_publication stats;
     Statistics.collaboration_network := Statistics.collaboration_network stats;
     Statistics.others := Statistics.others stats |}.

(** ** Merge of the extracted publications ([updatePublicationsFromSources]) *)

Module Merger.

(** The body of [bibtexPublications.forEach]: [find] looks the identifier
    up in the collection built so far. *)
Definition mergeStep (mergedPublications : list Publication.t) (bibPub : Publication.t)
    : list Publication.t :=
  match List.find (fun pub => bool_decide (Publication.id pub = Publication.id bibPub))
                  mergedPublications with
  | Some _ => mergedPublications
  | None => mergedPublications ++ [bibPub]
  end.

(** [mergedPublications] after the loop, starting from a copy of the
    existing publications. *)
Definition merge (existing bibtexPublications : list Publication.t) : list Publication.t :=
  foldl mergeStep existing bibtexPublications.

(** The document written for the existing document [currentData]. *)
Definition mergeData (env : Env) (bibtexPublications : list Publication.t)
    (currentData : PublicationsData.t) : result PublicationsData.t :=
  let mergedPublications :=
    merge (PublicationsData.publications currentData) bibtexPublications in
  match PublicationsData.statistics currentData with
  | Val stats =>
      Ok {| PublicationsData.publications := mergedPublications;
            PublicationsData.statistics :=
              Val (setTotals (length mergedPublications) env stats) |}
  | _ => Throw "TypeError: cannot set properties of undefined"
  end.

(** The whole operation on the store.  Without a BibTeX file nothing
    happens; an exception leaves the files as they were. *)
Definition updatePublicationsFromSources (env : Env) (st : Store) : result Store :=
  match Bibtex.parseBibtexFile env (references_bib st) with
  | None => Ok st
  | Some bibtexPublications =>
      match publications_json st with
      | None => Throw "cannot read publications.json"
      | Some currentData =>
          data ← mergeData env bibtexPublications currentData;
          Ok (writePublications data st)
      end
  end.

End Merger.

(** ** The interactive editor ([addPublication]) *)

Module Editor.

(** The answers to the nine prompts, as [prompt] returns them. *)
Record Answers : Type := mkAnswers {
  a_id : string;
  a_title : string;
  a_authors : string;
  a_journal : string;
  a_year : string;
  a_doi : string;
  a_abstract : string;
  a_type : string;
  a_status : string
}.

(** The object [pub] built from the answers. *)
Definition newPublication (a : Answers) : Publication.t :=
  {| Publication.id := Val (a_id a);
     Publication.title := Val (a_title a);
     Publication.authors := Val (map Js.trim (Js.split "," (a_authors a)));
     Publication.journal := Val (a_journal a);
     Publication.year := Val (Js.parseInt (a_year a));
     Publication.doi := (if Js.truthy_string (a_doi a) then Val (a_doi a) else Null);
     Publication.abstract := Val (a_abstract a);
     Publication.image := Undefined;
     Publication.type := Val (Js.or_string (Val (a_type a)) "journal");
     Publication.status := Val (Js.or_string (Val (a_status a)) "published");
     Publication.awards := Undefined |}.

(** [publications.unshift(pub)] and the two assignments to [statistics]. *)
Definition addToData (env : Env) (pub : Publication.t) (publicationsData : PublicationsData.t)
    : result PublicationsData.t :=
  let publications := pub :: PublicationsData.publications publicationsData in
  match PublicationsData.statistics publicationsData with
  | Val stats =>
      Ok {| PublicationsData.publications := publications;
            PublicationsData.statistics := Val (setTotals (length publications) env stats) |}
  | _ => Throw "TypeError: cannot set properties of undefined"
  end.

(** The whole operation on the store; when [publications.json] does not
    load, the function returns without writing. *)
Definition addPublication (env : Env) (a : Answers) (st : Store) : result Store :=
  let pub := newPublication a in
  match publications_json st with
  | None => Ok st
  | Some publicationsData =>
      data ← addToData env pub publicationsData;
      Ok (writePublications data st)
  end.

End Editor.

(** ** Validation ([validateAcademicData]) *)

Module Validator.

(** The three checks of the [forEach] body for the publication at [index]. *)
Definition missingTitleOrAuthors (pub : Publication.t) : bool :=
  negb (Js.truthy Js.truthy_string (Publication.title pub))
  || match Publication.authors pub with
     | Val authors => bool_decide (length authors = 0%nat)
     | _ => true
     end.

Definition invalidDoi (pub : Publication.t) : bool :=
  match Publication.doi pub with
  | Val doi => Js.truthy_string doi && negb (Js.startsWith "10." doi)
  | _ => false
  end.

Definition invalidYear (env : Env) (pub : Publication.t) : bool :=
  negb (Js.truthy Js.truthy_number (Publication.year pub))
  || Js.lt (Js.to_number (Publication.year pub)) (Num 1900)
  || Js.gt (Js.to_number (Publication.year pub)) (Num (currentYear env + 2)).

Definition issuePrefix (index : nat) : string :=
  "Publication " +:+ Js.nat_to_string (index + 1) +:+ ": ".

Definition publicationIssues (env : Env) (index : nat) (pub : Publication.t) : list string :=
  (if missingTitleOrAuthors pub
   then [issuePrefix index +:+ "Missing title or authors"] else [])
  ++ (if invalidDoi pub then [issuePrefix index +:+ "Invalid DOI format"] else [])
  ++ (if invalidYear env pub then [issuePrefix index +:+ "Invalid year"] else []).

(** [publications.map(pub => pub.title.toLowerCase())]; it throws on a
    publication without a title. *)
Definition lowerTitles (publications : list Publication.t) : result (list string) :=
  mapM (M := result) (fun pub =>
    match Publication.title pub with
    | Val title => Ok (Js.toLowerCase title)
    | _ => Throw "TypeError: cannot read properties of undefined"
    end) publications.

(** [titles.indexOf(title)] *)
Fixpoint indexOf (title : string) (titles : list string) : option nat :=
  match titles with
  | [] => None
  | t :: titles' =>
      if bool_decide (t = title) then Some 0%nat
      else S <$> indexOf title titles'
  end.

(** [titles.filter((title, index) => titles.indexOf(title) !== index)] *)
Definition duplicates (titles : list string) : list string :=
  omap (fun '(index, title) =>
          if bool_decide (indexOf title titles = Some index) then None else Some title)
       (imap pair titles).

(** The issues returned.  The array [issues] lives outside the [try]
    block: an exception ends the checks and what was pushed before it is
    still returned. *)
Definition validateAcademicData (env : Env) (st : Store) : list string :=
  match personal_json st with
  | None => []
  | Some personalData =>
      let issues :=
        if negb (Js.truthy Js.truthy_string (Personal.name personalData))
           || negb (Js.truthy Js.truthy_string (Personal.title personalData))
        then ["Missing required personal information"] else [] in
      match publications_json st with
      | None => issues
      | Some publicationsData =>
          let publications := PublicationsData.publications publicationsData in
          let issues := issues ++ concat (imap (publicationIssues env) publications) in
          match lowerTitles publications with
          | Throw _ => issues
          | Ok titles =>
              match duplicates titles with
              | [] => issues
              | dups => issues ++ ["Duplicate publications found: " +:+ Js.join ", " dups]
              end
          end
      end
  end.

End Validator.

(** ** Metrics ([generateAcademicMetrics]) *)

Module Metrics.

(** [counts[key] = (counts[key] || 0) + 1].  The counters are objects used
    as maps from the text of a year, a status or a type to a count (the keys
    of the data model are not property names of [Object.prototype]). *)
Definition bump (key : string) (counts : gmap string nat) : gmap string nat :=
  <[key := (default 0 (counts !! key) + 1)%nat]> counts.

Definition yearKey (pub : Publication.t) : string :=
  Js.show Js.number_to_string (Publication.year pub).
Definition statusKey (pub : Publication.t) : string := Js.show id (Publication.status pub).
Definition typeKey (pub : Publication.t) : string := Js.show id (Publication.type pub).

Definition countBy (key : Publication.t -> string) (publications : list Publication.t)
    : gmap string nat :=
  foldl (fun counts pub => bump (key pub) counts) ∅ publications.

(** [publishedPubs.reduce((latest, pub) => pub.year > latest.year ? pub : latest)] *)
Definition later (latest pub : Publication.t) : Publication.t :=
  if Js.gt (Js.to_number (Publication.year pub)) (Js.to_number (Publication.year latest))
  then pub else latest.

Definition latestPublication (publications : list Publication.t) : field Publication.t :=
  match filter (fun pub => Publication.status pub = Val "published") publications with
  | [] => Null
  | first :: rest => Val (foldl later first rest)
  end.

(** The test that keeps an author as a collaborator. *)
Definition isCollaborator (author : string) : bool :=
  negb (bool_decide (author = "R Korol")) && negb (Js.includes "Roman" author).

(** [collaborators.add(author)] on a [Set], in insertion order. *)
Definition setAdd (author : string) (collaborators : list string) : list string :=
  if bool_decide (author ∈ collaborators) then collaborators else collaborators ++ [author].

(** The inner [forEach], over the authors of one publication. *)
Definition addCollaborators (set authors : list string) : list string :=
  foldl (fun set author => if isCollaborator author then setAdd author set else set)
        set authors.

(** The outer [forEach]; [pub.authors.forEach] throws when a publication
    has no [authors]. *)
Definition collaboratorsFrom (set : list string) (publications : list Publication.t)
    : result (list string) :=
  foldl (fun acc pub =>
           set ← acc;
           match Publication.authors pub with
           | Val authors => Ok (addCollaborators set authors)
           | _ => Throw "TypeError: cannot read properties of undefined"
           end)
        (Ok set) publications.

Definition collaborators (publications : list Publication.t) : result (list string) :=
  collaboratorsFrom [] publications.

(** The [metrics] object. *)
Definition computeMetrics (env : Env) (publications : list Publication.t)
    : result Statistics.t :=
  network ← collaborators publications;
  Ok {| Statistics.total_publications := Val (Num (Z.of_nat (length publications)));
        Statistics.last_updated := Val (today env);
        Statistics.publications_by_year := Val (countBy yearKey publications);
        Statistics.publications_by_status := Val (countBy statusKey publications);
        Statistics.publications_by_type := Val (countBy typeKey publications);
        Statistics.latest_publication := latestPublication publications;
        Statistics.collaboration_network := Val network;
        Statistics.others := ∅ |}.

(** [{ ...publicationsData.statistics, ...metrics }]: the properties of
    [metrics] replace the old ones, the other properties are kept. *)
Definition spread (old : field Statistics.t) (metrics : Statistics.t) : Statistics.t :=
  {| Statistics.total_publications := Statistics.total_publications metrics;
     Statistics.last_updated := Statistics.last_updated metrics;
     Statistics.publications_by_year := Statistics.publications_by_year metrics;
     Statistics.publications_by_status := Statistics.publications_by_status metrics;
     Statistics.publications_by_type := Statistics.publications_by_type metrics;
     Statistics.latest_publication := Statistics.latest_publication metrics;
     Statistics.collaboration_network := Statistics.collaboration_network metrics;
     Statistics.others :=
       match old with
       | Val stats => Statistics.others stats
       | _ => ∅
       end |}.

(** The whole operation: any exception is caught and nothing is written. *)
Definition generateAcademicMetrics (env : Env) (st : Store) : Store :=
  match publications_json st with
  | None => st
  | Some publicationsData =>
      match computeMetrics env (PublicationsData.publications publicationsData) with
      | Throw _ => st
      | Ok metrics =>
          writePublications
            {| PublicationsData.publications := PublicationsData.publications publicationsData;
               PublicationsData.statistics :=
                 Val (spread (PublicationsData.statistics publicationsData) metrics) |}
            st
      end
  end.

End Metrics.


(** ** JSON documents

    The values [JSON.parse] returns and the scripts build: the documents of
    the data directory at the level of their text. *)

#[local] Set Warnings "-register-all".
Inductive value : Type :=
| VUndefined : value
| VNull : value
| VBool : bool -> value
| VNumber : number -> value
| VString : string -> value
| VArray : list value -> value
| VObject : list (string * value) -> value    (* the properties, in property order *)
| VFunction : string -> value.                (* a built-in, with the text [String] gives *)

(** What the scripts take from the host: the properties found on the
    prototype chain of a value, the formatting of a date for the locale
    [en-US] in the time zone of the machine, and the path of a file of the
    data directory ([path.join(CONFIG.dataDir, filename)]). *)
Record Host : Type := mkHost {
  inherited : value -> string -> value;
  toLocaleDateString : field string -> string;
  dataPath : string -> string
}.

Module Json.

Definition dq : string := String "034" EmptyString.
Definition nl : string := String "010" EmptyString.

Fixpoint spaces (n : nat) : string :=
  match n with
  | O => EmptyString
  | S n' => String " " (spaces n')
  end.

(** *** Property order of objects *)

(** An array index: the decimal text of a number below 2^32 - 1. *)
Definition index_of_key (k : string) : option N :=
  match NilEmpty.uint_of_string k with
  | Some d =>
      let n := N.of_uint d in
      if bool_decide (NilEmpty.string_of_uint (N.to_uint n) = k) && (n <? 4294967295)%N
      then Some n else None
  | None => None
  end.

(** Definition of the property [k] on an object: an existing property keeps
    its place; a new array index goes among the indices, in ascending
    order; any other new key goes last. *)
Fixpoint define (k : string) (v : value) (props : list (string * value))
    : list (string * value) :=
  match props with
  | [] => [(k, v)]
  | (k', v') :: rest =>
      if bool_decide (k = k') then (k, v) :: rest
      else match index_of_key k, index_of_key k' with
           | Some n, Some n' =>
               if (n <? n')%N then (k, v) :: (k', v') :: rest
               else (k', v') :: define k v rest
           | Some _, None => (k, v) :: (k', v') :: rest
           | None, _ => (k', v') :: define k v rest
           end
  end.

(** The key [k] may follow the keys [before] in property order. *)
Definition key_fits (before : list string) (k : string) : bool :=
  bool_decide (k ∉ before)
  && match index_of_key k with
     | Some n =>
         forallb (fun k' => match index_of_key k' with
                            | Some n' => (n' <? n)%N
                            | None => false
                            end) before
     | None => true
     end.

Fixpoint keys_ordered (before keys : list string) : bool :=
  match keys with
  | [] => true
  | k :: keys' => key_fits before k && keys_ordered (before ++ [k]) keys'
  end.

(** *** [JSON.stringify(value, null, 2)] *)

Definition hex_digit (n : N) : ascii :=
  ascii_of_N (if (n <? 10)%N then 48 + n else 87 + n).

(** The text of one code unit inside a string literal. *)
Definition escape (c : ascii) : string :=
  let n := Js.code c in
  if (n =? 8)%N then "\b"
  else if (n =? 9)%N then "\t"
  else if (n =? 10)%N then "\n"
  else if (n =? 12)%N then "\f"
  else if (n =? 13)%N then "\r"
  else if (n =? 34)%N then String "\" dq
  else if (n =? 92)%N then "\\"
  else if (n <? 32)%N
       then "\u00" +:+ String (hex_digit (n / 16)) (String (hex_digit (n mod 16)) EmptyString)
  else String c EmptyString.

Fixpoint escape_all (s : string) : string :=
  match s with
  | EmptyString => EmptyString
  | String c s' => escape c +:+ escape_all s'
  end.

Definition quote (s : string) : string := dq +:+ escape_all s +:+ dq.

(** The text of an array or an object from the texts of its members. *)
Definition wrap (open close : string) (indent : nat) (items : list string) : string :=
  match items with
  | [] => open +:+ close
  | _ =>
      open +:+ nl +:+ spaces (indent + 2)
      +:+ Js.join ("," +:+ nl +:+ spaces (indent + 2)) items
      +:+ nl +:+ spaces indent +:+ close
  end.

(** [None] is the result [undefined]. *)
Fixpoint stringify_at (indent : nat) (v : value) {struct v} : option string :=
  match v with
  | VUndefined => None
  | VFunction _ => None
  | VNull => Some "null"
  | VBool b => Some (if b then "true" else "false")
  | VNumber NaN => Some "null"
  | VNumber (Num z) => Some (Js.Z_to_string z)
  | VString s => Some (quote s)
  | VArray l =>
      Some (wrap "[" "]" indent
              (map (fun v' => default "null" (stringify_at (indent + 2) v')) l))
  | VObject props =>
      Some (wrap "{" "}" indent
              (omap (fun kv =>
                       let '(k, v') := kv in
                       match stringify_at (indent + 2) v' with
                       | Some text => Some (quote k +:+ ": " +:+ text)
                       | None => None
                       end) props))
  end.

Definition stringify (v : value) : option string := stringify_at 0 v.

(** *** [JSON.parse(text)]

    The parser reads the JSON texts over the values of the model: integer
    numbers and code units below 256.  [None] is a [SyntaxError] (or a text
    outside that fragment). *)

Definition is_ws (c : ascii) : bool :=
  let n := Js.code c in
  ((n =? 32) || (n =? 9) || (n =? 10) || (n =? 13))%N.

Fixpoint skip_ws (s : string) : string :=
  match s with
  | String c s' => if is_ws c then skip_ws s' else s
  | EmptyString => EmptyString
  end.

(** Where the reader of a string literal stands: in plain text, after a
    backslash, or inside [\uXXXX] with the digits read so far. *)
Inductive string_state : Type :=
| Plain : string_state
| Escaped : string_state
| Unicode : list Z -> string_state.

(** The rest of a string literal after its opening quote: the string and
    the text after the closing quote. *)
Fixpoint read_string (st : string_state) (s : string) : option (string * string) :=
  match s with
  | EmptyString => None
  | String c s' =>
      let emit a := '(str, rest) ← read_string Plain s'; Some (String a str, rest) in
      match st with
      | Plain =>
          let n := Js.code c in
          if (n =? 34)%N then Some (EmptyString, s')
          else if (n =? 92)%N then read_string Escaped s'
          else if (n <? 32)%N then None
          else emit c
      | Escaped =>
          let n := Js.code c in
          if (n =? 34)%N then emit c
          else if (n =? 92)%N then emit c
          else if (n =? 47)%N then emit c
          else if (n =? 98)%N then emit (ascii_of_N 8)
          else if (n =? 102)%N then emit (ascii_of_N 12)
          else if (n =? 110)%N then emit (ascii_of_N 10)
          else if (n =? 114)%N then emit (ascii_of_N 13)
          else if (n =? 116)%N then emit (ascii_of_N 9)
          else if (n =? 117)%N then read_string (Unicode []) s'
          else None
      | Unicode ds =>
          match Js.hex_value c with
          | Some d =>
              match ds with
              | [d1; d2; d3] =>
                  let u := ((d1 * 16 + d2) * 16 + d3) * 16 + d in
                  if u <? 256 then emit (ascii_of_N (Z.to_N u)) else None
              | _ => read_string (Unicode (ds ++ [d])) s'
              end
          | None => None
          end
      end
  end.

(** The longest run of decimal digits at the head of [s]. *)
Fixpoint read_digits (s : string) : string * string :=
  match s with
  | String c s' =>
      if Js.is_digit c
      then let '(ds, rest) := read_digits s' in (String c ds, rest)
      else (EmptyString, s)
  | EmptyString => (EmptyString, EmptyString)
  end.

(** The optional minus sign of a number. *)
Definition read_sign (s : string) : bool * string :=
  match s with
  | String "-" s' => (true, s')
  | _ => (false, s)
  end.

(** An integer literal: no leading zero, no fraction, no exponent. *)
Definition read_number (s : string) : option (number * string) :=
  let '(negative, s1) := read_sign s in
  let '(ds, rest) := read_digits s1 in
  match ds, rest with
  | EmptyString, _ => None
  | String "0" (String _ _), _ => None
  | _, String "." _ => None
  | _, String "e" _ => None
  | _, String "E" _ => None
  | _, _ =>
      match NilEmpty.uint_of_string ds with
      | Some d =>
          let z := Z.of_uint d in
          Some (Num (if negative : bool then - z else z), rest)
      | None => None
      end
  end.

(** A literal name ([null], [true], [false]) at the head of [s]. *)
Fixpoint read_word (w s : string) : option string :=
  match w, s with
  | EmptyString, _ => Some s
  | String a w', String b s' => if decide (a = b) then read_word w' s' else None
  | String _ _, EmptyString => None
  end.

(** A value, the elements of an array after its bracket, the members of an
    object after its brace.  [fuel] bounds the depth of the calls: twice
    the length of the text is enough. *)
Fixpoint read_value (fuel : nat) (s : string) {struct fuel} : option (value * string) :=
  match fuel with
  | O => None
  | S fuel' =>
      match read_word "null" s with
      | Some rest => Some (VNull, rest)
      | None =>
      match read_word "true" s with
      | Some rest => Some (VBool true, rest)
      | None =>
      match read_word "false" s with
      | Some rest => Some (VBool false, rest)
      | None =>
      match read_word dq s with
      | Some s' => '(str, rest) ← read_string Plain s'; Some (VString str, rest)
      | None =>
      match read_word "[" s with
      | Some s' =>
          match read_word "]" (skip_ws s') with
          | Some rest => Some (VArray [], rest)
          | None => '(l, rest) ← read_elements fuel' (skip_ws s'); Some (VArray l, rest)
          end
      | None =>
      match read_word "{" s with
      | Some s' =>
          match read_word "}" (skip_ws s') with
          | Some rest => Some (VObject [], rest)
          | None =>
              '(members, rest) ← read_members fuel' (skip_ws s');
              Some (VObject (foldl (fun props kv => define kv.1 kv.2 props) [] members),
                    rest)
          end
      | None => '(n, rest) ← read_number s; Some (VNumber n, rest)
      end end end end end end
  end
with read_elements (fuel : nat) (s : string) {struct fuel}
    : option (list value * string) :=
  match fuel with
  | O => None
  | S fuel' =>
      '(v, rest) ← read_value fuel' s;
      match read_word "," (skip_ws rest) with
      | Some rest' =>
          '(l, rest'') ← read_elements fuel' (skip_ws rest'); Some (v :: l, rest'')
      | None =>
          match read_word "]" (skip_ws rest) with
          | Some rest' => Some ([v], rest')
          | None => None
          end
      end
  end
with read_members (fuel : nat) (s : string) {struct fuel}
    : option (list (string * value) * string) :=
  match fuel with
  | O => None
  | S fuel' =>
      s' ← read_word dq s;
      '(k, rest) ← read_string Plain s';
      rest1 ← read_word ":" (skip_ws rest);
      '(v, rest2) ← read_value fuel' (skip_ws rest1);
      match read_word "," (skip_ws rest2) with
      | Some rest3 =>
          '(members, rest4) ← read_members fuel' (skip_ws rest3);
          Some ((k, v) :: members, rest4)
      | None =>
          match read_word "}" (skip_ws rest2) with
          | Some rest3 => Some ([(k, v)], rest3)
          | None => None
          end
      end
  end.

Definition parse (text : string) : option value :=
  match read_value (2 * String.length text + 2) (skip_ws text) with
  | Some (v, rest) =>
      match skip_ws rest with
      | EmptyString => Some v
      | _ => None
      end
  | None => None
  end.

(** The first character of the text of a value. *)
Definition token_char (c : ascii) : bool :=
  Js.is_digit c
  || bool_decide (c = "-"%char) || bool_decide (c = "n"%char)
  || bool_decide (c = "t"%char) || bool_decide (c = "f"%char)
  || bool_decide (c = "034"%char) || bool_decide (c = "["%char)
  || bool_decide (c = "{"%char).

(** What follows the text of a value in the output of [stringify]: the end
    of the text, a comma or a line break. *)
Definition ends_value (rest : string) : bool :=
  match rest with
  | EmptyString => true
  | String c _ => bool_decide (c = ","%char) || bool_decide (c = "010"%char)
  end.

(** The number of nested calls the reader makes for a value. *)
Fixpoint weight (v : value) : nat :=
  match v with
  | VArray l => S (foldr (fun v' n => S (weight v' + n)) 0%nat l)
  | VObject props => S (foldr (fun kv n => let '(_, v') := kv in S (weight v' + n)) 0%nat props)
  | _ => 1%nat
  end.

(** The reader gives [v] back from the text [stringify] writes for it. *)
Definition reads_back (v : value) : Prop :=
  forall indent text rest fuel,
    stringify_at indent v = Some text -> ends_value rest = true ->
    (weight v <= fuel)%nat ->
    read_value fuel (text +:+ rest) = Some (v, rest).

(** The texts of the elements of an array and of the members of an object,
    and the separator between them. *)
Definition items (indent : nat) (l : list value) : list string :=
  map (fun v' => default "null" (stringify_at (indent + 2) v')) l.

Definition members (indent : nat) (props : list (string * value)) : list string :=
  omap (fun kv =>
          let '(k, v') := kv in
          match stringify_at (indent + 2) v' with
          | Some text => Some (quote k +:+ ": " +:+ text)
          | None => None
          end) props.

Definition separator (indent : nat) : string := "," +:+ nl +:+ spaces (indent + 2).

(** *** Documents *)

(** A value that is the image of a JSON text: no [undefined], no [NaN], no
    function, integers in the range where the decimal text is exact, and
    the properties of every object in property order. *)
Fixpoint is_json (v : value) : bool :=
  match v with
  | VUndefined | VFunction _ => false
  | VNull | VBool _ | VString _ => true
  | VNumber NaN => false
  | VNumber (Num z) => (Z.abs z <=? 9007199254740991)
  | VArray l => forallb is_json l
  | VObject props =>
      keys_ordered [] (map fst props)
      && forallb (fun kv => let '(_, v') := kv in is_json v') props
  end.

(** *** The data directory as files *)

(** [saveData(filename, data)]: the flag returned and the files afterwards.
    [fs.writeFileSync] throws when [JSON.stringify] yields [undefined]. *)
Definition saveData (host : Host) (filename : string) (data : value)
    (files : gmap string string) : bool * gmap string string :=
  match stringify data with
  | Some text => (true, <[dataPath host filename := text]> files)
  | None => (false, files)
  end.

(** [loadData(filename)] of the generator and [loadAndDisplayData(filename)]
    of the editor: the parsed document, or [null] after an error. *)
Definition loadData (host : Host) (filename : string) (files : gmap string string) : value :=
  match files !! dataPath host filename with
  | Some text => default VNull (parse text)
  | None => VNull
  end.

Definition loadAndDisplayData (host : Host) (filename : string)
    (files : gmap string string) : value :=
  loadData host filename files.

End Json.


(** ** Templates ([renderTemplate]) *)

Module Template.
Import Regex.

(** [String(v)], for a value whose conversion to a string returns (see
    [printable] below). *)
Fixpoint toString (v : value) : string :=
  match v with
  | VUndefined => "undefined"
  | VNull => "null"
  | VBool b => if b then "true" else "false"
  | VNumber n => Js.number_to_string n
  | VString s => s
  | VArray l =>
      Js.join "," (map (fun v' => match v' with
                                  | VUndefined | VNull => EmptyString
                                  | _ => toString v'
                                  end) l)
  | VObject _ => "[object Object]"
  | VFunction text => text
  end.

(** An own property of an object. *)
Fixpoint own (props : list (string * value)) (prop : string) : option value :=
  match props with
  | [] => None
  | (k, v) :: rest => if bool_decide (k = prop) then Some v else own rest prop
  end.

(** [obj?.[prop]]: nothing on [undefined] and [null]; the own properties
    of objects, arrays and strings; otherwise what the prototype chain
    holds. *)
Definition getProp (host : Host) (obj : value) (prop : string) : value :=
  match obj with
  | VUndefined | VNull => VUndefined
  | VObject props =>
      match own props prop with
      | Some v => v
      | None => inherited host obj prop
      end
  | VArray l =>
      match Json.index_of_key prop with
      | Some i => default (inherited host obj prop) (l !! N.to_nat i)
      | None =>
          if bool_decide (prop = "length") then VNumber (Num (Z.of_nat (length l)))
          else inherited host obj prop
      end
  | VString s =>
      match Json.index_of_key prop with
      | Some i =>
          match String.get (N.to_nat i) s with
          | Some c => VString (String c EmptyString)
          | None => inherited host obj prop
          end
      | None =>
          if bool_decide (prop = "length") then VNumber (Num (Z.of_nat (String.length s)))
          else inherited host obj prop
      end
  | _ => inherited host obj prop
  end.

(** [key.split('.').reduce((obj, prop) => obj?.[prop], data)] *)
Definition lookup (host : Host) (key : string) (data : value) : value :=
  foldl (getProp host) data (Js.split "." key).

(** The path of a placeholder: [\w+(?:\.\w+)*]. *)
Definition pathRegex : regex :=
  Seq (Plus true word) (Star true (Seq (Chr ".") (Plus true word))).

(** The characters of a path: word characters and dots. *)
Definition path_char (c : ascii) : bool := Js.is_word c || bool_decide (c = "."%char).

(** The literal [/\{\{(P)\}\}/g], where the group [P] is the path
    pattern. *)
Definition templateRegex : regex :=
  seq [Chr "{"; Chr "{"; Group 1 pathRegex; Chr "}"; Chr "}"].

(** Whether [String(v)] returns.  The conversion of an object to a string
    calls its [toString], which for an object read from JSON is the one of
    [Object.prototype] unless the object has an own property of this
    name; an own property, as read from JSON, is no function, and the
    conversion throws a [TypeError].  An array prints its elements, so it
    throws when one of them does. *)
Fixpoint printable (v : value) : bool :=
  match v with
  | VObject props => negb (bool_decide (is_Some (own props "toString")))
  | VArray l => forallb printable l
  | _ => true
  end.

(** The function given to [replace], with the conversion of its result to
    a string that [replace] makes. *)
Definition substitute (host : Host) (data : value) (matched : string) (c : captures)
    : result string :=
  let key := group 1 c in
  match lookup host key data with
  | VUndefined => Ok matched
  | value =>
      if printable value then Ok (toString value)
      else Throw "TypeError: cannot convert object to primitive value"
  end.

Definition renderTemplate (host : Host) (template : string) (data : value)
    : result string :=
  replace_all templateRegex (substitute host data) template.

(** The value a path of property names leads to through the own
    properties of nested objects. *)
Fixpoint follow (path : list string) (v : value) : option value :=
  match path with
  | [] => Some v
  | prop :: path' =>
      match v with
      | VObject props =>
          match own props prop with
          | Some v' => follow path' v'
          | None => None
          end
      | _ => None
      end
  end.

End Template.

(** ** The renderers of the content generator *)

Module Render.

Definition baseUrl : string := "https://romankorol.com".

Definition nl : string := Json.nl.

(** The texts of the templates are written with an apostrophe where the
    source has a double quote; [html] puts the double quotes back. *)
Fixpoint html (s : string) : string :=
  match s with
  | EmptyString => EmptyString
  | String c s' => String (if decide (c = "'"%char) then "034"%char else c) (html s')
  end.

(** The pieces of a template literal, one after the other. *)
Definition text (pieces : list string) : string := foldr String.append EmptyString pieces.

(** [${x}] for a string and for a number. *)
Definition str (f : field string) : string := Js.show id f.
Definition num (f : field number) : string := Js.show Js.number_to_string f.

(** [generatePublicationHTML(pub)]; [pub.authors.join] throws without
    [authors]. *)
Definition generatePublicationHTML (pub : Publication.t) : result string :=
  match Publication.authors pub with
  | Val authors =>
      let authorsStr :=
        Js.replace_first "R Korol" "<b>R Korol</b>" (Js.join ", " authors) in
      let awards :=
        match Publication.awards pub with
        | Val l =>
            Js.join " " (map (fun award =>
              text
                [html "<span class='award'>"; award; "</span>"]) l)
        | _ => EmptyString
        end in
      let doiLink :=
        match Publication.doi pub with
        | Val doi =>
            if Js.truthy_string doi
            then text
                 [html "<a href='https://doi.org/"; doi; html "'>"; doi; "</a>"]
            else EmptyString
        | _ => EmptyString
        end in
      Ok (text
          [nl;
           html "    <div class='publication' data-year='"; num (Publication.year pub); html "' data-status='"; str (Publication.status pub); html "'>"; nl;
           html "        <div id='"; str (Publication.id pub); html "' class='hidden'>"; nl;
           "            "; authorsStr; " <i>"; str (Publication.journal pub); "</i> <b>"; num (Publication.year pub); "</b>"; nl;
           "            "; doiLink; nl;
           "            "; awards; nl;
           html "            <a class='image left'>"; nl;
           html "                <img class='myBtn_multi' src='"; str (Publication.image pub); html "'"; nl;
           html "                     alt='Publication thumbnail for "; str (Publication.title pub); html "'"; nl;
           html "                     title='"; str (Publication.title pub); html "'>"; nl;
           "            </a>"; nl;
           html "            <div class='modal modal_multi'>"; nl;
           html "                <span class='close close_multi'>√ó</span>"; nl;
           html "                <img class='modal-content' src='"; str (Publication.image pub); html "'"; nl;
           html "                     alt='Research figure: "; str (Publication.title pub); html "'>"; nl;
           "            </div>"; nl;
           "            <p>"; str (Publication.abstract pub); "</p>"; nl;
           "        </div>"; nl;
           "    </div>"])
  | _ => Throw "TypeError: cannot read properties of undefined"
  end.

(** [generateNewsHTML(item)] *)
Definition generateNewsHTML (host : Host) (item : NewsItem.t) : string :=
  let dateFormatted := toLocaleDateString host (NewsItem.date item) in
  let images :=
    match NewsItem.images item with
    | Val l =>
        Js.join EmptyString (map (fun img =>
          text
            [html "<img class='modal-content' src='"; img; html "'"; nl;
             html "              alt='"; str (NewsItem.title item); html "' loading='lazy'>"]) l)
    | _ => EmptyString
    end in
  let tags :=
    match NewsItem.tags item with
    | Val l =>
        Js.join " " (map (fun tag =>
          text
            [html "<span class='tag'>"; tag; "</span>"]) l)
    | _ => EmptyString
    end in
  text
    [nl;
     html "    <article class='news-item "; (if Js.truthy id (NewsItem.featured item) then "featured" else ""); html "'"; nl;
     html "             data-category='"; str (NewsItem.category item); html "'>"; nl;
     "        <header>"; nl;
     "            <h3>"; str (NewsItem.title item); "</h3>"; nl;
     html "            <div class='date'>"; dateFormatted; "</div>"; nl;
     html "            <div class='category'>"; str (NewsItem.category item); "</div>"; nl;
     "        </header>"; nl;
     "        <p>"; str (NewsItem.summary item); "</p>"; nl;
     html "        <div class='content'>"; str (NewsItem.content item); "</div>"; nl;
     html "        <div class='images'>"; images; "</div>"; nl;
     html "        <div class='tags'>"; tags; "</div>"; nl;
     "    </article>"].

(** [generateResourceHTML(section)] *)
Definition generateResourceHTML (section : ResourceSection.t) : string :=
  let resources :=
    Js.join EmptyString (map (fun resource =>
      let links :=
        Js.join EmptyString (map (fun link =>
          text
            [html "<li><a href='"; str (Link.url link); html "' target='_blank' rel='noopener noreferrer'>"; nl;
             "                <strong>"; str (Link.title link); "</strong></a> - "; str (Link.provider link); "</li>"]) (Resource.links resource)) in
      text
        [nl;
         html "        <div class='resource'>"; nl;
         "            <h4>"; str (Resource.title resource); "</h4>"; nl;
         "            <p>"; str (Resource.description resource); "</p>"; nl;
         "            <ul>"; links; "</ul>"; nl;
         "        </div>"]) (ResourceSection.resources section)) in
  text
    [nl;
     html "    <section class='resource-section'>"; nl;
     "        <h3>"; str (ResourceSection.title section); "</h3>"; nl;
     "        <p>"; str (ResourceSection.description section); "</p>"; nl;
     "        "; resources; nl;
     "    </section>"].

(** [generateActivityHTML(section)] *)
Definition generateActivityHTML (section : ActivitySection.t) : string :=
  let activities :=
    Js.join EmptyString (map (fun activity =>
      let imageTag :=
        match Activity.image activity with
        | Val image =>
            if Js.truthy_string image
            then text
                 [html "<img src='"; image; html "'"; nl;
                  html "                      alt='"; str (Activity.title activity); html "'"; nl;
                  html "                      class='activity-image' loading='lazy'>"]
            else EmptyString
        | _ => EmptyString
        end in
      let dateTag :=
        match Activity.date activity with
        | Val date =>
            if Js.truthy_string date
            then text
                 [html "<span class='date'>"; date; "</span>"]
            else EmptyString
        | _ => EmptyString
        end in
      let locationTag :=
        match Activity.location activity with
        | Val location =>
            if Js.truthy_string location
            then text
                 [html "<span class='location'>"; location; "</span>"]
            else EmptyString
        | _ => EmptyString
        end in
      text
        [nl;
         html "        <div class='activity'>"; nl;
         "            <h4>"; str (Activity.title activity); "</h4>"; nl;
         "            <p>"; str (Activity.description activity); "</p>"; nl;
         "            "; imageTag; nl;
         html "            <div class='activity-meta'>"; nl;
         "                "; dateTag; nl;
         "                "; locationTag; nl;
         "            </div>"; nl;
         "        </div>"; nl;
         "    "]) (ActivitySection.activities section)) in
  text
    [nl;
     html "    <section id='"; str (ActivitySection.id section); html "' class='activity-section'>"; nl;
     "        <h3>"; str (ActivitySection.title section); "</h3>"; nl;
     "        <p>"; str (ActivitySection.description section); "</p>"; nl;
     html "        <div class='activities'>"; activities; "</div>"; nl;
     "    </section>"].

(** A string property as a value. *)
Definition string_value (f : field string) : value :=
  match f with
  | Undefined => VUndefined
  | Null => VNull
  | Val s => VString s
  end.

(** The object built for one publication; [pub.year.toString()] throws
    without a year. *)
Definition credential (pub : Publication.t) : result value :=
  match Publication.year pub with
  | Val year =>
      Ok (VObject
            [("@type", VString "ScholarlyArticle");
             ("name", string_value (Publication.title pub));
             ("author", match Publication.authors pub with
                        | Val authors => VArray (map VString authors)
                        | Null => VNull
                        | Undefined => VUndefined
                        end);
             ("datePublished", VString (Js.number_to_string year));
             ("publisher", string_value (Publication.journal pub));
             ("url", match Publication.doi pub with
                     | Val doi =>
                         if Js.truthy_string doi
                         then VString (text
                              ["https://doi.org/"; doi])
                         else VUndefined
                     | _ => VUndefined
                     end)])
  | _ => Throw "TypeError: cannot read properties of undefined"
  end.

(** [generateStructuredData(personal, publications)]; [publications] is
    [None] when [publications.json] did not load. *)
Definition generateStructuredData (personal : Personal.t)
    (publications : option PublicationsData.t) : result string :=
  institution ← match Personal.institution personal with
                | Val i => Ok i
                | _ => Throw "TypeError: cannot read properties of undefined"
                end;
  social ← match Personal.social personal with
           | Val l => Ok l
           | _ => Throw "TypeError: cannot convert undefined or null to object"
           end;
  background ← match Personal.background personal with
               | Val b => Ok b
               | _ => Throw "TypeError: cannot read properties of undefined"
               end;
  education ← match Background.education background with
              | Val l => Ok l
              | _ => Throw "TypeError: cannot read properties of undefined"
              end;
  let structuredData :=
    [("@context", VString "https://schema.org");
     ("@type", VString "Person");
     ("name", string_value (Personal.name personal));
     ("jobTitle", string_value (Personal.title personal));
     ("worksFor", VObject [("@type", VString "Organization");
                           ("name", string_value (Institution.name institution));
                           ("url", string_value (Institution.url institution))]);
     ("url", VString baseUrl);
     ("sameAs", VArray (map (fun kv => VString kv.2) social));
     ("knowsAbout", VArray [VString "Quantum Dynamics";
                            VString "Computational Chemistry";
                            VString "Semiclassical Methods"]);
     ("alumniOf", VArray (map (fun edu =>
        VObject [("@type", VString "Organization");
                 ("name", string_value (Education.institution edu));
                 ("url", string_value (Education.url edu))]) education))] in
  structuredData ←
    match publications with
    | Some data =>
        credentials ← mapM (M := result) credential (PublicationsData.publications data);
        Ok (structuredData ++ [("hasCredential", VArray credentials)])
    | None => Ok structuredData
    end;
  Ok (default EmptyString (Json.stringify (VObject structuredData))).

(** The fixed list of pages of [generateSitemap]. *)
Module Page.
Record t : Type := mk {
  url : string;
  changefreq : string;
  priority : string
}.
End Page.

Definition pages : list Page.t :=
  [Page.mk "" "monthly" "1.0";
   Page.mk "research.html" "monthly" "0.9";
   Page.mk "news.html" "weekly" "0.8";
   Page.mk "learn.html" "monthly" "0.7";
   Page.mk "activities.html" "monthly" "0.7"].

(** [generateSitemap()]: every entry carries the date of the run. *)
Definition generateSitemap (env : Env) : string :=
  let urls :=
    Js.join EmptyString (map (fun page =>
      text
        [nl;
         "    <url>"; nl;
         "        <loc>"; baseUrl; "/"; Page.url page; "</loc>"; nl;
         "        <changefreq>"; Page.changefreq page; "</changefreq>"; nl;
         "        <priority>"; Page.priority page; "</priority>"; nl;
         "        <lastmod>"; today env; "</lastmod>"; nl;
         "    </url>"]) pages) in
  text
    [html "<?xml version='1.0' encoding='UTF-8'?>"; nl;
     html "<urlset xmlns='http://www.sitemaps.org/schemas/sitemap/0.9'>"; nl;
     urls; nl;
     "</urlset>"].

(** [generateContent()]: the files written to the directory [generated],
    by name.  Without [personal.json] nothing is generated; an exception
    in a renderer ends the run before anything is written. *)
Definition generateContent (host : Host) (env : Env) (st : Store)
    : result (gmap string string) :=
  match personal_json st with
  | None => Ok ∅
  | Some personal =>
      publications ←
        match publications_json st with
        | Some data =>
            Js.join EmptyString <$>
              mapM (M := result) generatePublicationHTML (PublicationsData.publications data)
        | None => Ok EmptyString
        end;
      let news :=
        match news_json st with
        | Some items => Js.join EmptyString (map (generateNewsHTML host) items)
        | None => EmptyString
        end in
      let resources :=
        match resources_json st with
        | Some sections => Js.join EmptyString (map generateResourceHTML sections)
        | None => EmptyString
        end in
      let activities :=
        match activities_json st with
        | Some sections => Js.join EmptyString (map generateActivityHTML sections)
        | None => EmptyString
        end in
      structuredData ← generateStructuredData personal (publications_json st);
      let sitemap := generateSitemap env in
      Ok (<["publications.html" := publications]>
          (<["news.html" := news]>
          (<["resources.html" := resources]>
          (<["activities.html" := activities]>
          (<["structuredData.json" := structuredData]>
          (<["sitemap.xml" := sitemap]> ∅))))))
  end.

End Render.
(** ** Further parts of the scripts *)

(** A string that does not begin with white space. *)
Definition no_space_ahead (s : string) : Prop :=
  match s with
  | EmptyString => True
  | String c _ => Js.is_space c = false
  end.

(** The names of the properties of [Object.prototype].  A counter of the
    metrics is a plain object: for a key with one of these names the
    expression [counts[key] || 0] reads the inherited property, so the
    model of the counters as maps holds for the other keys. *)
Definition objectPrototypeNames : list string :=
  ["constructor"; "__defineGetter__"; "__defineSetter__"; "hasOwnProperty";
   "__lookupGetter__"; "__lookupSetter__"; "isPrototypeOf"; "propertyIsEnumerable";
   "toString"; "valueOf"; "__proto__"; "toLocaleString"].

(** What a JSON text keeps of a value: [JSON.stringify] writes [null] for
    [NaN] and for [undefined] or a function inside an array, and leaves
    out a property whose value is [undefined] or a function. *)
Module Saved.

Definition dropped (v : value) : bool :=
  match v with
  | VUndefined | VFunction _ => true
  | _ => false
  end.

Fixpoint kept (v : value) : value :=
  match v with
  | VUndefined | VFunction _ => VNull
  | VNumber NaN => VNull
  | VArray l => VArray (map kept l)
  | VObject props =>
      VObject (omap (fun kv =>
                       let '(k, v') := kv in
                       if dropped v' then None else Some (k, kept v')) props)
  | _ => v
  end.

End Saved.

(** ** The other operations of the content editor

    The editor reads a whole document with [loadAndDisplayData], changes
    it in place and writes it back with [saveData]; the operations below
    work on the parsed documents.  What the user types is given line by
    line.  The prototypes of the host are the [inherited] properties. *)

Module Edit.

(** [prompt(question)]: the line the user typed, trimmed. *)
Definition prompt (line : string) : string := Js.trim line.

(** ToBoolean of a value. *)
Definition truthy_value (v : value) : bool :=
  match v with
  | VUndefined | VNull => false
  | VBool b => b
  | VNumber n => Js.truthy_number n
  | VString s => Js.truthy_string s
  | VArray _ | VObject _ | VFunction _ => true
  end.

(** [obj[k] = v] for a key that is no array index, seen through
    [JSON.stringify]: a property of an object is defined; on an array the
    new property is not part of the text; on a boolean, a number or a
    string the assignment does nothing (the scripts are not in strict
    mode); on [undefined] and [null] it throws. *)
Definition assign (k : string) (v : value) (obj : value) : result value :=
  match obj with
  | VUndefined | VNull => Throw "TypeError: cannot set properties of undefined"
  | VObject props => Ok (VObject (Json.define k v props))
  | _ => Ok obj
  end.

(** *** [addNewsItem] *)

(** The lines typed at the eight prompts. *)
Record NewsLines : Type := mkNewsLines {
  l_id : string;
  l_title : string;
  l_date : string;
  l_category : string;
  l_summary : string;
  l_content : string;
  l_featured : string;
  l_tags : string
}.

(** [tags]: the pieces between commas, trimmed, the empty ones dropped. *)
Definition tagsOf (line : string) : list string :=
  filter (fun t => Js.truthy_string t = true) (map Js.trim (Js.split "," (prompt line))).

(** The object [newsItem]. *)
Definition newsItem (a : NewsLines) : value :=
  VObject
    [("id", VString (prompt (l_id a)));
     ("title", VString (prompt (l_title a)));
     ("date", VString (prompt (l_date a)));
     ("category", VString (Js.or_string (Val (prompt (l_category a))) "academic"));
     ("summary", VString (prompt (l_summary a)));
     ("content", VString (prompt (l_content a)));
     ("featured", VBool (bool_decide (Js.toLowerCase (prompt (l_featured a)) = "y")));
     ("tags", VArray (map VString (tagsOf (l_tags a))))].

(** [newsData.news.unshift(newsItem)] and the assignment of
    [last_updated], on the document [newsData]; calling [unshift] throws
    unless [news] is an array. *)
Definition addToNews (host : Host) (env : Env) (item : value) (newsData : value)
    : result value :=
  match Template.getProp host newsData "news" with
  | VArray news =>
      match newsData with
      | VObject props =>
          let props :=
            match Template.own props "news" with
            | Some _ => Json.define "news" (VArray (item :: news)) props
            | None => props         (* the array of a prototype *)
            end in
          assign "last_updated" (VString (today env)) (VObject props)
      | _ => assign "last_updated" (VString (today env)) newsData
      end
  | _ => Throw "TypeError: newsData.news.unshift is not a function"
  end.

(** The whole operation on the files of the data directory; nothing is
    written when [news.json] does not load. *)
Definition addNewsItem (host : Host) (env : Env) (a : NewsLines)
    (files : gmap string string) : result (gmap string string) :=
  let item := newsItem a in
  let newsData := Json.loadAndDisplayData host "news.json" files in
  if truthy_value newsData
  then newsData ← addToNews host env item newsData;
       Ok (Json.saveData host "news.json" newsData files).2
  else Ok files.

(** *** [editPersonalInfo] *)

(** The three [console.log] lines that show the current information. *)
Definition showPersonal (host : Host) (personalData : value) : result unit :=
  if Template.printable (Template.getProp host personalData "name")
     && Template.printable (Template.getProp host personalData "title")
  then match Template.getProp host personalData "institution" with
       | VUndefined | VNull => Throw "TypeError: cannot read properties of undefined"
       | institution =>
           if Template.printable (Template.getProp host institution "name")
           then Ok tt
           else Throw "TypeError: cannot convert object to primitive value"
       end
  else Throw "TypeError: cannot convert object to primitive value".

(** The [switch]: [None] is the [default] branch, which returns without
    saving.  In the branch [institution] two lines are read. *)
Definition editField (host : Host) (field line1 line2 : string) (personalData : value)
    : result (option value) :=
  let field := Js.toLowerCase (prompt field) in
  if bool_decide (field = "name")
  then Some <$> assign "name" (VString (prompt line1)) personalData
  else if bool_decide (field = "title")
  then Some <$> assign "title" (VString (prompt line1)) personalData
  else if bool_decide (field = "institution")
  then
    institution ← assign "name" (VString (prompt line1))
                    (Template.getProp host personalData "institution");
    institution ← assign "url" (VString (prompt line2)) institution;
    Ok (Some match personalData with
             | VObject props =>
                 match Template.own props "institution" with
                 | Some _ => VObject (Json.define "institution" institution props)
                 | None => personalData
                 end
             | _ => personalData
             end)
  else Ok None.

Definition editPersonalInfo (host : Host) (field line1 line2 : string)
    (files : gmap string string) : result (gmap string string) :=
  let personalData := Json.loadAndDisplayData host "personal.json" files in
  if truthy_value personalData
  then _ ← showPersonal host personalData;
       edited ← editField host field line1 line2 personalData;
       match edited with
       | Some personalData => Ok (Json.saveData host "personal.json" personalData files).2
       | None => Ok files
       end
  else Ok files.

(** *** [addResource] *)

(** [Object.keys(v)]: the own enumerable properties, in property order. *)
Definition ownKeys (v : value) : result (list string) :=
  match v with
  | VUndefined | VNull => Throw "TypeError: cannot convert undefined or null to object"
  | VObject props => Ok (map fst props)
  | VArray l => Ok (map Js.nat_to_string (seq 0 (length l)))
  | VString s => Ok (map Js.nat_to_string (seq 0 (String.length s)))
  | _ => Ok []
  end.

(** The list of the sections that is shown: for each key the [title] of
    the section is printed. *)
Definition showSections (host : Host) (sections : value) : result unit :=
  keys ← ownKeys sections;
  _ ← mapM (M := result) (fun key =>
         match Template.getProp host sections key with
         | VUndefined | VNull => Throw "TypeError: cannot read properties of undefined"
         | section =>
             if Template.printable (Template.getProp host section "title")
             then Ok tt
             else Throw "TypeError: cannot convert object to primitive value"
         end) keys;
  Ok tt.

(** The value of an own property replaced where it stands. *)
Fixpoint replaceOwn (k : string) (v : value) (props : list (string * value))
    : list (string * value) :=
  match props with
  | [] => []
  | (k', v') :: rest =>
      if bool_decide (k' = k) then (k', v) :: rest else (k', v') :: replaceOwn k v rest
  end.

(** A change made in place to the value of [obj[key]], seen through
    [JSON.stringify]: the document changes when the value is an own
    property of an object or an element of an array; a change to a value
    found on the prototype chain leaves the document as it is. *)
Definition modify (host : Host) (obj : value) (key : string)
    (change : value -> result value) : result value :=
  match obj with
  | VObject props =>
      match Template.own props key with
      | Some v => v' ← change v; Ok (VObject (replaceOwn key v' props))
      | None => _ ← change (inherited host obj key); Ok obj
      end
  | VArray l =>
      match Json.index_of_key key with
      | Some i =>
          match l !! N.to_nat i with
          | Some v => v' ← change v; Ok (VArray (<[N.to_nat i := v']> l))
          | None => _ ← change (inherited host obj key); Ok obj
          end
      | None => _ ← change (Template.getProp host obj key); Ok obj
      end
  | _ => _ ← change (Template.getProp host obj key); Ok obj
  end.

(** The lines typed for one link and at the question that follows it. *)
Record LinkLines : Type := mkLinkLines {
  k_title : string;
  k_url : string;
  k_provider : string;
  k_more : string
}.

(** The loop that reads the links, on the lines that remain to be read:
    a link is read, then the question decides whether another one
    follows.  [None]: the input ends before the loop does, the operation
    never completes. *)
Fixpoint readLinks (input : list LinkLines) : option (list value) :=
  match input with
  | [] => None
  | l :: input' =>
      let link := VObject [("title", VString (prompt (k_title l)));
                           ("url", VString (prompt (k_url l)));
                           ("provider", VString (prompt (k_provider l)))] in
      if bool_decide (Js.toLowerCase (prompt (k_more l)) = "y")
      then links ← readLinks input'; Some (link :: links)
      else Some [link]
  end.

(** [resourcesData.sections[sectionKey].resources.push(resource)] *)
Definition pushResource (host : Host) (sectionKey : string) (resource : value)
    (resourcesData : value) : result value :=
  modify host resourcesData "sections" (fun sections =>
    modify host sections sectionKey (fun section =>
      modify host section "resources" (fun resources =>
        match resources with
        | VArray l => Ok (VArray (l ++ [resource]))
        | _ => Throw "TypeError: resources.push is not a function"
        end))).

(** The whole operation.  Nothing is written when [resources.json] does
    not load, when the section does not exist, or when the input ends too
    early. *)
Definition addResource (host : Host) (env : Env) (key title type description : string)
    (input : list LinkLines) (files : gmap string string) : result (gmap string string) :=
  let resourcesData := Json.loadAndDisplayData host "resources.json" files in
  if truthy_value resourcesData
  then
    let sections := Template.getProp host resourcesData "sections" in
    _ ← showSections host sections;
    let sectionKey := prompt key in
    if truthy_value (Template.getProp host sections sectionKey)
    then
      match readLinks input with
      | Some links =>
          let resource :=
            VObject [("title", VString (prompt title));
                     ("type", VString (prompt type));
                     ("description", VString (prompt description));
                     ("links", VArray links)] in
          resourcesData ← pushResource host sectionKey resource resourcesData;
          resourcesData ← assign "last_updated" (VString (today env)) resourcesData;
          Ok (Json.saveData host "resources.json" resourcesData files).2
      | None => Ok files
      end
    else Ok files
  else Ok files.

End Edit.

(** ** The full run ([runAcademicIntegration])

    The update, the metrics, the validation and the documents, in this
    order.  An exception of the update ends the run; the metrics catch
    theirs.  The validation only logs its issues, returned here with the
    data directory; the documents are written outside the data
    directory. *)
Module Integration.

Definition runAcademicIntegration (env : Env) (st : Store) : result (Store * list string) :=
  st ← Merger.updatePublicationsFromSources env st;
  let st := Metrics.generateAcademicMetrics env st in
  Ok (st, Validator.validateAcademicData env st).

End Integration.

(** ** BibTeX files with their entries apart

    The entry pattern [@(\w+)\{([^,]+),\s*([\s\S]*?)\n\}] takes an entry
    for what it is when the entry is written as follows: an at sign, a
    type of word characters, an opening brace, a key without comma, a
    comma, white space, the fields, which start with a character that is
    no white space and hold no line break followed by a closing brace,
    then a line break and the closing brace. *)

Module BibtexFile.

Record Entry : Type := mkEntry {
  type : string;
  key : string;
  space : string;
  content : string
}.

(** The line break and the closing brace that end an entry. *)
Definition closing : string := String "010" (String "}" EmptyString).

Definition text (e : Entry) : string :=
  "@" +:+ type e +:+ "{" +:+ key e +:+ "," +:+ space e +:+ content e +:+ closing.

Definition starts_with_text (s : string) : bool :=
  match s with
  | EmptyString => false
  | String c _ => negb (Js.is_space c)
  end.

Definition well_formed (e : Entry) : bool :=
  negb (bool_decide (type e = EmptyString))
  && Js.all Js.is_word (type e)
  && negb (bool_decide (key e = EmptyString))
  && Js.all (fun b => negb (bool_decide (","%char = b))) (key e)
  && Js.all Js.is_space (space e)
  && starts_with_text (content e)
  && negb (Js.includes closing (content e)).

(** A text without at sign: no entry starts in it. *)
Definition plain (s : string) : bool :=
  Js.all (fun b => negb (bool_decide ("@"%char = b))) s.

(** A file: entries, each followed by a text. *)
Fixpoint file (entries : list (Entry * string)) : string :=
  match entries with
  | [] => EmptyString
  | (e, after) :: entries' => text e +:+ after +:+ file entries'
  end.

Definition well_formed_file (entries : list (Entry * string)) : Prop :=
  Forall (fun '(e, after) => well_formed e = true /\ plain after = true) entries.

(** The groups of the match of an entry. *)
Definition captures (e : Entry) : Regex.captures :=
  <[3%nat := content e]> (<[2%nat := key e]> (<[1%nat := type e]> ∅)).

(** What the loop body of [parseBibtexFile] does with the type, the key and
    the fields of an entry. *)
Definition candidate (env : Env) (e : Entry) : option Publication.t :=
  let fields := Bibtex.parseFields (content e) in
  if bool_decide (Js.toLowerCase (type e) = "article")
     && Js.truthy Js.truthy_string (Bibtex.prop fields "title")
  then Some (Bibtex.makePublication env (key e) fields)
  else None.

Definition candidates (env : Env) (entries : list (Entry * string)) : list Publication.t :=
  omap (fun '(e, _) => candidate env e) entries.

End BibtexFile.

(** ** Sample documents

    Small concrete documents, used to run the model. *)

Definition sampleStatistics : Statistics.t :=
  {| Statistics.total_publications := Val (Num 0);
     Statistics.last_updated := Val "2024-01-01";
     Statistics.publications_by_year := Undefined;
     Statistics.publications_by_status := Undefined;
     Statistics.publications_by_type := Undefined;
     Statistics.latest_publication := Undefined;
     Statistics.collaboration_network := Undefined;
     Statistics.others := ∅ |}.

Definition sampleData : PublicationsData.t :=
  {| PublicationsData.publications := [];
     PublicationsData.statistics := Val sampleStatistics |}.

Definition sampleStore : Store :=
  {| personal_json := None;
     publications_json := Some sampleData;
     news_json := None;
     resources_json := None;
     activities_json := None;
     references_bib := None |}.


Definition sampleEnv : Env := mkEnv 2024 "2024-06-01".

(** A record that carries a year and a status and nothing else. *)
Definition yearStatusOnly (year : Z) (status : string) : Publication.t :=
  {| Publication.id := Undefined;
     Publication.title := Undefined;
     Publication.authors := Undefined;
     Publication.journal := Undefined;
     Publication.year := Val (Num year);
     Publication.doi := Undefined;
     Publication.abstract := Undefined;
     Publication.image := Undefined;
     Publication.type := Undefined;
     Publication.status := Val status;
     Publication.awards := Undefined |}.

(** The collection
    [[{year:2023,status:"published"}, {year:2023,status:"submitted"},
      {year:2024,status:"published"}]]. *)
Definition yearStatusPublications : list Publication.t :=
  [yearStatusOnly 2023 "published"; yearStatusOnly 2023 "submitted";
   yearStatusOnly 2024 "published"].

(** A journal article with a title, authors and a year. *)
Definition article (id title : string) (authors : list string) (year : Z) : Publication.t :=
  {| Publication.id := Val id;
     Publication.title := Val title;
     Publication.authors := Val authors;
     Publication.journal := Val "J. Chem. Phys.";
     Publication.year := Val (Num year);
     Publication.doi := Null;
     Publication.abstract := Val "";
     Publication.image := Undefined;
     Publication.type := Val "journal";
     Publication.status := Val "published";
     Publication.awards := Undefined |}.

Definition samplePersonal : Personal.t :=
  {| Personal.name := Val "Roman Korol";
     Personal.title := Val "Postdoctoral Fellow";
     Personal.institution :=
       Val {| Institution.name := Val "University of Rochester";
              Institution.url := Val "https://www.rochester.edu" |};
     Personal.social := Val [("linkedin", "https://www.linkedin.com/in/rk")];
     Personal.background :=
       Val {| Background.education :=
                Val [{| Education.institution := Val "University of Toronto";
                        Education.url := Undefined |}] |} |}.

Definition storeOf (publications : list Publication.t) : Store :=
  {| personal_json := Some samplePersonal;
     publications_json :=
       Some {| PublicationsData.publications := publications;
               PublicationsData.statistics := Val sampleStatistics |};
     news_json := None;
     resources_json := None;
     activities_json := None;
     references_bib := None |}.

Definition withStatus (status : string) (p : Publication.t) : Publication.t :=
  {| Publication.id := Publication.id p;
     Publication.title := Publication.title p;
     Publication.authors := Publication.authors p;
     Publication.journal := Publication.journal p;
     Publication.year := Publication.year p;
     Publication.doi := Publication.doi p;
     Publication.abstract := Publication.abstract p;
     Publication.image := Publication.image p;
     Publication.type := Publication.type p;
     Publication.status := Val status;
     Publication.awards := Publication.awards p |}.

Definition withoutTitle (p : Publication.t) : Publication.t :=
  {| Publication.id := Publication.id p;
     Publication.title := Undefined;
     Publication.authors := Publication.authors p;
     Publication.journal := Publication.journal p;
     Publication.year := Publication.year p;
     Publication.doi := Publication.doi p;
     Publication.abstract := Publication.abstract p;
     Publication.image := Publication.image p;
     Publication.type := Publication.type p;
     Publication.status := Publication.status p;
     Publication.awards := Publication.awards p |}.

(** The entry [@article{k1, title={T}, year={2022}}] on one line, and the
    same entry with its closing brace on a line of its own. *)
Definition entryOnOneLine : string := "@article{k1, title={T}, year={2022}}".

Definition entryOnTwoLines : string :=
  "@article{k1, title={T}, year={2022}" +:+ Json.nl +:+ "}".

Definition entryOnFourLines : string :=
  "@article{k1," +:+ Json.nl +:+ "  title={T}," +:+ Json.nl
  +:+ "  year={2022}" +:+ Json.nl +:+ "}".

(** A file with a book and an article that has a title only. *)
Definition bookAndArticle : string :=
  "@book{b1," +:+ Json.nl +:+ "  title = {A Book}," +:+ Json.nl
  +:+ "  author = {A Writer}" +:+ Json.nl +:+ "}" +:+ Json.nl
  +:+ "@Article{a1," +:+ Json.nl +:+ "  title = {An Article}" +:+ Json.nl +:+ "}".

(** A host without inherited properties that prints a date as it is
    given, and a host of another time zone. *)
Definition sampleHost : Host :=
  {| inherited := fun _ _ => VUndefined;
     toLocaleDateString := fun date => Js.show id date;
     dataPath := fun filename => "data/" +:+ filename |}.

Definition otherHost : Host :=
  {| inherited := fun _ _ => VUndefined;
     toLocaleDateString := fun date => "the day before " +:+ Js.show id date;
     dataPath := fun filename => "data/" +:+ filename |}.

Definition nextDay : Env := mkEnv 2024 "2024-06-02".

(** Another year, another machine, the same date and the same formatting of
    dates. *)
Definition sameDay : Env := mkEnv 2023 "2024-06-01".

Definition sameZoneHost : Host :=
  {| inherited := fun _ _ => VNull;
     toLocaleDateString := fun date => Js.show id date;
     dataPath := fun filename => "/srv/data/" +:+ filename |}.

(** A document as [JSON.parse] returns it. *)
Definition sampleDocument : value :=
  VObject
    [("publications",
      VArray [VObject [("id", VString "korol2023");
                       ("title", VString "Quantum dynamics");
                       ("authors", VArray [VString "R Korol"; VString "J Doe"]);
                       ("year", VNumber (Num 2023));
                       ("doi", VNull)]]);
     ("statistics",
      VObject [("total_publications", VNumber (Num 1));
               ("publications_by_year", VObject [("2023", VNumber (Num 1))])])].

Definition sampleNews : NewsItem.t :=
  {| NewsItem.id := Val "2024-06-talk";
     NewsItem.title := Val "Talk";
     NewsItem.date := Val "2024-06-01";
     NewsItem.category := Val "academic";
     NewsItem.summary := Val "A talk";
     NewsItem.content := Val "Details";
     NewsItem.images := Undefined;
     NewsItem.featured := Val true;
     NewsItem.tags := Val ["talk"] |}.

Definition contentStore : Store :=
  {| personal_json := Some samplePersonal;
     publications_json :=
       Some {| PublicationsData.publications :=
                 [article "korol2023" "Quantum dynamics" ["R Korol"; "J Doe"] 2023];
               PublicationsData.statistics := Val sampleStatistics |};
     news_json := Some [sampleNews];
     resources_json := Some [];
     activities_json := Some [];
     references_bib := None |}.

(** Two publications whose titles differ in letter case only, and a third
    one, with or without its title. *)
Definition duplicatedTitles (third : Publication.t) : list Publication.t :=
  [article "korol2023" "Quantum Dynamics" ["R Korol"] 2023;
   article "korol2023b" "quantum dynamics" ["R Korol"; "J Doe"] 2023;
   third].

Definition withDoi (doi : string) (p : Publication.t) : Publication.t :=
  {| Publication.id := Publication.id p;
     Publication.title := Publication.title p;
     Publication.authors := Publication.authors p;
     Publication.journal := Publication.journal p;
     Publication.year := Publication.year p;
     Publication.doi := Val doi;
     Publication.abstract := Publication.abstract p;
     Publication.image := Publication.image p;
     Publication.type := Publication.type p;
     Publication.status := Publication.status p;
     Publication.awards := Publication.awards p |}.
(** ** More sample documents *)

(** A data directory with a BibTeX file next to it. *)
Definition bibStore : Store :=
  {| personal_json := Some samplePersonal;
     publications_json :=
       Some {| PublicationsData.publications :=
                 [article "korol2023" "Quantum dynamics" ["R Korol"; "J Doe"] 2023];
               PublicationsData.statistics := Val sampleStatistics |};
     news_json := None;
     resources_json := None;
     activities_json := None;
     references_bib := Some entryOnTwoLines |}.

(** The documents [news.json] and [personal.json] as the editor loads
    them, and a data directory that holds them. *)
Definition newsDocument : value :=
  VObject
    [("news",
      VArray [VObject [("id", VString "2024-06-talk");
                       ("title", VString "Talk");
                       ("date", VString "2024-06-01");
                       ("featured", VBool true);
                       ("tags", VArray [VString "talk"])]]);
     ("last_updated", VString "2024-06-01");
     ("categories", VArray [VString "academic"; VString "research"])].

Definition personalDocument : value :=
  VObject
    [("name", VString "Roman Korol");
     ("title", VString "Postdoctoral Fellow");
     ("institution",
      VObject [("name", VString "University of Rochester");
               ("url", VString "https://www.rochester.edu");
               ("department", VString "Chemistry")]);
     ("social", VObject [("email", VString "rk@example.org")])].

Definition editorFiles : gmap string string :=
  (Json.saveData sampleHost "personal.json" personalDocument
     (Json.saveData sampleHost "news.json" newsDocument ∅).2).2.

Definition sampleNewsLines : Edit.NewsLines :=
  Edit.mkNewsLines " 2024-09-conference" "Conference " "2024-09-01" "" "A summary"
    "The content" "Y" "talk, , quantum dynamics ,".

(** The document [resources.json] and a data directory that holds it. *)
Definition resourcesDocument : value :=
  VObject
    [("sections",
      VObject
        [("courses",
          VObject [("title", VString "Courses");
                   ("description", VString "Lecture courses");
                   ("resources", VArray [])]);
         ("tools",
          VObject [("title", VString "Tools");
                   ("resources",
                    VArray [VObject [("title", VString "A tool");
                                     ("links", VArray [])]])])]);
     ("last_updated", VString "2024-01-01")].

Definition resourceFiles : gmap string string :=
  (Json.saveData sampleHost "resources.json" resourcesDocument ∅).2.

Definition sampleLinks : list Edit.LinkLines :=
  [Edit.mkLinkLines "Lecture notes" "https://example.org/notes" "Example" " Y ";
   Edit.mkLinkLines "Videos" "https://example.org/videos" "Example" "n";
   Edit.mkLinkLines "7" "" "" ""].

(** An article written on one line, followed by a book on four lines. *)
Definition articleOnOneLineThenBook : string :=
  "@article{a1, title={First}}" +:+ Json.nl
  +:+ "@book{b1," +:+ Json.nl +:+ "  title={B}," +:+ Json.nl
  +:+ "  author={W}" +:+ Json.nl +:+ "}".

(** The entries of [entryOnTwoLines] and [entryOnFourLines], and a book. *)
Definition entryTwoLines : BibtexFile.Entry :=
  BibtexFile.mkEntry "article" "k1" " " "title={T}, year={2022}".

Definition entryFourLines : BibtexFile.Entry :=
  BibtexFile.mkEntry "article" "k1" (Json.nl +:+ "  ")
    ("title={T}," +:+ Json.nl +:+ "  year={2022}").

Definition bookEntry : BibtexFile.Entry :=
  BibtexFile.mkEntry "book" "b1" (Json.nl +:+ "  ")
    ("title = {A Book}," +:+ Json.nl +:+ "  author = {A Writer}").

Definition articleEntry : BibtexFile.Entry :=
  BibtexFile.mkEntry "Article" "a1" (Json.nl +:+ "  ") "title = {An Article}".

Definition miscEntry : BibtexFile.Entry :=
  BibtexFile.mkEntry "misc" "x" " " "note={a}".

(** * Verification *)

(** ** Strings *)

Section string_facts.
Implicit Types (s t u : string) (c : ascii).

Lemma app_empty_r s : s +:+ "" = s.
Proof. induction s as [|c s IH]; simpl; [done | by rewrite IH]. Qed.

Lemma app_assoc_s s t u : (s +:+ t) +:+ u = s +:+ (t +:+ u).
Proof. induction s as [|c s IH]; simpl; [done | by rewrite IH]. Qed.

Lemma length_app_s s t : String.length (s +:+ t) = (String.length s + String.length t)%nat.
Proof. induction s as [|c s IH]; simpl; [done | by rewrite IH]. Qed.

Lemma length_zero_s s : String.length s = 0%nat -> s = "".
Proof. by destruct s. Qed.

Lemma substring_prefix s t : String.substring 0 (String.length s) (s +:+ t) = s.
Proof.
  induction s as [|c s IH]; simpl.
  - by destruct t.
  - by rewrite IH.
Qed.

Lemma consumed_app s t : Regex.consumed (s +:+ t) t = s.
Proof.
  unfold Regex.consumed. rewrite length_app_s.
  replace (String.length s + String.length t - String.length t)%nat
    with (String.length s) by lia.
  apply substring_prefix.
Qed.

(** Two ways of cutting the same string. *)
Lemma app_eq_app_s s1 t1 s2 t2 :
  s1 +:+ t1 = s2 +:+ t2 ->
  (exists u, s1 = s2 +:+ u /\ t2 = u +:+ t1)
  \/ (exists u, s2 = s1 +:+ u /\ t1 = u +:+ t2).
Proof.
  revert s2. induction s1 as [|c s1 IH]; intros s2 H; simpl in H.
  - right. exists s2. by split.
  - destruct s2 as [|c2 s2]; simpl in H.
    + left. exists (String c s1). by split.
    + injection H as -> H. destruct (IH _ H) as [(u & -> & ->) | (u & -> & ->)].
      * left. by exists u.
      * right. by exists u.
Qed.

End string_facts.

(** ** The matcher *)

Section regex_facts.
Import Regex.

Lemma matches_consumes r s :
  matches r s -> consumes r = true -> s <> "".
Proof.
  induction 1 as [| | | r1 r2 s1 s2 _ IH1 _ IH2 | | |]; simpl; try done.
  intros [H | H]%orb_true_iff.
  - specialize (IH1 H). by destruct s1.
  - specialize (IH2 H). destruct s1; [done | done].
Qed.

(** Soundness of the loop of a quantifier, from the soundness of the
    matcher of its body. *)
Lemma star_loop_sound {R} (r1 : regex) m1 greedy (k : string -> captures -> option R) :
  (forall x c k' (res : R), m1 x c k' = Some res ->
     exists s x' c', x = s +:+ x' /\ matches r1 s /\ k' x' c' = Some res
                     /\ (groupless r1 = true -> c' = c)) ->
  forall fuel x c res,
    star_loop m1 greedy k fuel x c = Some res ->
    exists s x' c', x = s +:+ x' /\ matches (Star greedy r1) s /\ k x' c' = Some res
                    /\ (groupless r1 = true -> c' = c).
Proof.
  intros Hm1. induction fuel as [|fuel IH]; intros x c res H.
  - simpl in H.
    assert (k x c = Some res) as Hk by (destruct greedy, (k x c); done).
    exists "", x, c. split_and!; [done | constructor | done | done].
  - simpl in H.
    assert (k x c = Some res
            \/ m1 x c (fun x' c' =>
                 if (String.length x' <? String.length x)%nat
                 then star_loop m1 greedy k fuel x' c' else None) = Some res) as [Hk | Hmore].
    { destruct greedy.
      - destruct (m1 x c _) eqn:E; [right; congruence | by left].
      - destruct (k x c) eqn:E; [left; congruence | by right]. }
    + exists "", x, c. split_and!; [done | constructor | done | done].
    + apply Hm1 in Hmore as (s1 & x1 & c1 & -> & Hs1 & Hcont & Hc1).
      destruct (String.length x1 <? String.length (s1 +:+ x1))%nat eqn:Hlt; [| done].
      apply Nat.ltb_lt in Hlt. rewrite length_app_s in Hlt.
      apply IH in Hcont as (s2 & x' & c' & -> & Hs2 & Hk & Hc').
      exists (s1 +:+ s2), x', c'. split_and!.
      * by rewrite app_assoc_s.
      * apply matches_star_cons; [| done | done]. intros ->. simpl in Hlt. lia.
      * done.
      * intros Hg. rewrite Hc' by done. by apply Hc1.
Qed.

(** Soundness: a successful match splits the input into a text of the
    pattern and a rest on which the continuation succeeded. *)
Lemma rmatch_sound {R} r : forall x c (k : string -> captures -> option R) res,
  rmatch r x c k = Some res ->
  exists s x' c', x = s +:+ x' /\ matches r s /\ k x' c' = Some res
                  /\ (groupless r = true -> c' = c).
Proof.
  induction r as [| a | p | r1 IH1 r2 IH2 | greedy r1 IH1 | n r1 IH1];
    intros x c k res H; simpl in H.
  - exists "", x, c. split_and!; [done | constructor | done | done].
  - destruct x as [|b x]; [done |]. case_decide; [subst b | done].
    exists (String a ""), x, c. split_and!; [done | constructor | done | done].
  - destruct x as [|b x]; [done |]. destruct (p b) eqn:Hp; [| done].
    exists (String b ""), x, c. split_and!; [done | by constructor | done | done].
  - apply IH1 in H as (s1 & x1 & c1 & -> & Hs1 & H & Hc1).
    apply IH2 in H as (s2 & x2 & c2 & -> & Hs2 & H & Hc2).
    exists (s1 +:+ s2), x2, c2. split_and!.
    + by rewrite app_assoc_s.
    + by constructor.
    + done.
    + simpl. intros [H1 H2]%andb_true_iff. rewrite Hc2, Hc1; done.
  - eapply star_loop_sound in H; [exact H |].
    intros x0 c0 k' res0. apply IH1.
  - apply IH1 in H as (s1 & x1 & c1 & -> & Hs1 & H & _).
    exists s1, x1, (<[n := consumed (s1 +:+ x1) x1]> c1).
    split_and!; [done | by constructor | done | done].
Qed.

(** Completeness: when a text of the pattern is at the head of the input
    and the continuation accepts what follows it, the matcher succeeds. *)
Lemma rmatch_complete_aux r s :
  matches r s ->
  (forall R x' c (k : string -> captures -> option R),
     (forall c', k x' c' <> None) -> rmatch r (s +:+ x') c k <> None)
  /\ (forall greedy r1, r = Star greedy r1 ->
      forall R fuel x' c (k : string -> captures -> option R),
        (String.length (s +:+ x') <= fuel)%nat ->
        (forall c', k x' c' <> None) ->
        star_loop (fun x c k' => rmatch r1 x c k') greedy k fuel (s +:+ x') c <> None).
Proof.
  induction 1 as [| a | p a Hp | r1 r2 s1 s2 _ [IH1 _] _ [IH2 _] | n r1 s _ [IH1 _]
                  | greedy r1 | greedy r1 s1 s2 Hne _ [IH1 _] _ [_ IH2]].
  - split; [| done]. intros R x' c k Hk. simpl. apply Hk.
  - split; [| done]. intros R x' c k Hk. simpl. case_decide; [apply Hk | done].
  - split; [| done]. intros R x' c k Hk. simpl. rewrite Hp. apply Hk.
  - split; [| done]. intros R x' c k Hk. simpl. rewrite app_assoc_s.
    apply IH1. intros c'. by apply IH2.
  - split; [| done]. intros R x' c k Hk. simpl. apply IH1. intros c'. apply Hk.
  - assert (forall R fuel x' c (k : string -> captures -> option R),
              (forall c', k x' c' <> None) ->
              star_loop (fun x c k' => rmatch r1 x c k') greedy k fuel x' c <> None) as Hloop.
    { intros R fuel x' c k Hk. specialize (Hk c).
      destruct fuel; simpl; destruct greedy; repeat case_match; done. }
    split.
    + intros R x' c k Hk. simpl. by apply Hloop.
    + intros g r [= <- <-] R fuel x' c k _ Hk. simpl. by apply Hloop.
  - assert (forall R fuel x' c (k : string -> captures -> option R),
              (String.length ((s1 +:+ s2) +:+ x') <= fuel)%nat ->
              (forall c', k x' c' <> None) ->
              star_loop (fun x c k' => rmatch r1 x c k') greedy k fuel ((s1 +:+ s2) +:+ x') c
              <> None) as Hloop.
    { intros R fuel x' c k Hfuel Hk.
      rewrite app_assoc_s in *. rewrite length_app_s in Hfuel.
      destruct fuel as [|fuel].
      { destruct s1; [done | simpl in Hfuel; lia]. }
      simpl.
      match goal with
      | |- context [rmatch r1 ?x ?c ?k1] =>
          assert (rmatch r1 x c k1 <> None) as Hmore
      end.
      { apply IH1. intros c'.
        assert ((String.length (s2 +:+ x') <? String.length (s1 +:+ (s2 +:+ x')))%nat
                = true) as ->.
        { apply Nat.ltb_lt. rewrite (length_app_s s1).
          destruct s1; [done | simpl; lia]. }
        assert (0 < String.length s1)%nat by (destruct s1; [done | simpl; lia]).
        apply (IH2 greedy r1 eq_refl); [lia | done]. }
      destruct greedy; repeat case_match; done. }
    split.
    + intros R x' c k Hk. simpl. by apply Hloop.
    + intros g r [= <- <-] R fuel x' c k Hfuel Hk. by apply Hloop.
Qed.

Lemma rmatch_complete {R} r s x' c (k : string -> captures -> option R) :
  matches r s -> (forall c', k x' c' <> None) -> rmatch r (s +:+ x') c k <> None.
Proof. intros H. by apply (rmatch_complete_aux r s H). Qed.

(** The matcher decides the texts of a pattern. *)
Lemma full_match_spec r s : full_match r s = true <-> matches r s.
Proof.
  unfold full_match. rewrite bool_decide_eq_true. split.
  - intros [[] H]. apply rmatch_sound in H as (s0 & x' & c' & -> & Hs & H & _).
    case_bool_decide; [subst x' | done]. by rewrite app_empty_r.
  - intros H. rewrite <- (app_empty_r s) at 1.
    apply not_eq_None_Some. apply rmatch_complete; [done |].
    intros c'. by rewrite bool_decide_eq_true_2.
Qed.

(** A match of a pattern that consumes input leaves a shorter rest. *)
Lemma match_here_inv r x c x' :
  match_here r x = Some (c, x') ->
  exists s, x = s +:+ x' /\ matches r s.
Proof.
  unfold match_here. intros H.
  apply rmatch_sound in H as (s & x1 & c1 & -> & Hs & [= <- <-] & _). by exists s.
Qed.

Lemma match_here_shorter r x c x' :
  consumes r = true -> match_here r x = Some (c, x') ->
  (String.length x' < String.length x)%nat.
Proof.
  intros Hr (s & -> & Hs)%match_here_inv.
  apply matches_consumes in Hs; [| done].
  rewrite length_app_s. destruct s; [done | simpl; lia].
Qed.

Lemma exec_shorter r x c x' :
  consumes r = true -> exec r x = Some (c, x') ->
  (String.length x' < String.length x)%nat.
Proof.
  intros Hr. induction x as [|a x IH]; simpl.
  - destruct (match_here r "") as [[c0 x0]|] eqn:E; [| done].
    intros [= <- <-]. by apply match_here_shorter in E.
  - destruct (match_here r (String a x)) as [[c0 x0]|] eqn:E.
    + intros [= <- <-]. by apply match_here_shorter in E.
    + intros H. apply IH in H. lia.
Qed.

(** The fuel of the loops is never used up: the loops satisfy their
    recursive equations. *)
Lemma exec_all_go_fuel r : consumes r = true ->
  forall n fuel1 fuel2 x,
    (String.length x < n)%nat -> (String.length x < fuel1)%nat ->
    (String.length x < fuel2)%nat ->
    exec_all_go fuel1 r x = exec_all_go fuel2 r x.
Proof.
  intros Hr. induction n as [|n IH]; intros fuel1 fuel2 x Hn H1 H2; [lia |].
  destruct fuel1 as [|fuel1]; [lia |]. destruct fuel2 as [|fuel2]; [lia |].
  simpl. destruct (exec r x) as [[c x']|] eqn:E; [| done].
  apply exec_shorter in E; [| done]. f_equal. apply IH; lia.
Qed.

Lemma exec_all_unfold r x : consumes r = true ->
  exec_all r x = match exec r x with
                 | Some (c, x') => c :: exec_all r x'
                 | None => []
                 end.
Proof.
  intros Hr. unfold exec_all.
  change (exec_all_go (S (String.length x)) r x)
    with (match exec r x with
          | Some (c, x') => c :: exec_all_go (String.length x) r x'
          | None => []
          end).
  destruct (exec r x) as [[c x']|] eqn:E; [| done].
  f_equal. pose proof (exec_shorter _ _ _ _ Hr E).
  apply (exec_all_go_fuel r Hr (S (String.length x))); lia.
Qed.

Lemma replace_all_go_fuel r f : consumes r = true ->
  forall n fuel1 fuel2 x,
    (String.length x < n)%nat -> (String.length x < fuel1)%nat ->
    (String.length x < fuel2)%nat ->
    replace_all_go fuel1 r f x = replace_all_go fuel2 r f x.
Proof.
  intros Hr. induction n as [|n IH]; intros fuel1 fuel2 x Hn H1 H2; [lia |].
  destruct fuel1 as [|fuel1]; [lia |]. destruct fuel2 as [|fuel2]; [lia |].
  simpl. destruct (match_here r x) as [[c x']|] eqn:E.
  - apply match_here_shorter in E; [| done].
    rewrite (IH fuel1 fuel2 x') by lia. done.
  - destruct x as [|a x]; [done |]. simpl in *.
    rewrite (IH fuel1 fuel2 x) by lia. done.
Qed.

Lemma replace_all_unfold r f x : consumes r = true ->
  replace_all r f x
  = match match_here r x with
    | Some (c, x') =>
        text ← f (consumed x x') c;
        rest ← replace_all r f x';
        Ok (text +:+ rest)
    | None =>
        match x with
        | EmptyString => Ok EmptyString
        | String a x' =>
            rest ← replace_all r f x';
            Ok (String a rest)
        end
    end.
Proof.
  intros Hr. unfold replace_all.
  change (replace_all_go (S (String.length x)) r f x)
    with (match match_here r x with
          | Some (c, x') =>
              text ← f (consumed x x') c;
              rest ← replace_all_go (String.length x) r f x';
              Ok (text +:+ rest)
          | None =>
              match x with
              | EmptyString => Ok EmptyString
              | String a x' =>
                  rest ← replace_all_go (String.length x) r f x';
                  Ok (String a rest)
              end
          end).
  destruct (match_here r x) as [[c x']|] eqn:E.
  - pose proof (match_here_shorter _ _ _ _ Hr E).
    rewrite (replace_all_go_fuel r f Hr (S (String.length x))
               (String.length x) (S (String.length x')) x') by lia.
    done.
  - destruct x as [|a x]; done.
Qed.

End regex_facts.
(** ** More facts on strings and on exceptions *)

Section more_string_facts.

Lemma app_empty_l (s : string) : "" +:+ s = s.
Proof. reflexivity. Qed.

Lemma all_app q s t : Js.all q (s +:+ t) = Js.all q s && Js.all q t.
Proof. induction s as [|c s IH]; simpl; [done | by rewrite IH, andb_assoc]. Qed.

Lemma startsWith_app p s : Js.startsWith p s = true -> exists t, s = p +:+ t.
Proof.
  revert s. induction p as [|a p IH]; intros s; simpl.
  - by exists s.
  - destruct s as [|b s]; [done |]. case_decide as Hab; [| done].
    subst. intros [t ->]%IH. by exists t.
Qed.

Lemma rev_app_eq s1 : forall s2, String.rev_app s1 s2 = String.rev s1 +:+ s2.
Proof.
  unfold String.rev.
  induction s1 as [|c s1 IH]; intros s2; simpl; [done |].
  rewrite (IH (String c s2)), (IH (String c "")). by rewrite app_assoc_s.
Qed.

Lemma rev_cons c s : String.rev (String c s) = String.rev s +:+ String c "".
Proof. unfold String.rev at 1. simpl. apply rev_app_eq. Qed.

Lemma rev_append s1 s2 : String.rev (s1 +:+ s2) = String.rev s2 +:+ String.rev s1.
Proof.
  induction s1 as [|c s1 IH]; simpl.
  - by rewrite app_empty_r.
  - by rewrite !rev_cons, IH, app_assoc_s.
Qed.

Lemma rev_rev s : String.rev (String.rev s) = s.
Proof.
  induction s as [|c s IH]; [done |].
  by rewrite rev_cons, rev_append, IH.
Qed.

Lemma split_go_cons sep s : forall skip acc,
  exists first rest, Js.split_go sep skip acc s = first :: rest.
Proof.
  induction s as [|c s IH]; intros skip acc; simpl.
  - by eexists _, _.
  - destruct skip as [|k]; [| apply IH].
    destruct (Js.startsWith sep (String c s)); [by eexists _, _ | apply IH].
Qed.

Lemma bind_throw {A B} (e : string) (k : A -> result B) : (Throw e ≫= k) = Throw e.
Proof. reflexivity. Qed.

Lemma bind_ok {A B} (x : A) (k : A -> result B) : (Ok x ≫= k) = k x.
Proof. reflexivity. Qed.

(** Splitting at dots: the pieces of [a.b] are those of [a] followed by
    those of [b]. *)
Lemma split_go_dot a b : forall acc,
  Js.split_go "." 0 acc (a +:+ String "." b)
  = Js.split_go "." 0 acc a ++ Js.split_go "." 0 "" b.
Proof.
  induction a as [|c a IH]; intros acc.
  - reflexivity.
  - cbn [String.append Js.split_go Js.startsWith].
    destruct (decide ("."%char = c)); simpl.
    + f_equal. apply IH.
    + apply IH.
Qed.

(** A text without a dot is one piece. *)
Lemma split_go_plain s : Js.all (fun b => negb (bool_decide ("."%char = b))) s = true ->
  forall acc, Js.split_go "." 0 acc s = [String.rev acc +:+ s].
Proof.
  induction s as [|c s IH]; intros Hall acc.
  - simpl. by rewrite app_empty_r.
  - simpl in Hall. apply andb_true_iff in Hall as [Hc Hall].
    apply negb_true_iff, bool_decide_eq_false in Hc.
    cbn [Js.split_go Js.startsWith].
    destruct (decide ("."%char = c)); [done |]. simpl.
    rewrite (IH Hall), rev_cons, app_assoc_s. done.
Qed.

(** Names without dots, joined by dots, are the pieces of the joined
    text. *)
Lemma split_join_path (path : list string) :
  path <> [] ->
  Forall (fun prop => Js.all (fun b => negb (bool_decide ("."%char = b))) prop = true) path ->
  Js.split "." (Js.join "." path) = path.
Proof.
  intros Hpath Hall. unfold Js.split.
  induction path as [|p path IH]; [done |].
  apply Forall_cons in Hall as [Hp Hall].
  destruct path as [|q path].
  - simpl. by rewrite split_go_plain.
  - change (Js.join "." (p :: q :: path)) with (p +:+ String "." (Js.join "." (q :: path))).
    rewrite split_go_dot, (split_go_plain p Hp), IH by done. done.
Qed.

End more_string_facts.




(** ** The merge keeps what exists *)

Section merge_facts.
Implicit Types (existing incoming added pre post : list Publication.t).
Implicit Types (p q : Publication.t).

#[local] Abbreviation ids l := (Publication.id <$> l).

Lemma find_id_none q l :
  List.find (fun pub => bool_decide (Publication.id pub = Publication.id q)) l = None
  <-> Publication.id q ∉ ids l.
Proof.
  induction l as [|p l IH]; simpl.
  - split; [intros _; apply not_elem_of_nil | done].
  - rewrite not_elem_of_cons. case_bool_decide as Hid.
    + split; [done | intros [Hne _]; congruence].
    + rewrite IH. split; [intros H; split; [congruence | done] | intros [_ H]; done].
Qed.

Lemma mergeStep_absent l q :
  Publication.id q ∉ ids l -> Merger.mergeStep l q = l ++ [q].
Proof.
  intros H. unfold Merger.mergeStep.
  apply find_id_none in H. by rewrite H.
Qed.

Lemma mergeStep_present l q :
  Publication.id q ∈ ids l -> Merger.mergeStep l q = l.
Proof.
  intros H. unfold Merger.mergeStep.
  destruct (List.find _ l) eqn:E; [done |].
  apply find_id_none in E. done.
Qed.

Lemma merge_snoc existing pre q :
  Merger.merge existing (pre ++ [q])
  = Merger.mergeStep (Merger.merge existing pre) q.
Proof. unfold Merger.merge. by rewrite foldl_app. Qed.

(** The merged collection is the existing one followed by the records
    that were appended; those are the first incoming records of each
    identifier the existing collection does not hold. *)
Lemma merge_appends incoming : forall existing,
  exists added,
    Merger.merge existing incoming = existing ++ added
    /\ (forall q, q ∈ added -> q ∈ incoming /\ Publication.id q ∉ ids existing)
    /\ NoDup (ids added)
    /\ (forall q, q ∈ incoming -> Publication.id q ∈ ids (existing ++ added))
    /\ (forall pre q post, incoming = pre ++ q :: post ->
          Publication.id q ∉ ids existing -> Publication.id q ∉ ids pre ->
          q ∈ added).
Proof.
  induction incoming as [|q0 inc IH]; intros existing.
  - exists []. rewrite app_nil_r. split_and!.
    + done.
    + by intros q ?%elem_of_nil.
    + constructor.
    + by intros q ?%elem_of_nil.
    + intros [|??] ?? E; discriminate E.
  - unfold Merger.merge. simpl.
    destruct (decide (Publication.id q0 ∈ ids existing)) as [Hin | Hout].
    + rewrite (mergeStep_present _ _ Hin).
      destruct (IH existing) as (added & Hm & Hadd & Hnd & Hall & Hfirst).
      exists added. split_and!; try done.
      * intros q Hq. split; [| by apply Hadd].
        apply elem_of_cons. right. by apply Hadd.
      * intros q [-> | Hq]%elem_of_cons.
        -- rewrite fmap_app. apply elem_of_app. by left.
        -- by apply Hall.
      * intros [|q1 pre] q post E Hq Hpre; simplify_eq/=; [done |].
        apply (Hfirst pre q post); [done | done |].
        by apply not_elem_of_cons in Hpre as [_ ?].
    + rewrite (mergeStep_absent _ _ Hout).
      destruct (IH (existing ++ [q0])) as (added & Hm & Hadd & Hnd & Hall & Hfirst).
      exists (q0 :: added). split_and!.
      * unfold Merger.merge in Hm. rewrite Hm. by rewrite <- app_assoc.
      * intros q [-> | Hq]%elem_of_cons.
        { split; [apply elem_of_cons; by left | done]. }
        split; [apply elem_of_cons; right; by apply Hadd |].
        apply Hadd in Hq as [_ Hq]. rewrite fmap_app in Hq.
        by apply not_elem_of_app in Hq as [? _].
      * rewrite fmap_cons. constructor; [| done].
        intros (q & Hid & Hq)%list_elem_of_fmap.
        apply Hadd in Hq as [_ Hq]. apply Hq.
        rewrite fmap_app, <- Hid. apply elem_of_app. right. simpl. apply list_elem_of_singleton. done.
      * intros q Hq. specialize (Hall q).
        replace (existing ++ q0 :: added) with ((existing ++ [q0]) ++ added)
          by (by rewrite <- app_assoc).
        apply elem_of_cons in Hq as [-> | Hq]; [| by apply Hall].
        rewrite !fmap_app. apply elem_of_app. left. apply elem_of_app. right.
        simpl. by apply list_elem_of_singleton.
      * intros [|q1 pre] q post E Hq Hpre; simplify_eq/=.
        { apply elem_of_cons. by left. }
        apply elem_of_cons. right.
        apply not_elem_of_cons in Hpre as [Hne Hpre].
        apply (Hfirst pre q post); [done | | done].
        rewrite fmap_app. apply not_elem_of_app. split; [done |].
        simpl. by intros ?%list_elem_of_singleton.
Qed.

End merge_facts.

(** C1.  Whatever the existing collection and the incoming sequence, the
    merge of [updatePublicationsFromSources] leaves every existing record
    where it is, with every field as it was.  The incoming records are
    taken in turn: one whose identifier the collection does not hold is
    appended at the end, one whose identifier it holds leaves the
    collection untouched.  Altogether the result is the existing collection
    followed by appended incoming records, none of which carries an
    identifier of an existing record. *)
Theorem merge_never_overwrites (existing incoming : list Publication.t) :
  (forall i p, existing !! i = Some p -> Merger.merge existing incoming !! i = Some p)
  /\ (forall pre q post, incoming = pre ++ q :: post ->
        let collection := Merger.merge existing pre in
        (Publication.id q ∉ Publication.id <$> collection ->
           Merger.merge existing (pre ++ [q]) = collection ++ [q])
        /\ (Publication.id q ∈ Publication.id <$> collection ->
              Merger.merge existing (pre ++ [q]) = collection))
  /\ (exists added,
        Merger.merge existing incoming = existing ++ added
        /\ (forall q, q ∈ added ->
              q ∈ incoming /\ Publication.id q ∉ Publication.id <$> existing)
        /\ NoDup (Publication.id <$> added)
        /\ (forall q, q ∈ incoming ->
              Publication.id q ∈ Publication.id <$> (existing ++ added))
        /\ (forall pre q post, incoming = pre ++ q :: post ->
              Publication.id q ∉ Publication.id <$> existing ->
              Publication.id q ∉ Publication.id <$> pre ->
              q ∈ added)).
Proof.
  destruct (merge_appends incoming existing) as (added & Hm & Hrest).
  split; [| split].
  - intros i p Hi. rewrite Hm. by apply lookup_app_l_Some.
  - intros pre q post _ collection. subst collection. rewrite merge_snoc.
    split; [apply mergeStep_absent | apply mergeStep_present].
  - by exists added.
Qed.

(** ** The count of publications follows the collection *)

Lemma addToData_front env pub data stats :
  PublicationsData.statistics data = Val stats ->
  exists stats',
    Editor.addToData env pub data
    = Ok {| PublicationsData.publications := pub :: PublicationsData.publications data;
            PublicationsData.statistics := Val stats' |}
    /\ Statistics.total_publications stats'
       = Val (Num (Z.of_nat (S (length (PublicationsData.publications data))))).
Proof.
  intros Hs. unfold Editor.addToData. rewrite Hs. eexists. split; reflexivity.
Qed.

(** C10.  When [publications.json] loads and holds a [statistics] object,
    both operations that add publications succeed and write a document
    whose [statistics.total_publications] is the length of its
    [publications]; the editor puts the new publication in front of the
    ones that were there. *)
Theorem total_publications_is_length env st data stats :
  publications_json st = Some data ->
  PublicationsData.statistics data = Val stats ->
  (forall a, exists st' data' stats',
      Editor.addPublication env a st = Ok st'
      /\ publications_json st' = Some data'
      /\ PublicationsData.statistics data' = Val stats'
      /\ Statistics.total_publications stats'
         = Val (Num (Z.of_nat (length (PublicationsData.publications data'))))
      /\ PublicationsData.publications data'
         = normalizePublication (Editor.newPublication a)
           :: map normalizePublication (PublicationsData.publications data))
  /\ (forall bib, references_bib st = Some bib ->
      exists st' data' stats',
        Merger.updatePublicationsFromSources env st = Ok st'
        /\ publications_json st' = Some data'
        /\ PublicationsData.statistics data' = Val stats'
        /\ Statistics.total_publications stats'
           = Val (Num (Z.of_nat (length (PublicationsData.publications data'))))).
Proof.
  intros Hdata Hstats. split.
  - intros a. unfold Editor.addPublication, Editor.addToData.
    rewrite Hdata, Hstats. simpl.
    do 3 eexists. split_and!; try reflexivity.
    simpl. by rewrite length_map.
  - intros bib Hbib.
    unfold Merger.updatePublicationsFromSources, Merger.mergeData.
    rewrite Hbib, Hdata, Hstats. simpl.
    do 3 eexists. split_and!; try reflexivity.
    simpl. by rewrite length_map.
Qed.

Lemma total_publications_is_length_witness :
  let data :=
    {| PublicationsData.publications :=
         [article "korol2023" "Quantum dynamics" ["R Korol"; "J Doe"] 2023];
       PublicationsData.statistics := Val sampleStatistics |} in
  publications_json bibStore = Some data
  /\ PublicationsData.statistics data = Val sampleStatistics
  /\ references_bib bibStore = Some entryOnTwoLines
  /\ (forall a, exists st' data' stats',
        Editor.addPublication sampleEnv a bibStore = Ok st'
        /\ publications_json st' = Some data'
        /\ PublicationsData.statistics data' = Val stats'
        /\ Statistics.total_publications stats'
           = Val (Num (Z.of_nat (length (PublicationsData.publications data'))))
        /\ PublicationsData.publications data'
           = normalizePublication (Editor.newPublication a)
             :: map normalizePublication (PublicationsData.publications data))
  /\ (exists st' data' stats',
        Merger.updatePublicationsFromSources sampleEnv bibStore = Ok st'
        /\ publications_json st' = Some data'
        /\ PublicationsData.statistics data' = Val stats'
        /\ Statistics.total_publications stats'
           = Val (Num (Z.of_nat (length (PublicationsData.publications data')))))
  /\ (exists st' data',
        Merger.updatePublicationsFromSources sampleEnv bibStore = Ok st'
        /\ publications_json st' = Some data'
        /\ Publication.id <$> PublicationsData.publications data'
           = [Val "korol2023"; Val "k1"]).
Proof.
  intros data.
  destruct (total_publications_is_length sampleEnv bibStore data sampleStatistics
              eq_refl eq_refl) as [Heditor Hupdate].
  split_and!; [reflexivity | reflexivity | reflexivity | exact Heditor | |].
  - exact (Hupdate entryOnTwoLines eq_refl).
  - eexists _, _. split_and!; reflexivity.
Defined.

(** ** Metrics *)

Section metrics_facts.
Implicit Types (publications : list Publication.t) (set network authors : list string).

Lemma setAdd_elem author a set :
  a ∈ Metrics.setAdd author set <-> a ∈ set \/ a = author.
Proof.
  unfold Metrics.setAdd. case_bool_decide as Hin.
  - split; [by left | intros [? | ->]; done].
  - rewrite elem_of_app, list_elem_of_singleton. done.
Qed.

Lemma setAdd_NoDup author set : NoDup set -> NoDup (Metrics.setAdd author set).
Proof.
  intros Hnd. unfold Metrics.setAdd. case_bool_decide as Hin; [done |].
  apply NoDup_app. split_and!; [done | | apply NoDup_singleton].
  intros x Hx ->%list_elem_of_singleton. done.
Qed.

Lemma addCollaborators_spec authors : forall set,
  (NoDup set -> NoDup (Metrics.addCollaborators set authors))
  /\ forall a, a ∈ Metrics.addCollaborators set authors
       <-> a ∈ set \/ (a ∈ authors /\ Metrics.isCollaborator a = true).
Proof.
  unfold Metrics.addCollaborators.
  induction authors as [|author authors IH]; intros set; simpl.
  - split; [done |]. intros a. split; [by left |].
    intros [? | [?%elem_of_nil _]]; done.
  - destruct (IH (if Metrics.isCollaborator author
                  then Metrics.setAdd author set else set)) as [Hnd Hel].
    split.
    + intros H. apply Hnd. destruct (Metrics.isCollaborator author); [| done].
      by apply setAdd_NoDup.
    + intros a. rewrite Hel, elem_of_cons.
      destruct (Metrics.isCollaborator author) eqn:E.
      * rewrite setAdd_elem. split.
        -- intros [[? | ->] | [? ?]]; [by left | right | right]; split; auto.
        -- intros [? | [[-> | ?] ?]]; [left; by left | left; by right | right; done].
      * split.
        -- intros [? | [? ?]]; [by left | right; split; auto].
        -- intros [? | [[-> | ?] ?]]; [by left | congruence | right; done].
Qed.

(** With authors on every publication the two loops do not throw. *)
Lemma collaborators_spec publications : forall set,
  Forall (fun pub => exists authors, Publication.authors pub = Val authors) publications ->
  exists network,
    Metrics.collaboratorsFrom set publications = Ok network
    /\ (NoDup set -> NoDup network)
    /\ forall a, a ∈ network
         <-> a ∈ set
             \/ (exists pub authors, pub ∈ publications
                   /\ Publication.authors pub = Val authors
                   /\ a ∈ authors /\ Metrics.isCollaborator a = true).
Proof.
  induction publications as [|pub publications IH]; intros set Hall.
  - exists set. split_and!; [done | done |].
    intros a. split; [by left |].
    intros [? | (? & ? & ?%elem_of_nil & _)]; done.
  - apply Forall_cons in Hall as [[authors Ha] Hall].
    unfold Metrics.collaboratorsFrom. simpl. rewrite Ha.
    destruct (IH (Metrics.addCollaborators set authors) Hall) as (network & Hf & Hnd & Hel).
    destruct (addCollaborators_spec authors set) as [Hnd1 Hel1].
    exists network. split_and!; [done | auto |].
    intros a. rewrite Hel, Hel1. split.
    + intros [[? | [? ?]] | (pub' & authors' & ? & ? & ? & ?)].
      * by left.
      * right. exists pub, authors. split_and!; try done. apply elem_of_cons. by left.
      * right. exists pub', authors'. split_and!; try done. apply elem_of_cons. by right.
    + intros [? | (pub' & authors' & [-> | ?]%elem_of_cons & Hau & ? & ?)].
      * left. by left.
      * left. right. rewrite Ha in Hau. by simplify_eq.
      * right. exists pub', authors'. done.
Qed.

Lemma isCollaborator_spec a :
  Metrics.isCollaborator a = true <-> a <> "R Korol" /\ Js.includes "Roman" a = false.
Proof.
  unfold Metrics.isCollaborator. rewrite andb_true_iff, !negb_true_iff.
  rewrite bool_decide_eq_false. done.
Qed.

End metrics_facts.

(** C5, as stated, fails: on records that carry a year and a status only,
    the loop over [pub.authors] throws, the exception is caught and no
    metrics are written. *)
Lemma metrics_of_bare_records_throw :
  Metrics.computeMetrics sampleEnv yearStatusPublications
  = Throw "TypeError: cannot read properties of undefined"
  /\ Metrics.generateAcademicMetrics sampleEnv (storeOf yearStatusPublications)
     = storeOf yearStatusPublications.
Proof. split; reflexivity. Qed.

(** C5, amended.  For three publications with the years 2023, 2023, 2024
    and the statuses published, submitted, published, each with an
    [authors] array, the metrics are: 3 publications in total, two in 2023
    and one in 2024, two published and one submitted, and a latest
    publication of the year 2024 (the third one). *)
Theorem metrics_of_three_publications env (p1 p2 p3 : Publication.t) a1 a2 a3 :
  Publication.year p1 = Val (Num 2023) -> Publication.status p1 = Val "published" ->
  Publication.year p2 = Val (Num 2023) -> Publication.status p2 = Val "submitted" ->
  Publication.year p3 = Val (Num 2024) -> Publication.status p3 = Val "published" ->
  Publication.authors p1 = Val a1 ->
  Publication.authors p2 = Val a2 ->
  Publication.authors p3 = Val a3 ->
  exists metrics,
    Metrics.computeMetrics env [p1; p2; p3] = Ok metrics
    /\ Statistics.total_publications metrics = Val (Num 3)
    /\ Statistics.publications_by_year metrics
       = Val ({["2023" := 2%nat; "2024" := 1%nat]} : gmap string nat)
    /\ Statistics.publications_by_status metrics
       = Val ({["published" := 2%nat; "submitted" := 1%nat]} : gmap string nat)
    /\ Statistics.latest_publication metrics = Val p3
    /\ Publication.year p3 = Val (Num 2024).
Proof.
  intros Hy1 Hs1 Hy2 Hs2 Hy3 Hs3 Ha1 Ha2 Ha3.
  unfold Metrics.computeMetrics, Metrics.collaborators, Metrics.collaboratorsFrom.
  simpl. rewrite Ha1, Ha2, Ha3. simpl.
  eexists. split; [reflexivity |]. simpl. split_and!.
  - reflexivity.
  - unfold Metrics.countBy, Metrics.yearKey. simpl. rewrite Hy1, Hy2, Hy3.
    reflexivity.
  - unfold Metrics.countBy, Metrics.statusKey. simpl. rewrite Hs1, Hs2, Hs3.
    reflexivity.
  - unfold Metrics.latestPublication.
    rewrite !filter_cons, filter_nil.
    rewrite Hs1, Hs2, Hs3.
    repeat (case_decide; simplify_eq); [].
    simpl. unfold Metrics.later. rewrite Hy1, Hy3. reflexivity.
  - done.
Qed.

Lemma metrics_of_three_publications_witness :
  exists metrics,
    Metrics.computeMetrics sampleEnv
      [article "a" "A" ["R Korol"; "J Doe"] 2023;
       withStatus "submitted" (article "b" "B" ["J Doe"] 2023);
       article "c" "C" [] 2024] = Ok metrics
    /\ Statistics.total_publications metrics = Val (Num 3)
    /\ Statistics.publications_by_year metrics
       = Val ({["2023" := 2%nat; "2024" := 1%nat]} : gmap string nat)
    /\ Statistics.publications_by_status metrics
       = Val ({["published" := 2%nat; "submitted" := 1%nat]} : gmap string nat)
    /\ Statistics.latest_publication metrics = Val (article "c" "C" [] 2024)
    /\ Publication.year (article "c" "C" [] 2024) = Val (Num 2024).
Proof.
  eapply (metrics_of_three_publications sampleEnv); reflexivity.
Defined.

(** C7, as stated, fails: an author whose name contains "Roman" is left
    out though it is not the owner's name, so the network is not the set
    of authors minus one owner. *)
Lemma collaborators_drop_other_names :
  let publications := [article "k" "T" ["R Korol"; "P Romano"; "A Bell"] 2023] in
  Metrics.collaborators publications = Ok ["A Bell"]
  /\ ~ (forall a, a ∈ ["R Korol"; "P Romano"; "A Bell"] -> a <> "R Korol" ->
          a ∈ ["A Bell"])
  /\ ~ (exists owner, forall a,
          a ∈ ["A Bell"] <-> a ∈ ["R Korol"; "P Romano"; "A Bell"] /\ a <> owner).
Proof.
  split; [reflexivity |]. split.
  - intros H. specialize (H "P Romano").
    apply list_elem_of_singleton in H; [discriminate | | discriminate].
    apply elem_of_cons. right. apply elem_of_cons. by left.
  - intros [owner H].
    destruct (decide (owner = "R Korol")) as [-> | Hne].
    + assert ("P Romano" ∈ ["A Bell"]) as Hin.
      { apply H. split; [| discriminate].
        apply elem_of_cons. right. apply elem_of_cons. by left. }
      apply list_elem_of_singleton in Hin. discriminate.
    + assert ("R Korol" ∈ ["A Bell"]) as Hin.
      { apply H. split; [| congruence]. apply elem_of_cons. by left. }
      apply list_elem_of_singleton in Hin. discriminate.
Qed.

(** C7, amended.  When every publication has an [authors] array, the
    metrics run succeeds and its [collaboration_network] holds, once each,
    exactly the authors of the publications whose name is not "R Korol" and
    does not contain "Roman". *)
Theorem collaboration_network_spec env (publications : list Publication.t) :
  Forall (fun pub => exists authors, Publication.authors pub = Val authors) publications ->
  exists metrics network,
    Metrics.computeMetrics env publications = Ok metrics
    /\ Statistics.collaboration_network metrics = Val network
    /\ NoDup network
    /\ forall a, a ∈ network
         <-> (exists pub authors, pub ∈ publications
                /\ Publication.authors pub = Val authors /\ a ∈ authors)
             /\ a <> "R Korol" /\ Js.includes "Roman" a = false.
Proof.
  intros Hall.
  destruct (collaborators_spec publications [] Hall) as (network & Hc & Hnd & Hel).
  unfold Metrics.computeMetrics, Metrics.collaborators. rewrite Hc. simpl.
  do 2 eexists. split_and!; [reflexivity | reflexivity | apply Hnd, NoDup_nil_2 |].
  intros a. rewrite Hel, <- isCollaborator_spec. split.
  - intros [?%elem_of_nil | (pub & authors & ? & ? & ? & ?)]; [done |].
    split; [| done]. by exists pub, authors.
  - intros [(pub & authors & ? & ? & ?) ?]. right. by exists pub, authors.
Qed.

Lemma collaboration_network_spec_witness :
  Forall (fun pub => exists authors, Publication.authors pub = Val authors)
         [article "k" "T" ["R Korol"; "J Doe"] 2023]
  /\ exists metrics network,
    Metrics.computeMetrics sampleEnv [article "k" "T" ["R Korol"; "J Doe"] 2023] = Ok metrics
    /\ Statistics.collaboration_network metrics = Val network
    /\ NoDup network
    /\ forall a, a ∈ network
         <-> (exists pub authors, pub ∈ [article "k" "T" ["R Korol"; "J Doe"] 2023]
                /\ Publication.authors pub = Val authors /\ a ∈ authors)
             /\ a <> "R Korol" /\ Js.includes "Roman" a = false.
Proof.
  assert (Forall (fun pub => exists authors, Publication.authors pub = Val authors)
                 [article "k" "T" ["R Korol"; "J Doe"] 2023]) as H.
  { repeat constructor. eexists. reflexivity. }
  split; [exact H |].
  exact (collaboration_network_spec sampleEnv _ H).
Defined.

(** ** BibTeX extraction *)

Section bibtex_facts.
Import Regex.

Lemma rmatch_seq {R} r1 r2 x c (k : string -> captures -> option R) :
  rmatch (Seq r1 r2) x c k = rmatch r1 x c (fun x' c' => rmatch r2 x' c' k).
Proof. reflexivity. Qed.

Lemma rmatch_chr {R} a x c (k : string -> captures -> option R) :
  rmatch (Chr a) (String a x) c k = k x c.
Proof. simpl. by destruct (decide (a = a)). Qed.

Lemma rmatch_chr_ne {R} a b x c (k : string -> captures -> option R) :
  a <> b -> rmatch (Chr a) (String b x) c k = None.
Proof. intros Hab. simpl. by destruct (decide (a = b)). Qed.

Lemma rmatch_cls {R} (p : ascii -> bool) b x c (k : string -> captures -> option R) :
  rmatch (Cls p) (String b x) c k = if p b then k x c else None.
Proof. reflexivity. Qed.

Lemma rmatch_group {R} n r x c (k : string -> captures -> option R) :
  rmatch (Group n r) x c k
  = rmatch r x c (fun x' c' => k x' (<[n := consumed x x']> c')).
Proof. reflexivity. Qed.

Lemma rmatch_star {R} greedy r x c (k : string -> captures -> option R) :
  rmatch (Star greedy r) x c k
  = star_loop (fun x c k' => rmatch r x c k') greedy k (String.length x) x c.
Proof. reflexivity. Qed.

(** The equation of the loop of a quantifier. *)
Lemma star_loop_eq {R} m1 greedy (k : string -> captures -> option R) fuel x c :
  star_loop m1 greedy k fuel x c
  = let more :=
      match fuel with
      | O => None
      | S fuel' =>
          m1 x c (fun x' c' =>
            if (String.length x' <? String.length x)%nat
            then star_loop m1 greedy k fuel' x' c' else None)
      end in
    if greedy
    then match more with Some a => Some a | None => k x c end
    else match k x c with Some a => Some a | None => more end.
Proof. destruct fuel; reflexivity. Qed.

(** A greedy [[p]*] takes a whole run of characters of the class [p] when
    what follows the run is accepted. *)
Lemma star_class_run {R} (p : ascii -> bool) (k : string -> captures -> option R) a c :
  forall s x fuel,
    Js.all p s = true ->
    (forall b x', x = String b x' -> p b = false) ->
    k x c = Some a ->
    (String.length (s +:+ x) <= fuel)%nat ->
    star_loop (fun x c k' => rmatch (Cls p) x c k') true k fuel (s +:+ x) c = Some a.
Proof.
  induction s as [|b s IH]; intros x fuel Hall Hhead Hk Hfuel; rewrite star_loop_eq.
  - cbn [String.append].
    destruct fuel as [|fuel]; cbv beta zeta iota; [by rewrite Hk |].
    destruct x as [|b x]; [by rewrite Hk |].
    rewrite rmatch_cls, (Hhead b x eq_refl). by rewrite Hk.
  - simpl in Hall. apply andb_true_iff in Hall as [Hb Hall].
    destruct fuel as [|fuel]; [simpl in Hfuel; lia |].
    cbv beta zeta iota. cbn [String.append]. rewrite rmatch_cls, Hb.
    assert ((String.length (s +:+ x) <? String.length (String b (s +:+ x)))%nat = true)
      as -> by (apply Nat.ltb_lt; simpl; lia).
    rewrite (IH x fuel Hall Hhead Hk) by (simpl in Hfuel; lia). done.
Qed.

(** A lazy [[\s\S]*?] stops at the first place where what follows is
    accepted. *)
Lemma star_any_lazy {R} (k : string -> captures -> option R) a c :
  forall s x fuel,
    (forall s1 s2, s = s1 +:+ s2 -> s2 <> "" -> k (s2 +:+ x) c = None) ->
    k x c = Some a ->
    (String.length (s +:+ x) <= fuel)%nat ->
    star_loop (fun x c k' => rmatch any x c k') false k fuel (s +:+ x) c = Some a.
Proof.
  induction s as [|b s IH]; intros x fuel Hnone Hk Hfuel; rewrite star_loop_eq.
  - cbn [String.append]. cbv beta zeta iota. by rewrite Hk.
  - destruct fuel as [|fuel]; [simpl in Hfuel; lia |].
    cbv beta zeta iota. rewrite (Hnone "" (String b s) eq_refl) by done.
    cbn [String.append]. unfold any at 1. rewrite rmatch_cls.
    assert ((String.length (s +:+ x) <? String.length (String b (s +:+ x)))%nat = true)
      as -> by (apply Nat.ltb_lt; simpl; lia).
    apply IH; [| done | simpl in Hfuel; lia].
    intros s1 s2 -> Hs2. by apply (Hnone (String b s1) s2).
Qed.

(** A group [([p]+)] takes a whole run of characters of the class. *)
Lemma group_class_run {R} n (p : ascii -> bool) s x c
    (k : string -> captures -> option R) a :
  s <> "" -> Js.all p s = true ->
  (forall b x', x = String b x' -> p b = false) ->
  k x (<[n := s]> c) = Some a ->
  rmatch (Group n (Plus true (Cls p))) (s +:+ x) c k = Some a.
Proof.
  intros Hs Hall Hhead Hk. destruct s as [|b s]; [done |].
  simpl in Hall. apply andb_true_iff in Hall as [Hb Hall].
  unfold Plus. rewrite rmatch_group, rmatch_seq.
  cbn [String.append]. rewrite rmatch_cls, Hb, rmatch_star.
  apply (star_class_run p); [done | done | | done].
  change (String b (s +:+ x)) with (String b s +:+ x).
  by rewrite consumed_app.
Qed.

Lemma startsWith_here p t : Js.startsWith p (p +:+ t) = true.
Proof.
  induction p as [|a p IH]; simpl; [done |]. by destruct (decide (a = a)).
Qed.

Lemma includes_here p t : Js.includes p (p +:+ t) = true.
Proof. destruct p; simpl; [by destruct t |]. by rewrite decide_True, startsWith_here. Qed.

Lemma includes_skip p s t : Js.includes p t = true -> Js.includes p (s +:+ t) = true.
Proof.
  intros Ht. induction s as [|a s IH]; [done |].
  cbn [String.append Js.includes]. rewrite IH. apply orb_true_r.
Qed.

(** The entry pattern ends where a line break and a closing brace
    stand. *)
Lemma closing_here {R} rest c (k : string -> captures -> option R) :
  rmatch (Seq (Chr "010") (Seq (Chr "}") Eps)) (BibtexFile.closing +:+ rest) c k = k rest c.
Proof.
  unfold BibtexFile.closing. cbn [String.append].
  by rewrite rmatch_seq, rmatch_chr, rmatch_seq, rmatch_chr.
Qed.

Lemma closing_not_here {R} y c (k : string -> captures -> option R) :
  Js.startsWith BibtexFile.closing y = false ->
  rmatch (Seq (Chr "010") (Seq (Chr "}") Eps)) y c k = None.
Proof.
  unfold BibtexFile.closing. intros Hy. rewrite rmatch_seq.
  destruct y as [|a y]; [done |]. simpl in Hy.
  destruct (decide ("010"%char = a)) as [<- | Ha]; [| by apply rmatch_chr_ne].
  rewrite rmatch_chr, rmatch_seq.
  destruct y as [|b y]; [done |].
  destruct (decide ("}"%char = b)) as [<- | Hb]; [done | by apply rmatch_chr_ne].
Qed.

(** Fields without a closing line hold none, whatever follows them. *)
Lemma no_closing_inside fields s1 s2 rest :
  Js.includes BibtexFile.closing fields = false ->
  fields = s1 +:+ s2 -> s2 <> "" ->
  Js.startsWith BibtexFile.closing (s2 +:+ BibtexFile.closing +:+ rest) = false.
Proof.
  intros Hfields -> Hs2.
  destruct (Js.startsWith BibtexFile.closing (s2 +:+ BibtexFile.closing +:+ rest))
    eqn:Hstart; [exfalso | done].
  destruct s2 as [|a s2]; [done |]. unfold BibtexFile.closing in Hstart.
  cbn [String.append Js.startsWith] in Hstart.
  destruct (decide ("010"%char = a)) as [<- | Ha]; [| done].
  destruct s2 as [|b s2]; [cbn [String.append] in Hstart; by destruct (decide _) |].
  cbn [String.append] in Hstart.
  destruct (decide ("}"%char = b)) as [<- | Hb]; [| done].
  assert (Js.includes BibtexFile.closing (s1 +:+ BibtexFile.closing +:+ s2) = true) as Hin
    by apply includes_skip, includes_here.
  unfold BibtexFile.closing in Hin, Hfields. cbn [String.append] in Hin.
  change (String "010" (String "}" s2)) with (String "010" (String "}" s2)) in Hin.
  congruence.
Qed.

(** The entry pattern takes a well-formed entry for what it is. *)
Lemma entry_match e rest :
  BibtexFile.well_formed e = true ->
  match_here Bibtex.entryRegex (BibtexFile.text e +:+ rest)
  = Some (BibtexFile.captures e, rest).
Proof.
  unfold BibtexFile.well_formed.
  intros [[[[[[Htype Hword]%andb_true_iff Hkey]%andb_true_iff Hcomma]%andb_true_iff
             Hspace]%andb_true_iff Hstart]%andb_true_iff Hclosing]%andb_true_iff.
  apply negb_true_iff, bool_decide_eq_false in Htype, Hkey.
  apply negb_true_iff in Hclosing.
  destruct e as [type key space fields]. cbn [BibtexFile.type BibtexFile.key
    BibtexFile.space BibtexFile.content] in *.
  unfold match_here, Bibtex.entryRegex, seq, BibtexFile.text, BibtexFile.captures.
  cbn [foldr BibtexFile.type BibtexFile.key BibtexFile.space BibtexFile.content].
  replace (("@" +:+ type +:+ "{" +:+ key +:+ "," +:+ space +:+ fields +:+ BibtexFile.closing)
           +:+ rest)
    with (String "@" (type +:+ String "{" (key +:+ String ","
            (space +:+ fields +:+ BibtexFile.closing +:+ rest))))
    by (repeat (progress (cbn [String.append]; rewrite ?app_assoc_s)); done).
  rewrite rmatch_seq, rmatch_chr, rmatch_seq.
  apply (group_class_run 1 Js.is_word); [done | done | by intros b x' [= <- _] |].
  rewrite rmatch_seq, rmatch_chr, rmatch_seq.
  apply (group_class_run 2 (fun b => negb (bool_decide (","%char = b))));
    [done | done | by intros b x' [= <- _] |].
  rewrite rmatch_seq, rmatch_chr, rmatch_seq, rmatch_star.
  apply (star_class_run Js.is_space); [done | | | done].
  { intros b x' Hx. destruct fields as [|b' fields]; [done |].
    cbn [String.append] in Hx. injection Hx as -> _.
    simpl in Hstart. by apply negb_true_iff in Hstart. }
  rewrite rmatch_seq, rmatch_group, rmatch_star.
  apply star_any_lazy; [| | done].
  - intros s1 s2 Hcut Hs2. apply closing_not_here.
    by apply (no_closing_inside fields s1).
  - by rewrite closing_here, consumed_app.
Qed.

Lemma entry_needs_at a x :
  a <> "@"%char -> match_here Bibtex.entryRegex (String a x) = None.
Proof.
  intros Ha. unfold match_here, Bibtex.entryRegex, seq. cbn [foldr].
  rewrite rmatch_seq. apply rmatch_chr_ne. congruence.
Qed.

Lemma entry_needs_text : match_here Bibtex.entryRegex "" = None.
Proof. reflexivity. Qed.

(** The search for the next entry skips a text without at sign. *)
Lemma exec_skip before y :
  BibtexFile.plain before = true ->
  exec Bibtex.entryRegex (before +:+ y) = exec Bibtex.entryRegex y.
Proof.
  unfold BibtexFile.plain. induction before as [|a before IH]; [done |].
  simpl. intros [Ha Hall]%andb_true_iff.
  apply negb_true_iff, bool_decide_eq_false in Ha.
  rewrite entry_needs_at by congruence. by apply IH.
Qed.

Lemma exec_here r x m : match_here r x = Some m -> exec r x = Some m.
Proof. intros H. destruct x; simpl; by rewrite H. Qed.

Lemma exec_all_skip before y :
  BibtexFile.plain before = true ->
  exec_all Bibtex.entryRegex (before +:+ y) = exec_all Bibtex.entryRegex y.
Proof.
  intros Hplain. rewrite !(exec_all_unfold Bibtex.entryRegex) by reflexivity.
  by rewrite exec_skip.
Qed.

(** The matches of the entry pattern in a file of well-formed entries are
    the entries, followed by the matches in the text after them. *)
Lemma exec_all_file before entries rest :
  BibtexFile.plain before = true ->
  BibtexFile.well_formed_file entries ->
  exec_all Bibtex.entryRegex (before +:+ BibtexFile.file entries +:+ rest)
  = map (fun '(e, _) => BibtexFile.captures e) entries
    ++ exec_all Bibtex.entryRegex rest.
Proof.
  intros Hplain Hentries. revert before Hplain.
  induction Hentries as [|[e after] entries [He Hafter] _ IH]; intros before Hplain.
  - cbn [BibtexFile.file map app String.append]. by apply exec_all_skip.
  - cbn [BibtexFile.file map app].
    rewrite exec_all_skip by done.
    rewrite exec_all_unfold by reflexivity.
    rewrite !app_assoc_s.
    rewrite (exec_here _ _ _ (entry_match e _ He)).
    f_equal. by apply IH.
Qed.

Lemma candidate_spec env e :
  Bibtex.entryPublication env (BibtexFile.captures e) = BibtexFile.candidate env e.
Proof. reflexivity. Qed.

(** The publications of a file of well-formed entries. *)
Lemma parseBibtex_file env before entries rest :
  BibtexFile.plain before = true ->
  BibtexFile.well_formed_file entries ->
  Bibtex.parseBibtex env (before +:+ BibtexFile.file entries +:+ rest)
  = BibtexFile.candidates env entries ++ Bibtex.parseBibtex env rest.
Proof.
  intros Hplain Hentries. unfold Bibtex.parseBibtex, BibtexFile.candidates.
  rewrite exec_all_file by done. rewrite omap_app. f_equal.
  clear. induction entries as [|[e after] entries IH]; [done |].
  cbn [map omap list_omap]. rewrite candidate_spec, IH. done.
Qed.

(** A match of the field pattern starts with the name of the field, which
    is the first group. *)
Lemma field_match_inv y c rest :
  match_here Bibtex.fieldRegex y = Some (c, rest) ->
  exists tail, y = group 1 c +:+ tail.
Proof.
  unfold match_here, Bibtex.fieldRegex, seq. cbn [foldr].
  rewrite rmatch_seq, rmatch_group. intros H.
  apply rmatch_sound in H as (name & x1 & c1 & -> & _ & H & Hc1).
  rewrite (Hc1 eq_refl), consumed_app in H.
  rewrite rmatch_seq in H.
  apply rmatch_sound in H as (s2 & x2 & c2 & -> & _ & H & Hc2).
  rewrite (Hc2 eq_refl) in H. rewrite rmatch_seq in H.
  apply rmatch_sound in H as (s3 & x3 & c3 & -> & _ & H & Hc3).
  rewrite (Hc3 eq_refl) in H. rewrite rmatch_seq in H.
  apply rmatch_sound in H as (s4 & x4 & c4 & -> & _ & H & Hc4).
  rewrite (Hc4 eq_refl) in H. rewrite rmatch_seq in H.
  apply rmatch_sound in H as (s5 & x5 & c5 & -> & _ & H & Hc5).
  rewrite (Hc5 eq_refl) in H. rewrite rmatch_seq, rmatch_group in H.
  apply rmatch_sound in H as (s6 & x6 & c6 & -> & _ & H & Hc6).
  rewrite (Hc6 eq_refl) in H. rewrite rmatch_seq in H.
  apply rmatch_sound in H as (s7 & x7 & c7 & -> & _ & H & Hc7).
  rewrite (Hc7 eq_refl) in H. cbn [rmatch] in H. injection H as <- <-.
  eexists. unfold group.
  rewrite lookup_insert_ne, lookup_insert_eq by done. reflexivity.
Qed.

Lemma exec_inv r x c x' :
  exec r x = Some (c, x') ->
  exists skipped y, x = skipped +:+ y /\ match_here r y = Some (c, x').
Proof.
  induction x as [|a x IH]; simpl.
  - destruct (match_here r "") as [m|] eqn:E; [| done].
    intros [= ->]. by exists "", "".
  - destruct (match_here r (String a x)) as [m|] eqn:E.
    + intros [= ->]. by exists "", (String a x).
    + intros (skipped & y & -> & Hy)%IH. by exists (String a skipped), y.
Qed.

(** The name of every field found in a text stands in the text. *)
Lemma field_names_included : forall n content m,
  (String.length content < n)%nat ->
  m ∈ exec_all Bibtex.fieldRegex content ->
  Js.includes (group 1 m) content = true.
Proof.
  induction n as [|n IH]; intros content m Hn; [lia |].
  rewrite exec_all_unfold by reflexivity.
  destruct (exec Bibtex.fieldRegex content) as [[c x']|] eqn:E;
    [| by intros ?%elem_of_nil].
  pose proof (exec_shorter Bibtex.fieldRegex _ _ _ eq_refl E) as Hshorter.
  apply exec_inv in E as (skipped & y & -> & Hy).
  pose proof Hy as (s & Hs & _)%match_here_inv.
  intros [-> | Hm]%elem_of_cons.
  - apply field_match_inv in Hy as [tail ->].
    apply includes_skip, includes_here.
  - apply (IH x') in Hm; [| lia].
    rewrite Hs, <- app_assoc_s. by apply includes_skip.
Qed.

(** A name that does not stand in the text is no field. *)
Lemma parseFields_absent content name :
  Js.includes name content = false -> Bibtex.parseFields content !! name = None.
Proof.
  intros Hname. unfold Bibtex.parseFields.
  assert (forall m, m ∈ exec_all Bibtex.fieldRegex content -> group 1 m <> name) as Hall.
  { intros m Hm <-.
    apply (field_names_included (S (String.length content))) in Hm; [| lia].
    congruence. }
  revert Hall. generalize (exec_all Bibtex.fieldRegex content).
  assert ((∅ : gmap string string) !! name = None) as Hempty by apply lookup_empty.
  revert Hempty. generalize (∅ : gmap string string).
  intros fields Hfields l. revert fields Hfields.
  induction l as [|m l IH]; intros fields Hfields Hall; [done |].
  simpl. apply IH.
  - rewrite lookup_insert_ne; [done |]. apply Hall. by left.
  - intros m' Hm'. apply Hall. by right.
Qed.

End bibtex_facts.

(** C6, as stated, fails: the entry pattern ends with a line break and a
    closing brace, so the entry written on one line is no match and no
    candidate comes out of it. *)
Lemma bibtex_entry_on_one_line_ignored :
  Bibtex.parseBibtex sampleEnv entryOnOneLine = []
  /\ Bibtex.parseBibtexFile sampleEnv (Some entryOnOneLine) = Some [].
Proof. split; vm_compute; reflexivity. Qed.

(** C6, amended.  Take a BibTeX input that holds the entry with its
    closing brace at the start of a line (the fields on the line of the
    key, or each field on a line of its own), after a text without at
    sign and well-formed entries, each followed by a text without at
    sign, and before any text.  The parser yields, after the candidates of
    the entries before it, one candidate for the entry, with the key as
    identifier, the title "T", an empty list of authors (present, not
    omitted) and the number 2022 as year, whatever the current year; then
    come the candidates of the text after the entry. *)
Theorem bibtex_entry_without_author env (before : string)
    (entries : list (BibtexFile.Entry * string)) (after : string) :
  BibtexFile.plain before = true ->
  BibtexFile.well_formed_file entries ->
  let candidate :=
    {| Publication.id := Val "k1";
       Publication.title := Val "T";
       Publication.authors := Val [];
       Publication.journal := Val "Unknown Journal";
       Publication.year := Val (Num 2022);
       Publication.doi := Null;
       Publication.abstract := Val "";
       Publication.image := Undefined;
       Publication.type := Val "journal";
       Publication.status := Val "published";
       Publication.awards := Undefined |} in
  Bibtex.parseBibtexFile env
    (Some (before +:+ BibtexFile.file entries +:+ entryOnTwoLines +:+ after))
  = Some (BibtexFile.candidates env entries
          ++ candidate :: Bibtex.parseBibtex env after)
  /\ Bibtex.parseBibtexFile env
       (Some (before +:+ BibtexFile.file entries +:+ entryOnFourLines +:+ after))
     = Some (BibtexFile.candidates env entries
             ++ candidate :: Bibtex.parseBibtex env after).
Proof.
  intros Hplain Hentries candidate.
  assert (forall e, BibtexFile.well_formed e = true ->
            BibtexFile.candidate env e = Some candidate ->
            Bibtex.parseBibtex env
              (before +:+ BibtexFile.file entries +:+ BibtexFile.text e +:+ after)
            = BibtexFile.candidates env entries
              ++ candidate :: Bibtex.parseBibtex env after) as Hentry.
  { intros e He Hcandidate.
    rewrite parseBibtex_file by done. f_equal.
    pose proof (parseBibtex_file env "" [(e, "")] after eq_refl) as Hone.
    cbn [BibtexFile.file] in Hone. rewrite !app_empty_l, !app_empty_r in Hone.
    rewrite Hone by (by repeat constructor).
    unfold BibtexFile.candidates. cbn [omap list_omap]. by rewrite Hcandidate. }
  unfold Bibtex.parseBibtexFile. split; f_equal.
  - apply (Hentry entryTwoLines); vm_compute; reflexivity.
  - apply (Hentry entryFourLines); vm_compute; reflexivity.
Qed.

Lemma bibtex_entry_without_author_witness :
  let before := "% references" +:+ Json.nl in
  let entries := [(miscEntry, Json.nl)] in
  let after := Json.nl +:+ "@book{b1, title={B}}" in
  BibtexFile.plain before = true
  /\ BibtexFile.well_formed_file entries
  /\ before +:+ BibtexFile.file entries +:+ entryOnTwoLines +:+ after
     = "% references" +:+ Json.nl
       +:+ "@misc{x, note={a}" +:+ Json.nl +:+ "}" +:+ Json.nl
       +:+ "@article{k1, title={T}, year={2022}" +:+ Json.nl +:+ "}" +:+ Json.nl
       +:+ "@book{b1, title={B}}"
  /\ Bibtex.parseBibtexFile sampleEnv
       (Some (before +:+ BibtexFile.file entries +:+ entryOnTwoLines +:+ after))
     = Some (BibtexFile.candidates sampleEnv entries
             ++ {| Publication.id := Val "k1";
                   Publication.title := Val "T";
                   Publication.authors := Val [];
                   Publication.journal := Val "Unknown Journal";
                   Publication.year := Val (Num 2022);
                   Publication.doi := Null;
                   Publication.abstract := Val "";
                   Publication.image := Undefined;
                   Publication.type := Val "journal";
                   Publication.status := Val "published";
                   Publication.awards := Undefined |}
                :: Bibtex.parseBibtex sampleEnv after)
  /\ BibtexFile.candidates sampleEnv entries = []
  /\ Bibtex.parseBibtex sampleEnv after = [].
Proof.
  intros before entries after.
  assert (BibtexFile.plain before = true) as Hplain by reflexivity.
  assert (BibtexFile.well_formed_file entries) as Hentries
    by (repeat constructor).
  split_and!; [exact Hplain | exact Hentries | reflexivity | | reflexivity | reflexivity].
  exact (proj1 (bibtex_entry_without_author sampleEnv before entries after
                  Hplain Hentries)).
Defined.

(** C9, as the claim reads, fails: after an article written on one line
    the entry pattern runs on to the closing line of the book that
    follows.  The candidate of the article gets the title and the author
    of the book: the entry of another type is not ignored, and the missing
    author of the article is not replaced by the empty list. *)
Lemma bibtex_book_leaks_into_article :
  Bibtex.parseBibtex sampleEnv articleOnOneLineThenBook
  = [{| Publication.id := Val "a1";
        Publication.title := Val "B";
        Publication.authors := Val ["W"];
        Publication.journal := Val "Unknown Journal";
        Publication.year := Val (Num 2024);
        Publication.doi := Null;
        Publication.abstract := Val "";
        Publication.image := Undefined;
        Publication.type := Val "journal";
        Publication.status := Val "published";
        Publication.awards := Undefined |}].
Proof. vm_compute. reflexivity. Qed.

(** C9, amended.  Take a BibTeX file of well-formed entries: a text
    without at sign, then entries, each followed by a text without at
    sign; an entry is an at sign, a type of word characters, a brace, a
    key without comma, a comma, white space, fields that start with a
    character that is no white space and hold no line break followed by a
    closing brace, and a line break with the closing brace.  The
    candidates of the file are those of its entries, in order: an entry
    whose type is not [article] (in any letter case) yields nothing, and
    neither does an article without a title; an article with a title
    yields one candidate, with the key of the entry as identifier.  In a
    candidate every property has a value: without a field [author] (as
    when the word does not stand in the fields of the entry) the authors
    are the empty list, without [journal] the journal is "Unknown
    Journal", without [year] the year is the current year, without [doi]
    the DOI is [null], without [abstract] the abstract is the empty
    string. *)
Theorem bibtex_only_articles_with_defaults env (before : string)
    (entries : list (BibtexFile.Entry * string)) :
  BibtexFile.plain before = true ->
  BibtexFile.well_formed_file entries ->
  Bibtex.parseBibtex env (before +:+ BibtexFile.file entries)
  = BibtexFile.candidates env entries
  /\ forall e after, (e, after) ∈ entries ->
       let fields := Bibtex.parseFields (BibtexFile.content e) in
       (forall name, Js.includes name (BibtexFile.content e) = false ->
                     fields !! name = None)
       /\ (Js.toLowerCase (BibtexFile.type e) <> "article" ->
           BibtexFile.candidate env e = None)
       /\ (fields !! "title" = None -> BibtexFile.candidate env e = None)
       /\ (Js.toLowerCase (BibtexFile.type e) = "article" ->
           forall title, fields !! "title" = Some title -> title <> "" ->
           BibtexFile.candidate env e
           = Some (Bibtex.makePublication env (BibtexFile.key e) fields))
       /\ forall pub, BibtexFile.candidate env e = Some pub ->
            Js.toLowerCase (BibtexFile.type e) = "article"
            /\ Publication.id pub = Val (BibtexFile.key e)
            /\ (exists title, fields !! "title" = Some title
                              /\ Publication.title pub = Val title /\ title <> "")
            /\ (exists authors, Publication.authors pub = Val authors)
            /\ (fields !! "author" = None -> Publication.authors pub = Val [])
            /\ (exists journal, Publication.journal pub = Val journal)
            /\ (fields !! "journal" = None ->
                Publication.journal pub = Val "Unknown Journal")
            /\ (exists year, Publication.year pub = Val (Num year))
            /\ (fields !! "year" = None ->
                Publication.year pub = Val (Num (currentYear env)))
            /\ (fields !! "doi" = None -> Publication.doi pub = Null)
            /\ (fields !! "abstract" = None -> Publication.abstract pub = Val "").
Proof.
  intros Hplain Hentries. split.
  - pose proof (parseBibtex_file env before entries "" Hplain Hentries) as Hfile.
    rewrite !app_empty_r in Hfile. rewrite Hfile.
    change (Bibtex.parseBibtex env "") with (@nil Publication.t).
    by rewrite app_nil_r.
  - intros e after _ fields. unfold BibtexFile.candidate. fold fields.
    split_and!.
    + intros name Hname. by apply parseFields_absent.
    + intros Htype. by rewrite bool_decide_eq_false_2.
    + intros Htitle. unfold Bibtex.prop. rewrite Htitle. simpl.
      by rewrite andb_false_r.
    + intros Htype title Htitle Hne. rewrite bool_decide_eq_true_2 by done.
      unfold Bibtex.prop. rewrite Htitle. simpl. unfold Js.truthy_string.
      by rewrite bool_decide_eq_false_2.
    + intros pub Hsome.
      case_bool_decide as Htype; simpl in Hsome; [| discriminate].
      destruct (Js.truthy Js.truthy_string _) eqn:Htitle; [| discriminate].
      injection Hsome as <-. split; [done |].
      simpl. split_and!; try done.
      * unfold Bibtex.prop in *. destruct (fields !! "title") as [t|]; [| done].
        exists t. split_and!; [done | done |]. simpl in Htitle.
        unfold Js.truthy_string in Htitle.
        apply negb_true_iff, bool_decide_eq_false in Htitle. done.
      * eexists. reflexivity.
      * intros Hnone. unfold Bibtex.prop. by rewrite Hnone.
      * eexists. reflexivity.
      * intros Hnone. unfold Bibtex.prop. by rewrite Hnone.
      * unfold Bibtex.entryYear.
        destruct (Js.truthy_number _) eqn:Hy; [| by eexists].
        destruct (fields !! "year") as [v|]; [| done].
        destruct (Js.parseInt v) as [|z]; [done | by eexists].
      * intros Hnone. unfold Bibtex.entryYear. by rewrite Hnone.
      * intros Hnone. unfold Bibtex.prop. by rewrite Hnone.
      * intros Hnone. unfold Bibtex.prop. by rewrite Hnone.
Qed.

Lemma bibtex_only_articles_with_defaults_witness :
  let entries := [(bookEntry, Json.nl); (articleEntry, "")] in
  BibtexFile.plain "" = true
  /\ BibtexFile.well_formed_file entries
  /\ "" +:+ BibtexFile.file entries = bookAndArticle
  /\ Bibtex.parseBibtex sampleEnv ("" +:+ BibtexFile.file entries)
     = BibtexFile.candidates sampleEnv entries
  /\ BibtexFile.candidates sampleEnv entries
     = [Bibtex.makePublication sampleEnv "a1" {["title" := "An Article"]}]
  /\ BibtexFile.candidate sampleEnv bookEntry = None
  /\ forall pub, BibtexFile.candidate sampleEnv articleEntry = Some pub ->
       Publication.id pub = Val "a1"
       /\ Publication.authors pub = Val []
       /\ Publication.journal pub = Val "Unknown Journal"
       /\ Publication.year pub = Val (Num 2024).
Proof.
  intros entries.
  assert (BibtexFile.plain "" = true) as Hplain by reflexivity.
  assert (BibtexFile.well_formed_file entries) as Hentries by (repeat constructor).
  destruct (bibtex_only_articles_with_defaults sampleEnv "" entries Hplain Hentries)
    as [Hfile Heach].
  split_and!; [exact Hplain | exact Hentries | reflexivity | exact Hfile
               | vm_compute; reflexivity | |].
  - destruct (Heach bookEntry Json.nl ltac:(apply elem_of_cons; by left))
      as (_ & Hbook & _).
    apply Hbook. intros Htype. vm_compute in Htype. discriminate.
  - intros pub Hpub.
    destruct (Heach articleEntry ""
                ltac:(apply elem_of_cons; right; apply elem_of_cons; by left))
      as (Habsent & _ & _ & _ & Hdefaults).
    destruct (Hdefaults pub Hpub)
      as (_ & Hid & _ & _ & Hauthors & _ & Hjournal & _ & Hyear & _).
    split_and!; [exact Hid | apply Hauthors | apply Hjournal | apply Hyear];
      by apply Habsent.
Defined.

(** ** Templates *)

Section template_facts.
Import Regex.

Lemma matches_within q r s : matches r s -> within q r -> Js.all q s = true.
Proof.
  induction 1 as [| | p a Hp | r1 r2 s1 s2 _ IH1 _ IH2 | | | g r1 s1 s2 _ _ IH1 _ IH2];
    simpl; try done.
  - intros ->. done.
  - intros H. by rewrite (H a Hp).
  - intros [H1 H2]. rewrite all_app, IH1, IH2; done.
  - intros H. rewrite all_app, IH1, IH2; done.
Qed.

(** Texts without the character [a] followed by [a]: the cut is unique. *)
Lemma cut_unique a s1 t1 s2 t2 :
  Js.all (fun b => negb (bool_decide (a = b))) s1 = true ->
  Js.all (fun b => negb (bool_decide (a = b))) s2 = true ->
  s1 +:+ String a t1 = s2 +:+ String a t2 -> s1 = s2 /\ t1 = t2.
Proof.
  revert s2. induction s1 as [|c s1 IH]; intros [|c2 s2] H1 H2 E; simpl in *.
  - by injection E as ->.
  - injection E as <- _. by rewrite bool_decide_eq_true_2 in H2.
  - injection E as -> _. by rewrite bool_decide_eq_true_2 in H1.
  - injection E as -> E.
    apply andb_true_iff in H1 as [_ H1]. apply andb_true_iff in H2 as [_ H2].
    destruct (IH _ H1 H2 E) as [-> ->]. done.
Qed.

Lemma pathRegex_within : within Template.path_char Template.pathRegex.
Proof.
  unfold Template.pathRegex, Plus, word, Template.path_char. simpl.
  split_and!; try (intros a ->; done); done.
Qed.

Lemma path_first_char key :
  matches Template.pathRegex key ->
  exists c key', key = String c key' /\ Js.is_word c = true.
Proof.
  unfold Template.pathRegex, Plus. intros H.
  inversion H as [| | | r1 r2 s1 s2 H1 H2 | | |]; subst.
  inversion H1 as [| | | r1' r2' s1' s2' H1' H2' | | |]; subst.
  inversion H1'; subst. simpl. eauto.
Qed.

Lemma path_chars key :
  matches Template.pathRegex key -> Js.all Template.path_char key = true.
Proof. intros H. apply (matches_within _ _ _ H), pathRegex_within. Qed.

Lemma path_char_not c b : Template.path_char c = true -> Template.path_char b = false -> b <> c.
Proof. intros H1 H2 ->. congruence. Qed.

Lemma all_weaken (q1 q2 : ascii -> bool) s :
  (forall c, q1 c = true -> q2 c = true) -> Js.all q1 s = true -> Js.all q2 s = true.
Proof.
  intros Hq. induction s as [|c s IH]; simpl; [done |].
  intros [H1 H2]%andb_true_iff. rewrite (Hq c H1), IH; done.
Qed.

Lemma path_no_char key a :
  Template.path_char a = false -> matches Template.pathRegex key ->
  Js.all (fun b => negb (bool_decide (a = b))) key = true.
Proof.
  intros Ha H. apply (all_weaken Template.path_char); [| by apply path_chars].
  intros c Hc. apply negb_true_iff, bool_decide_eq_false. by apply (path_char_not c a).
Qed.

(** A match of the placeholder pattern is two opening braces, a path and
    two closing braces; the captured group is the path. *)
Lemma template_match_inv x c rest :
  match_here Template.templateRegex x = Some (c, rest) ->
  exists key, x = "{{" +:+ key +:+ "}}" +:+ rest
              /\ matches Template.pathRegex key /\ c = {[1%nat := key]}.
Proof.
  unfold match_here, Template.templateRegex, seq.
  assert (groupless Template.pathRegex = true) as HP by reflexivity.
  revert HP. generalize Template.pathRegex. intros P HP. simpl.
  destruct x as [|a x]; [done |]. case_decide; [subst a | done].
  destruct x as [|a x]; [done |]. case_decide; [subst a | done].
  intros H. apply rmatch_sound in H as (s & x1 & c1 & -> & Hs & H & Hc).
  rewrite (Hc HP) in H.
  destruct x1 as [|a x1]; [done |]. case_decide; [subst a | done].
  destruct x1 as [|a x1]; [done |]. case_decide; [subst a | done].
  injection H as <- <-.
  exists s. split_and!; [done | done |].
  by rewrite consumed_app.
Qed.

Lemma template_match key rest :
  matches Template.pathRegex key ->
  match_here Template.templateRegex ("{{" +:+ key +:+ "}}" +:+ rest)
  = Some ({[1%nat := key]}, rest).
Proof.
  intros Hkey.
  destruct (match_here Template.templateRegex ("{{" +:+ key +:+ "}}" +:+ rest))
    as [[c rest']|] eqn:E.
  - apply template_match_inv in E as (key' & E & Hkey' & ->).
    simpl in E. injection E as E.
    apply cut_unique in E as [<- [= <-]]; [done | |]; by apply path_no_char.
  - exfalso. revert E. unfold match_here.
    replace ("{{" +:+ key +:+ "}}" +:+ rest) with (("{{" +:+ key +:+ "}}") +:+ rest)
      by (simpl; by rewrite app_assoc_s).
    apply rmatch_complete; [| done].
    unfold Template.templateRegex, seq. simpl.
    apply (matches_seq (Chr "{") _ "{"); [constructor |].
    apply (matches_seq (Chr "{") _ "{"); [constructor |].
    apply matches_seq; [by constructor |].
    apply (matches_seq (Chr "}") _ "}"); [constructor |].
    apply (matches_seq (Chr "}") _ "}" ""); constructor.
Qed.

(** A placeholder that follows [pre] is not part of a match that starts
    inside [pre]. *)
Lemma template_no_overlap a pre key post :
  matches Template.pathRegex key ->
  match_here Template.templateRegex (String a pre) = None ->
  match_here Template.templateRegex (String a pre +:+ "{{" +:+ key +:+ "}}" +:+ post) = None.
Proof.
  intros Hkey Hnone.
  destruct (match_here _ (String a pre +:+ _)) as [[c rest]|] eqn:E; [exfalso | done].
  apply template_match_inv in E as (key' & E & Hkey' & _).
  simpl in E. injection E as -> E.
  destruct pre as [|b pre]; simpl in E.
  - injection E as E.
    apply path_first_char in Hkey' as (c' & k' & -> & Hw). simpl in E.
    injection E as <- _. done.
  - injection E as -> E.
    change (key' +:+ String "}" (String "}" rest)) with (key' +:+ ("}}" +:+ rest)) in E.
    rewrite <- (app_assoc_s key' "}}" rest) in E.
    apply app_eq_app_s in E as [(u & -> & _) | (u & Hu & Hrest)].
    + pose proof (template_match key' u Hkey') as Hm.
      rewrite app_assoc_s in Hnone. simpl in Hm, Hnone. congruence.
    + destruct u as [|d u].
      * rewrite app_empty_r in Hu. subst pre.
        pose proof (template_match key' "" Hkey') as Hm. simpl in Hm, Hnone.
        congruence.
      * simpl in Hrest. injection Hrest as <- _.
        assert (Js.all (fun b => negb (bool_decide ("{"%char = b))) (key' +:+ "}}") = true)
          as Hall.
        { rewrite all_app. rewrite (path_no_char key' "{") by done. done. }
        rewrite Hu in Hall. rewrite all_app in Hall. simpl in Hall.
        by rewrite andb_false_r in Hall.
Qed.

(** The lookup of a path follows the own properties of nested objects. *)
Lemma follow_lookup host (path : list string) : forall data v,
  Template.follow path data = Some v -> foldl (Template.getProp host) data path = v.
Proof.
  induction path as [|prop path IH]; intros data v; simpl.
  - by intros [= ->].
  - destruct data as [| | | | | | props |]; try done.
    destruct (Template.own props prop) as [v'|] eqn:Hown; [| done].
    intros Hfollow. unfold Template.getProp at 2. rewrite Hown. by apply IH.
Qed.

(** The text that [replace] puts for a placeholder. *)
Lemma substitute_placeholder host data (matched key : string) :
  Template.substitute host data matched {[1%nat := key]}
  = match Template.lookup host key data with
    | VUndefined => Ok matched
    | found =>
        if Template.printable found then Ok (Template.toString found)
        else Throw "TypeError: cannot convert object to primitive value"
    end.
Proof.
  unfold Template.substitute, Regex.group. rewrite lookup_singleton_eq.
  cbn [from_option id default]. reflexivity.
Qed.

(** A template with a placeholder is rendered in three parts. *)
Lemma renderTemplate_parts host (pre key post : string) (data : value) :
  matches Template.pathRegex key ->
  Template.renderTemplate host (pre +:+ "{{" +:+ key +:+ "}}" +:+ post) data
  = (before ← Template.renderTemplate host pre data;
     middle ← Template.substitute host data ("{{" +:+ key +:+ "}}") {[1%nat := key]};
     after ← Template.renderTemplate host post data;
     Ok (before +:+ middle +:+ after)).
Proof.
  intros Hkey. unfold Template.renderTemplate.
  assert (Regex.consumes Template.templateRegex = true) as Hc by reflexivity.
  remember (String.length pre) as n eqn:Hn.
  revert pre Hn. induction n as [n IH] using lt_wf_ind. intros pre ->.
  rewrite (replace_all_unfold _ _ pre Hc).
  destruct (Regex.match_here Template.templateRegex pre) as [[c rest]|] eqn:E.
  - pose proof (match_here_shorter _ _ _ _ Hc E) as Hlt.
    apply template_match_inv in E as (key' & -> & Hkey' & ->).
    rewrite (replace_all_unfold _ _ (_ +:+ _) Hc).
    replace (("{{" +:+ key' +:+ "}}" +:+ rest) +:+ "{{" +:+ key +:+ "}}" +:+ post)
      with ("{{" +:+ key' +:+ "}}" +:+ (rest +:+ "{{" +:+ key +:+ "}}" +:+ post))
      by (simpl; by rewrite !app_assoc_s).
    rewrite (template_match key' _ Hkey').
    rewrite (IH (String.length rest) Hlt rest eq_refl).
    replace ("{{" +:+ key' +:+ "}}" +:+ (rest +:+ "{{" +:+ key +:+ "}}" +:+ post))
      with (("{{" +:+ key' +:+ "}}") +:+ (rest +:+ "{{" +:+ key +:+ "}}" +:+ post))
      by (simpl; by rewrite !app_assoc_s).
    replace ("{{" +:+ key' +:+ "}}" +:+ rest)
      with (("{{" +:+ key' +:+ "}}") +:+ rest)
      by (simpl; by rewrite !app_assoc_s).
    rewrite !consumed_app.
    destruct (Template.substitute host data _ {[1%nat := key']}) as [text|e]; [| done].
    rewrite !bind_ok.
    destruct (replace_all _ _ rest) as [before|e]; [| done].
    rewrite !bind_ok.
    destruct (Template.substitute host data _ {[1%nat := key]}) as [middle|e]; [| done].
    rewrite !bind_ok.
    destruct (replace_all _ _ post) as [after|e]; [| done].
    rewrite !bind_ok. by rewrite !app_assoc_s.
  - destruct pre as [|a pre].
    + rewrite !app_empty_l.
      rewrite (replace_all_unfold _ _ _ Hc).
      rewrite (template_match key post Hkey).
      replace ("{{" +:+ key +:+ "}}" +:+ post) with (("{{" +:+ key +:+ "}}") +:+ post)
        by (simpl; by rewrite !app_assoc_s).
      rewrite consumed_app, bind_ok.
      destruct (Template.substitute host data _ {[1%nat := key]}) as [middle|e]; done.
    + rewrite (replace_all_unfold _ _ (_ +:+ _) Hc).
      rewrite (template_no_overlap a pre key post Hkey E).
      change (String a pre +:+ "{{" +:+ key +:+ "}}" +:+ post)
        with (String a (pre +:+ "{{" +:+ key +:+ "}}" +:+ post)).
      cbv iota beta.
      rewrite (IH (String.length pre) ltac:(simpl; lia) pre eq_refl).
      destruct (replace_all _ _ pre) as [before|e]; [| done].
      rewrite !bind_ok.
      destruct (Template.substitute host data _ {[1%nat := key]}) as [middle|e]; [| done].
      rewrite !bind_ok.
      destruct (replace_all _ _ post) as [after|e]; done.
Qed.

End template_facts.

(** C8, as the claim reads, fails: a placeholder whose path leads to an
    object with a property [toString] (here the text [x], as read from
    JSON) makes the renderer throw, because [replace] converts the object
    to a string. *)
Lemma renderTemplate_throws_on_own_toString :
  let data := VObject [("name", VObject [("toString", VString "x")])] in
  Template.follow ["name"] data = Some (VObject [("toString", VString "x")])
  /\ Template.renderTemplate sampleHost "Name: {{name}}" data
     = Throw "TypeError: cannot convert object to primitive value".
Proof. split; vm_compute; reflexivity. Qed.

(** C8, amended.  In any template, a placeholder whose path is a dotted
    sequence of words is handled after the text before it and before the
    text after it, which are rendered on their own; the result is the
    three texts in a row, or the first exception.  The path is looked up
    step by step: when its names lead through own properties of nested
    objects to a value, this value is found.  For [undefined] the
    placeholder is put as it is; for a string, the string; for a number,
    a boolean or [null], its text; for an object without a property
    [toString], the text [[object Object]]; for an object with a property
    [toString] that is no function (and no property [valueOf] that is
    one), a [TypeError] is thrown; an array whose elements can be printed
    is put as its elements separated by commas. *)
Theorem renderTemplate_placeholder host (pre key post : string) (data : value) :
  Regex.full_match Template.pathRegex key = true ->
  let placeholder := "{{" +:+ key +:+ "}}" in
  let failure : result string :=
    Throw "TypeError: cannot convert object to primitive value" in
  exists middle : result string,
    Template.renderTemplate host (pre +:+ "{{" +:+ key +:+ "}}" +:+ post) data
    = (before ← Template.renderTemplate host pre data;
       text ← middle;
       after ← Template.renderTemplate host post data;
       Ok (before +:+ text +:+ after))
    /\ (forall (path : list string) (v : value),
          path <> [] ->
          Forall (fun prop =>
                    Js.all (fun b => negb (bool_decide ("."%char = b))) prop = true) path ->
          key = Js.join "." path ->
          Template.follow path data = Some v ->
          Template.lookup host key data = v)
    /\ match Template.lookup host key data with
       | VUndefined => middle = Ok placeholder
       | VNull => middle = Ok "null"
       | VBool b => middle = Ok (if b then "true" else "false")
       | VNumber n => middle = Ok (Js.number_to_string n)
       | VString s => middle = Ok s
       | VFunction text => middle = Ok text
       | VObject props =>
           (Template.own props "toString" = None -> middle = Ok "[object Object]")
           /\ (forall v, Template.own props "toString" = Some v ->
                         (forall text, v <> VFunction text) ->
                         (forall text, Template.own props "valueOf" <> Some (VFunction text)) ->
                         middle = failure)
       | VArray l =>
           Template.printable (VArray l) = true ->
           middle
           = Ok (Js.join "," (map (fun v => match v with
                                            | VUndefined | VNull => EmptyString
                                            | _ => Template.toString v
                                            end) l))
       end.
Proof.
  intros Hkey%full_match_spec placeholder failure.
  exists (Template.substitute host data placeholder {[1%nat := key]}).
  split_and!.
  - by apply renderTemplate_parts.
  - intros path v Hpath Hall -> Hfollow. unfold Template.lookup.
    rewrite split_join_path by done. by apply follow_lookup.
  - rewrite substitute_placeholder.
    destruct (Template.lookup host key data) as [| | b | n | s | l | props | text];
      try reflexivity.
    + intros Hprintable. cbv zeta. by rewrite Hprintable.
    + split.
      * intros Hown. cbv zeta. cbn [Template.printable]. by rewrite Hown.
      * intros v Hown _ _. cbv zeta. cbn [Template.printable]. rewrite Hown.
        rewrite bool_decide_eq_true_2 by (by eexists). done.
Qed.

Lemma renderTemplate_placeholder_witness :
  Regex.full_match Template.pathRegex "statistics.total_publications" = true
  /\ Template.follow ["statistics"; "total_publications"] sampleDocument
     = Some (VNumber (Num 1))
  /\ Template.renderTemplate sampleHost "Total: {{statistics.total_publications}}!"
       sampleDocument
     = Ok "Total: 1!"
  /\ exists middle : result string,
       Template.renderTemplate sampleHost
         ("Total: " +:+ "{{" +:+ "statistics.total_publications" +:+ "}}" +:+ "!")
         sampleDocument
       = (before ← Template.renderTemplate sampleHost "Total: " sampleDocument;
          text ← middle;
          after ← Template.renderTemplate sampleHost "!" sampleDocument;
          Ok (before +:+ text +:+ after))
       /\ Template.lookup sampleHost "statistics.total_publications" sampleDocument
          = VNumber (Num 1)
       /\ middle = Ok "1".
Proof.
  assert (Regex.full_match Template.pathRegex "statistics.total_publications" = true) as Hkey
    by (vm_compute; reflexivity).
  split_and!; [exact Hkey | reflexivity | vm_compute; reflexivity |].
  destruct (renderTemplate_placeholder sampleHost "Total: " "statistics.total_publications"
              "!" sampleDocument Hkey) as (middle & Hparts & Hpath & Htext).
  exists middle.
  pose proof (Hpath ["statistics"; "total_publications"] (VNumber (Num 1))
                ltac:(done) ltac:(repeat constructor) eq_refl eq_refl) as Hfound.
  split_and!; [exact Hparts | exact Hfound |].
  rewrite Hfound in Htext. exact Htext.
Defined.

(** ** JSON texts *)

Section json_facts.
Import Json.

(** *** Strings *)

Lemma read_escape c tail :
  read_string Plain (escape c +:+ tail)
  = '(str, rest) ← read_string Plain tail; Some (String c str, rest).
Proof. destruct c as [[] [] [] [] [] [] [] []]; reflexivity. Qed.

Lemma read_escape_all s rest :
  read_string Plain (escape_all s +:+ dq +:+ rest) = Some (s, rest).
Proof.
  induction s as [|c s IH]; [reflexivity |].
  change (escape_all (String c s)) with (escape c +:+ escape_all s).
  rewrite app_assoc_s, read_escape, IH. reflexivity.
Qed.

Lemma read_quote s rest :
  quote s +:+ rest = String "034" (escape_all s +:+ dq +:+ rest).
Proof. unfold quote. simpl. by rewrite !app_assoc_s. Qed.

(** *** Numbers *)

Lemma ends_value_not_digit rest :
  ends_value rest = true ->
  match rest with
  | EmptyString => True
  | String c _ => Js.is_digit c = false
  end.
Proof.
  destruct rest as [|c rest]; [done |]. simpl.
  intros [H | H]%orb_true_iff; apply bool_decide_eq_true in H; by subst c.
Qed.

Lemma read_digits_uint d rest :
  ends_value rest = true ->
  read_digits (NilEmpty.string_of_uint d +:+ rest) = (NilEmpty.string_of_uint d, rest).
Proof.
  intros Hrest%ends_value_not_digit. induction d; simpl; try (rewrite IHd; reflexivity).
  destruct rest as [|c rest]; [done |]. simpl. by rewrite Hrest.
Qed.

Lemma pos_to_uint_head p :
  match Pos.to_uint p with
  | Decimal.Nil | Decimal.D0 _ => False
  | _ => True
  end.
Proof.
  pose proof (DecimalPos.Unsigned.to_of (Pos.to_uint p)) as H.
  rewrite DecimalPos.Unsigned.of_to in H. simpl in H.
  pose proof (DecimalPos.Unsigned.to_uint_nonzero p) as Hnz.
  assert (Decimal.nzhead (Pos.to_uint p) <> Decimal.Nil) as Hnn.
  { intros E. apply DecimalFacts.unorm_0 in E. congruence. }
  rewrite (DecimalFacts.unorm_nzhead _ Hnn) in H.
  pose proof (DecimalFacts.nzhead_nonzero (Pos.to_uint p)) as Hd.
  rewrite <- H in Hd. destruct (Pos.to_uint p); try done.
  by specialize (Hd u).
Qed.

Lemma read_number_digits (negative : bool) d rest :
  match d with
  | Decimal.Nil | Decimal.D0 _ => False
  | _ => True
  end ->
  ends_value rest = true ->
  read_number ((if negative then "-" else "") +:+ NilEmpty.string_of_uint d +:+ rest)
  = Some (Num (if negative then - Z.of_uint d else Z.of_uint d), rest).
Proof.
  intros Hd Hrest. unfold read_number.
  assert (read_sign ((if negative then "-" else "") +:+ NilEmpty.string_of_uint d +:+ rest)
          = (negative, NilEmpty.string_of_uint d +:+ rest)) as ->.
  { destruct negative; [reflexivity |]. destruct d; try done; reflexivity. }
  rewrite (read_digits_uint d rest Hrest).
  pose proof (NilEmpty.usu d) as Husu.
  destruct rest as [|c rest].
  - destruct d; try done; simpl in *; rewrite Husu; reflexivity.
  - simpl in Hrest. apply orb_true_iff in Hrest as [H | H];
      apply bool_decide_eq_true in H; subst c;
      destruct d; try done; simpl in *; rewrite Husu; reflexivity.
Qed.

Lemma read_number_Z z rest :
  ends_value rest = true ->
  read_number (Js.Z_to_string z +:+ rest) = Some (Num z, rest).
Proof.
  intros Hrest. destruct z as [|p|p]; unfold Js.Z_to_string; simpl.
  - destruct rest as [|c rest]; [reflexivity |].
    simpl in Hrest. apply orb_true_iff in Hrest as [H | H];
      apply bool_decide_eq_true in H; subst c; reflexivity.
  - pose proof (read_number_digits false (Pos.to_uint p) rest (pos_to_uint_head p) Hrest) as H.
    simpl in H. rewrite H. unfold Z.of_uint.
    by rewrite DecimalPos.Unsigned.of_to.
  - pose proof (read_number_digits true (Pos.to_uint p) rest (pos_to_uint_head p) Hrest) as H.
    simpl in H. rewrite H. unfold Z.of_uint.
    by rewrite DecimalPos.Unsigned.of_to.
Qed.

(** The text of an integer starts with a digit or a minus sign. *)
Lemma Z_to_string_head z :
  exists c t, Js.Z_to_string z = String c t
              /\ (Js.is_digit c || bool_decide (c = "-"%char)) = true.
Proof.
  destruct z as [|p|p]; unfold Js.Z_to_string; simpl.
  - by eexists _, _.
  - pose proof (pos_to_uint_head p). destruct (Pos.to_uint p); try done; by eexists _, _.
  - by eexists _, _.
Qed.

Lemma read_value_number fuel c s :
  (Js.is_digit c || bool_decide (c = "-"%char)) = true ->
  read_value (S fuel) (String c s)
  = '(n, rest) ← read_number (String c s); Some (VNumber n, rest).
Proof.
  destruct c as [[] [] [] [] [] [] [] []]; intros H; try discriminate H; reflexivity.
Qed.

(** *** White space *)

Lemma skip_ws_spaces n s : skip_ws (spaces n +:+ s) = skip_ws s.
Proof. induction n as [|n IH]; simpl; [done | by rewrite IH]. Qed.

Lemma skip_ws_break n s : skip_ws (nl +:+ spaces n +:+ s) = skip_ws s.
Proof. simpl. apply skip_ws_spaces. Qed.

Lemma skip_ws_token c s : is_ws c = false -> skip_ws (String c s) = String c s.
Proof. intros H. simpl. by rewrite H. Qed.

Lemma read_word_app w rest : read_word w (w +:+ rest) = Some rest.
Proof. induction w as [|a w IH]; simpl; [by destruct rest | by rewrite decide_True]. Qed.

Lemma read_word_other a w c s : a <> c -> read_word (String a w) (String c s) = None.
Proof. intros H. simpl. by rewrite decide_False. Qed.

(** *** Objects *)

Lemma define_fits k v props :
  key_fits (map fst props) k = true -> define k v props = props ++ [(k, v)].
Proof.
  unfold key_fits. induction props as [|[k' v'] props IH]; [done |].
  intros [Hnew Hidx]%andb_true_iff. apply bool_decide_eq_true in Hnew.
  simpl in Hnew. apply not_elem_of_cons in Hnew as [Hne Hnew].
  simpl. rewrite bool_decide_eq_false_2 by done.
  assert (define k v props = props ++ [(k, v)]) as Hrec.
  { apply IH. apply andb_true_iff. split; [by apply bool_decide_eq_true |].
    destruct (index_of_key k); [| done]. simpl in Hidx.
    by apply andb_true_iff in Hidx as [_ ?]. }
  destruct (index_of_key k) as [n|]; [| by rewrite Hrec].
  simpl in Hidx. apply andb_true_iff in Hidx as [Hk' _].
  destruct (index_of_key k') as [n'|]; [| done].
  apply N.ltb_lt in Hk'.
  assert ((n <? n')%N = false) as -> by (apply N.ltb_ge; lia).
  by rewrite Hrec.
Qed.

Lemma foldl_define props : forall acc,
  keys_ordered (map fst acc) (map fst props) = true ->
  foldl (fun ps kv => define kv.1 kv.2 ps) acc props = acc ++ props.
Proof.
  induction props as [|[k v] props IH]; intros acc H; simpl.
  - by rewrite app_nil_r.
  - simpl in H. apply andb_true_iff in H as [Hfit Hrest].
    rewrite (define_fits k v acc Hfit).
    rewrite IH.
    + by rewrite <- app_assoc.
    + by rewrite map_app.
Qed.

(** *** Values *)

Lemma value_ind' (P : value -> Prop) :
  P VUndefined -> P VNull -> (forall b, P (VBool b)) -> (forall n, P (VNumber n)) ->
  (forall s, P (VString s)) ->
  (forall l, Forall P l -> P (VArray l)) ->
  (forall props, Forall (fun kv => P kv.2) props -> P (VObject props)) ->
  (forall t, P (VFunction t)) ->
  forall v, P v.
Proof.
  intros Hu Hn Hb Hnum Hs Ha Ho Hf.
  fix IH 1. intros [| | b | n | s | l | props | t].
  - exact Hu.
  - exact Hn.
  - apply Hb.
  - apply Hnum.
  - apply Hs.
  - apply Ha. induction l as [|v l IHl]; constructor; [apply IH | apply IHl].
  - apply Ho. induction props as [|[k v] props IHp]; constructor; [apply IH | apply IHp].
  - apply Hf.
Qed.

Lemma token_char_facts c :
  token_char c = true ->
  is_ws c = false /\ c <> "]"%char /\ c <> "}"%char /\ c <> ","%char /\ c <> ":"%char.
Proof. destruct c as [[] [] [] [] [] [] [] []]; intros H; try discriminate H; done. Qed.

Lemma stringify_some v indent :
  is_json v = true -> exists t, stringify_at indent v = Some t.
Proof. destruct v as [| | | [|] | | | |]; simpl; try done; by eexists. Qed.

(** The text of a document starts with the first character of a value. *)
Lemma stringify_head v indent :
  is_json v = true ->
  exists c t, stringify_at indent v = Some (String c t) /\ token_char c = true.
Proof.
  destruct v as [| | [] | [|z] | s | [|v l] | [|[k v] props] | t]; simpl; try done;
    intros H; try (by eexists _, _).
  - destruct (Z_to_string_head z) as (c & t & -> & Hc). exists c, t. split; [done |].
    unfold token_char. apply orb_true_iff in Hc as [-> | ->]; [done |].
    by rewrite orb_true_r.
  - apply andb_true_iff in H as [_ H]. apply andb_true_iff in H as [Hv _].
    destruct (stringify_some v (indent + 2) Hv) as [t ->]. by eexists _, _.
Qed.

Lemma bind_some {A B} (x : A) (f : A -> option B) : (Some x ≫= f) = f x.
Proof. reflexivity. Qed.

(** The equations of the reader. *)
Lemma read_elements_eq fuel s :
  read_elements (S fuel) s
  = '(v, rest) ← read_value fuel s;
    match read_word "," (skip_ws rest) with
    | Some rest' =>
        '(l, rest'') ← read_elements fuel (skip_ws rest'); Some (v :: l, rest'')
    | None =>
        match read_word "]" (skip_ws rest) with
        | Some rest' => Some ([v], rest')
        | None => None
        end
    end.
Proof. reflexivity. Qed.

Lemma read_members_eq fuel s :
  read_members (S fuel) s
  = s' ← read_word dq s;
    '(k, rest) ← read_string Plain s';
    rest1 ← read_word ":" (skip_ws rest);
    '(v, rest2) ← read_value fuel (skip_ws rest1);
    match read_word "," (skip_ws rest2) with
    | Some rest3 =>
        '(members, rest4) ← read_members fuel (skip_ws rest3);
        Some ((k, v) :: members, rest4)
    | None =>
        match read_word "}" (skip_ws rest2) with
        | Some rest3 => Some ([(k, v)], rest3)
        | None => None
        end
    end.
Proof. reflexivity. Qed.

Lemma read_value_eq fuel s :
  read_value (S fuel) s
  = match read_word "null" s with
    | Some rest => Some (VNull, rest)
    | None =>
    match read_word "true" s with
    | Some rest => Some (VBool true, rest)
    | None =>
    match read_word "false" s with
    | Some rest => Some (VBool false, rest)
    | None =>
    match read_word dq s with
    | Some s' => '(str, rest) ← read_string Plain s'; Some (VString str, rest)
    | None =>
    match read_word "[" s with
    | Some s' =>
        match read_word "]" (skip_ws s') with
        | Some rest => Some (VArray [], rest)
        | None => '(l, rest) ← read_elements fuel (skip_ws s'); Some (VArray l, rest)
        end
    | None =>
    match read_word "{" s with
    | Some s' =>
        match read_word "}" (skip_ws s') with
        | Some rest => Some (VObject [], rest)
        | None =>
            '(members, rest) ← read_members fuel (skip_ws s');
            Some (VObject (foldl (fun props kv => define kv.1 kv.2 props) [] members),
                  rest)
        end
    | None => '(n, rest) ← read_number s; Some (VNumber n, rest)
    end end end end end end.
Proof. reflexivity. Qed.

Lemma read_word_char a s : read_word (String a "") (String a s) = Some s.
Proof. simpl. rewrite decide_True by done. by destruct s. Qed.

Lemma read_value_array fuel s' s1 :
  skip_ws s' = s1 -> read_word "]" s1 = None ->
  read_value (S fuel) (String "[" s')
  = '(l, rest) ← read_elements fuel s1; Some (VArray l, rest).
Proof.
  intros <- H. rewrite read_value_eq. unfold dq.
  rewrite !read_word_other by done. rewrite read_word_char. by rewrite H.
Qed.

Lemma read_value_object fuel s' s1 :
  skip_ws s' = s1 -> read_word "}" s1 = None ->
  read_value (S fuel) (String "{" s')
  = '(members, rest) ← read_members fuel s1;
    Some (VObject (foldl (fun props kv => define kv.1 kv.2 props) [] members), rest).
Proof.
  intros <- H. rewrite read_value_eq. unfold dq.
  rewrite !read_word_other by done. rewrite read_word_char. by rewrite H.
Qed.

(** After the text of a value: a separator and more, or the closing line. *)
Lemma skip_ws_closing indent close rest :
  is_ws close = false ->
  skip_ws (nl +:+ spaces indent +:+ String close rest) = String close rest.
Proof. intros H. rewrite skip_ws_break. by apply skip_ws_token. Qed.

Lemma ends_value_nl s : ends_value (nl +:+ s) = true.
Proof. reflexivity. Qed.

Lemma ends_value_separator indent s : ends_value (separator indent +:+ s) = true.
Proof. reflexivity. Qed.

Lemma items_head indent v l :
  is_json v = true ->
  exists c t, items indent (v :: l) = String c t :: items indent l /\ token_char c = true
              /\ stringify_at (indent + 2) v = Some (String c t).
Proof.
  intros H. destruct (stringify_head v (indent + 2) H) as (c & t & Ht & Hc).
  exists c, t. unfold items. simpl. rewrite Ht. done.
Qed.

Lemma skip_ws_join sep c t l rest :
  token_char c = true ->
  skip_ws (Js.join sep (String c t :: l) +:+ rest) = Js.join sep (String c t :: l) +:+ rest.
Proof.
  intros (Hws & _)%token_char_facts. destruct l; simpl; by rewrite Hws.
Qed.

Lemma join_singleton sep x : Js.join sep [x] = x.
Proof. reflexivity. Qed.

Lemma join_cons2 sep x y l : Js.join sep (x :: y :: l) = x +:+ sep +:+ Js.join sep (y :: l).
Proof. reflexivity. Qed.

Lemma read_elements_join l : forall indent rest fuel,
  l <> [] ->
  Forall (fun v => is_json v = true /\ reads_back v) l ->
  (foldr (fun v' n => S (weight v' + n)) 0 l <= fuel)%nat ->
  read_elements fuel
    (Js.join (separator indent) (items indent l)
     +:+ nl +:+ spaces indent +:+ String "]" rest)
  = Some (l, rest).
Proof.
  induction l as [|v l IH]; [done |]. intros indent rest fuel _ HF Hfuel.
  apply Forall_cons in HF as [[Hjson Hv] HF].
  destruct (items_head indent v l Hjson) as (c & t & -> & Hc & Ht).
  destruct fuel as [|fuel]; [simpl in Hfuel; lia |].
  simpl in Hfuel. rewrite read_elements_eq.
  destruct l as [|v2 l].
  - change (items indent []) with (@nil string). rewrite join_singleton.
    rewrite (Hv _ _ _ fuel Ht (ends_value_nl _)) by lia.
    rewrite bind_some. cbv beta iota.
    rewrite skip_ws_closing by done.
    rewrite read_word_other by done. by rewrite read_word_char.
  - apply Forall_cons in HF as HF'. destruct HF' as [[Hjson2 _] _].
    destruct (items_head indent v2 l Hjson2) as (c2 & t2 & E2 & Hc2 & _).
    rewrite E2 in *. rewrite join_cons2. rewrite !app_assoc_s.
    rewrite (Hv _ _ _ fuel Ht (ends_value_separator _ _)) by lia.
    rewrite bind_some. cbv beta iota.
    unfold separator at 1. rewrite !app_assoc_s.
    change ("," +:+ ?x) with (String "," x).
    rewrite (skip_ws_token "," _ eq_refl).
    rewrite read_word_char. rewrite skip_ws_break.
    rewrite (skip_ws_join _ c2 t2) by done.
    rewrite <- E2.
    rewrite (IH indent rest fuel); [done | done | done | lia].
Qed.

Lemma member_text k tv rest :
  (quote k +:+ ": " +:+ tv) +:+ rest
  = String "034" (escape_all k +:+ dq +:+ String ":" (String " " (tv +:+ rest))).
Proof. unfold quote. simpl. by rewrite !app_assoc_s. Qed.

Lemma member_text_r k tv rest :
  quote k +:+ ": " +:+ tv +:+ rest
  = String "034" (escape_all k +:+ dq +:+ String ":" (String " " (tv +:+ rest))).
Proof. rewrite <- member_text. by rewrite !app_assoc_s. Qed.

Lemma skip_ws_join_gen sep x l rest :
  (exists c z, x = String c z /\ token_char c = true) ->
  skip_ws (Js.join sep (x :: l) +:+ rest) = Js.join sep (x :: l) +:+ rest.
Proof. intros (c & z & -> & H). by apply skip_ws_join. Qed.

Lemma members_head indent k v props :
  is_json v = true ->
  exists tv, stringify_at (indent + 2) v = Some tv
             /\ members indent ((k, v) :: props)
                = (quote k +:+ ": " +:+ tv) :: members indent props.
Proof.
  intros H. destruct (stringify_some v (indent + 2) H) as [tv Ht].
  exists tv. split; [done |]. unfold members. simpl. by rewrite Ht.
Qed.

Lemma quote_head k s : exists z, quote k +:+ s = String "034" z.
Proof. by eexists. Qed.

Lemma read_members_join props : forall indent rest fuel,
  props <> [] ->
  Forall (fun kv => is_json kv.2 = true /\ reads_back kv.2) props ->
  (foldr (fun kv n => let '(_, v') := kv in S (weight v' + n)) 0 props <= fuel)%nat ->
  read_members fuel
    (Js.join (separator indent) (members indent props)
     +:+ nl +:+ spaces indent +:+ String "}" rest)
  = Some (props, rest).
Proof.
  induction props as [|[k v] props IH]; [done |]. intros indent rest fuel _ HF Hfuel.
  apply Forall_cons in HF as [[Hjson Hv] HF]. simpl in Hjson, Hv.
  destruct (members_head indent k v props Hjson) as (tv & Ht & ->).
  destruct (stringify_head v (indent + 2) Hjson) as (c & t & Ht' & Hc).
  rewrite Ht in Ht'. injection Ht' as ->.
  destruct (token_char_facts c Hc) as (Hws & _).
  destruct fuel as [|fuel]; [simpl in Hfuel; lia |].
  simpl in Hfuel. rewrite read_members_eq.
  destruct props as [|[k2 v2] props].
  - change (members indent []) with (@nil string). rewrite join_singleton.
    rewrite member_text. change (read_word dq) with (read_word (String "034" "")).
    rewrite read_word_char.
    rewrite bind_some. rewrite read_escape_all. rewrite bind_some. cbv beta iota.
    rewrite (skip_ws_token ":" _ eq_refl). rewrite read_word_char. rewrite bind_some.
    change (skip_ws (String " " ?x)) with (skip_ws x).
    change (String c t +:+ ?x) with (String c (t +:+ x)).
    rewrite (skip_ws_token c _ Hws).
    change (String c (t +:+ ?x)) with (String c t +:+ x).
    rewrite (Hv _ _ _ fuel Ht (ends_value_nl _)) by lia.
    rewrite bind_some. cbv beta iota.
    rewrite skip_ws_closing by done.
    rewrite read_word_other by done. by rewrite read_word_char.
  - apply Forall_cons in HF as HF'. destruct HF' as [[Hjson2 _] _]. simpl in Hjson2.
    destruct (members_head indent k2 v2 props Hjson2) as (tv2 & Ht2 & E2).
    rewrite E2. rewrite join_cons2. rewrite !app_assoc_s.
    rewrite member_text_r. change (read_word dq) with (read_word (String "034" "")).
    rewrite read_word_char.
    rewrite bind_some. rewrite read_escape_all. rewrite bind_some. cbv beta iota.
    rewrite (skip_ws_token ":" _ eq_refl). rewrite read_word_char. rewrite bind_some.
    change (skip_ws (String " " ?x)) with (skip_ws x).
    change (String c t +:+ ?x) with (String c (t +:+ x)).
    rewrite (skip_ws_token c _ Hws).
    change (String c (t +:+ ?x)) with (String c t +:+ x).
    rewrite (Hv _ _ _ fuel Ht (ends_value_separator _ _)) by lia.
    rewrite bind_some. cbv beta iota.
    unfold separator at 1. rewrite !app_assoc_s.
    change ("," +:+ ?x) with (String "," x).
    rewrite (skip_ws_token "," _ eq_refl).
    rewrite read_word_char. rewrite skip_ws_break.
    rewrite skip_ws_join_gen by (by eexists _, _).
    rewrite <- E2.
    rewrite (IH indent rest fuel); [done | done | done | simpl in Hfuel |- *; lia].
Qed.

Lemma wrap_cons open close indent x l :
  wrap open close indent (x :: l)
  = open +:+ nl +:+ spaces (indent + 2) +:+ Js.join (separator indent) (x :: l)
    +:+ nl +:+ spaces indent +:+ close.
Proof. reflexivity. Qed.

Lemma join_string_head sep c z l rest :
  exists w, Js.join sep (String c z :: l) +:+ rest = String c w.
Proof. destruct l; by eexists. Qed.

Lemma weight_array l :
  weight (VArray l) = S (foldr (fun v' n => S (weight v' + n)) 0%nat l).
Proof. reflexivity. Qed.

Lemma weight_object props :
  weight (VObject props)
  = S (foldr (fun kv n => let '(_, v') := kv in S (weight v' + n)) 0%nat props).
Proof. reflexivity. Qed.

Lemma stringify_array indent l :
  stringify_at indent (VArray l) = Some (wrap "[" "]" indent (items indent l)).
Proof. reflexivity. Qed.

Lemma stringify_object indent props :
  stringify_at indent (VObject props) = Some (wrap "{" "}" indent (members indent props)).
Proof. reflexivity. Qed.

(** The reader gives every document back from its text. *)
Lemma reads_back_all v : is_json v = true -> reads_back v.
Proof.
  induction v as [| | b | n | s | l IH | props IH | t] using value_ind';
    intros Hjson indent text rest fuel Htext Hrest Hfuel;
    try rewrite stringify_array in Htext; try rewrite stringify_object in Htext;
    simpl in Htext, Hjson; try discriminate Hjson.
  - injection Htext as <-. destruct fuel; [simpl in Hfuel; lia | reflexivity].
  - injection Htext as <-. destruct fuel; [simpl in Hfuel; lia |].
    destruct b; reflexivity.
  - destruct n as [|z]; [done |]. injection Htext as <-.
    destruct fuel; [simpl in Hfuel; lia |].
    destruct (Z_to_string_head z) as (c & t & E & Hc).
    rewrite E. change (String c t +:+ rest) with (String c (t +:+ rest)).
    rewrite read_value_number by done.
    change (String c (t +:+ rest)) with (String c t +:+ rest). rewrite <- E.
    by rewrite read_number_Z.
  - injection Htext as <-. destruct fuel; [simpl in Hfuel; lia |].
    rewrite read_quote. rewrite read_value_eq.
    change (read_word dq) with (read_word (String "034" "")).
    rewrite !read_word_other by done. rewrite read_word_char.
    by rewrite read_escape_all.
  - injection Htext as <-. destruct fuel as [|fuel]; [simpl in Hfuel; lia |].
    destruct l as [|v l]; [reflexivity |].
    assert (Forall (fun v => is_json v = true /\ reads_back v) (v :: l)) as HF.
    { apply Forall_forall. intros x Hx. rewrite Forall_forall in IH.
      assert (is_json x = true) as Hxj.
      { rewrite forallb_forall in Hjson. by apply Hjson, list_elem_of_In. }
      split; [done | by apply IH]. }
    assert (is_json v = true) as Hvj by (by apply Forall_cons in HF as [[? _] _]).
    destruct (items_head indent v l Hvj) as (c & t & E & Hc & _).
    rewrite E, wrap_cons. rewrite !app_assoc_s.
    change ("[" +:+ ?x) with (String "[" x).
    change ("]" +:+ rest) with (String "]" rest).
    rewrite (read_value_array fuel _
               (Js.join (separator indent) (String c t :: items indent l)
                +:+ nl +:+ spaces indent +:+ String "]" rest)).
    + rewrite <- E. rewrite (read_elements_join (v :: l) indent rest fuel); try done.
      rewrite weight_array in Hfuel. lia.
    + rewrite skip_ws_break. by apply skip_ws_join.
    + destruct (token_char_facts c Hc) as (_ & H1 & _).
      destruct (join_string_head (separator indent) c t (items indent l)
                  (nl +:+ spaces indent +:+ String "]" rest)) as [w ->].
      by apply read_word_other.
  - injection Htext as <-. destruct fuel as [|fuel]; [simpl in Hfuel; lia |].
    destruct props as [|[k v] props]; [reflexivity |].
    apply andb_true_iff in Hjson as [Hkeys Hjson].
    assert (Forall (fun kv => is_json kv.2 = true /\ reads_back kv.2) ((k, v) :: props))
      as HF.
    { apply Forall_forall. intros [k' x] Hx. rewrite Forall_forall in IH.
      assert (is_json x = true) as Hxj.
      { rewrite forallb_forall in Hjson. by apply (Hjson (k', x)), list_elem_of_In. }
      split; [done | by apply (IH (k', x))]. }
    assert (is_json v = true) as Hvj by (by apply Forall_cons in HF as [[? _] _]).
    destruct (members_head indent k v props Hvj) as (tv & Htv & E).
    destruct (quote_head k (": " +:+ tv)) as [z Hz].
    rewrite E, wrap_cons. rewrite !app_assoc_s.
    change ("{" +:+ ?x) with (String "{" x).
    change ("}" +:+ rest) with (String "}" rest).
    rewrite (read_value_object fuel _
               (Js.join (separator indent)
                  ((quote k +:+ ": " +:+ tv) :: members indent props)
                +:+ nl +:+ spaces indent +:+ String "}" rest)).
    + rewrite <- E. rewrite (read_members_join ((k, v) :: props) indent rest fuel);
        try done; [| rewrite weight_object in Hfuel; lia].
      rewrite bind_some. cbv beta iota. by rewrite (foldl_define _ []).
    + rewrite skip_ws_break. apply skip_ws_join_gen. by eexists _, _.
    + rewrite Hz.
      destruct (join_string_head (separator indent) "034" z (members indent props)
                  (nl +:+ spaces indent +:+ String "}" rest)) as [w ->].
      by apply read_word_other.
Qed.

(** The fuel [parse] gives the reader is enough: the text of a document is
    at least as long as the depth of the calls. *)
Lemma length_join_items sep (texts : list string) (weights : list nat) :
  (1 <= String.length sep)%nat ->
  Forall2 (fun w t => (w <= String.length t)%nat) weights texts ->
  (foldr (fun w n => S (w + n)) 0 weights <= String.length (Js.join sep texts) + 1)%nat.
Proof.
  intros Hsep. induction 1 as [|w t ws ts Hw Hrest IH]; [simpl; lia |].
  destruct Hrest as [|w2 t2 ws ts Hw2 Hrest].
  - simpl. lia.
  - rewrite join_cons2, !length_app_s. simpl foldr in *. lia.
Qed.

Lemma length_separator indent : (1 <= String.length (separator indent))%nat.
Proof. unfold separator. simpl. lia. Qed.

Lemma length_wrap open close indent x l :
  (String.length (Js.join (separator indent) (x :: l)) + 2
   <= String.length (wrap (String open "") (String close "") indent (x :: l)))%nat.
Proof. rewrite wrap_cons, !length_app_s. simpl. lia. Qed.

Lemma items_weights indent l :
  Forall (fun v => is_json v = true ->
            forall indent text, stringify_at indent v = Some text ->
            (weight v <= String.length text)%nat) l ->
  forallb is_json l = true ->
  Forall2 (fun w t => (w <= String.length t)%nat) (map weight l) (items indent l).
Proof.
  induction l as [|v l IHl]; intros IH Hjson; [constructor |].
  simpl in Hjson. apply andb_true_iff in Hjson as [Hvj Hjson].
  apply Forall_cons in IH as [IHv IH].
  destruct (stringify_some v (indent + 2) Hvj) as [tv Htv].
  unfold items. simpl. rewrite Htv. constructor; [| by apply IHl].
  by apply (IHv Hvj (indent + 2)%nat).
Qed.

Lemma weight_le_length v :
  is_json v = true ->
  forall indent text, stringify_at indent v = Some text ->
  (weight v <= String.length text)%nat.
Proof.
  induction v as [| | b | n | s | l IH | props IH | t] using value_ind';
    intros Hjson indent text Htext;
    try (destruct (stringify_head _ indent Hjson) as (c & t' & E & _);
         rewrite E in Htext; injection Htext as <-; simpl; lia).
  - rewrite stringify_array in Htext. injection Htext as <-.
    destruct l as [|v l]; [simpl; lia |].
    rewrite weight_array.
    pose proof (length_wrap "[" "]" indent
                  (default "null" (stringify_at (indent + 2) v)) (items indent l)) as Hw.
    change (default "null" (stringify_at (indent + 2) v) :: items indent l)
      with (items indent (v :: l)) in Hw.
    enough (foldr (fun v' n => S (weight v' + n)) 0%nat (v :: l)
            <= String.length (Js.join (separator indent) (items indent (v :: l))) + 1)%nat
      by lia.
    clear Hw.
    replace (foldr (fun v' n => S (weight v' + n)) 0%nat (v :: l))
      with (foldr (fun w n => S (w + n)) 0%nat (map weight (v :: l))).
    + apply length_join_items; [apply length_separator |].
      by apply items_weights.
    + generalize (v :: l). intros l'. induction l' as [|v' l' IHl]; simpl;
        [done | by rewrite IHl].
  - rewrite stringify_object in Htext. injection Htext as <-.
    rewrite weight_object.
    assert (forallb (fun kv => let '(_, v') := kv in is_json v') props = true) as Hall.
    { simpl in Hjson. by apply andb_true_iff in Hjson as [_ ?]. }
    clear Hjson.
    replace (foldr (fun kv n => let '(_, v') := kv in S (weight v' + n)) 0%nat props)
      with (foldr (fun w n => S (w + n)) 0%nat (map (fun kv => weight kv.2) props))
      by (clear; induction props as [|[k' v'] l IHl]; simpl; [done | by rewrite IHl]).
    assert (Forall2 (fun w t => (w <= String.length t)%nat)
                    (map (fun kv => weight kv.2) props) (members indent props)) as HF.
    { induction props as [|[k v] props IHp]; [constructor |].
      simpl in Hall. apply andb_true_iff in Hall as [Hvj Hall].
      apply Forall_cons in IH as [IHv IH].
      destruct (members_head indent k v props Hvj) as (tv & Htv & ->).
      constructor; [| by apply IHp]. simpl.
      specialize (IHv Hvj (indent + 2)%nat tv Htv). simpl in IHv.
      rewrite !length_app_s. simpl. lia. }
    destruct HF as [|w x ws texts Hw HF]; [simpl; lia |].
    pose proof (length_wrap "{" "}" indent x texts) as Hlen.
    pose proof (length_join_items (separator indent) (x :: texts) (w :: ws)
                  (length_separator indent) (List.Forall2_cons _ _ Hw HF)).
    lia.
Qed.

Lemma parse_stringify v text :
  is_json v = true -> stringify v = Some text -> parse text = Some v.
Proof.
  intros Hjson Htext. unfold parse, stringify in *.
  destruct (stringify_head v 0 Hjson) as (c & t & E & Hc).
  rewrite E in Htext. injection Htext as <-.
  destruct (token_char_facts c Hc) as (Hws & _).
  rewrite (skip_ws_token c t Hws).
  rewrite <- (app_empty_r (String c t)) at 2.
  rewrite (reads_back_all v Hjson 0%nat (String c t) "" _ E eq_refl); [done |].
  pose proof (weight_le_length v Hjson 0%nat _ E). lia.
Qed.

End json_facts.

(** C3.  A document of the data directory that is saved and then loaded
    comes back equal: [saveData] succeeds, and both loaders return the
    document from the file it wrote. *)
Theorem load_after_save host (filename : string) (D : value) (files : gmap string string) :
  Json.is_json D = true ->
  exists files',
    Json.saveData host filename D files = (true, files')
    /\ Json.loadData host filename files' = D
    /\ Json.loadAndDisplayData host filename files' = D.
Proof.
  intros Hjson. destruct (stringify_some D 0 Hjson) as [text Htext].
  exists (<[dataPath host filename := text]> files).
  unfold Json.saveData, Json.loadAndDisplayData, Json.loadData, Json.stringify.
  rewrite Htext. split_and!; [done | |];
    rewrite lookup_insert_eq; by rewrite (parse_stringify D text Hjson Htext).
Qed.

Lemma load_after_save_witness :
  Json.is_json sampleDocument = true
  /\ exists files',
       Json.saveData sampleHost "publications.json" sampleDocument ∅ = (true, files')
       /\ Json.loadData sampleHost "publications.json" files' = sampleDocument
       /\ Json.loadAndDisplayData sampleHost "publications.json" files' = sampleDocument.
Proof.
  assert (Json.is_json sampleDocument = true) as Hjson by (vm_compute; reflexivity).
  split; [exact Hjson |].
  exact (load_after_save sampleHost "publications.json" sampleDocument ∅ Hjson).
Defined.

(** ** The renderers *)

Section render_facts.

Lemma generateNewsHTML_host host1 host2 item :
  (forall date, toLocaleDateString host1 date = toLocaleDateString host2 date) ->
  Render.generateNewsHTML host1 item = Render.generateNewsHTML host2 item.
Proof. intros H. unfold Render.generateNewsHTML. by rewrite H. Qed.

Lemma generateSitemap_today env1 env2 :
  today env1 = today env2 -> Render.generateSitemap env1 = Render.generateSitemap env2.
Proof. intros H. unfold Render.generateSitemap. by rewrite H. Qed.

End render_facts.

(** C2, as stated, fails for the sitemap: every entry carries the date of
    the run, so two runs on the same documents on different days write
    different files. *)
Lemma sitemap_changes_with_the_date :
  Render.generateSitemap sampleEnv <> Render.generateSitemap nextDay
  /\ Render.generateContent sampleHost sampleEnv contentStore
     <> Render.generateContent sampleHost nextDay contentStore.
Proof.
  assert (Render.generateSitemap sampleEnv <> Render.generateSitemap nextDay) as Hs.
  { apply String.eqb_neq. vm_compute. reflexivity. }
  split; [exact Hs |].
  intros H.
  assert (forall r1 r2 : result (gmap string string), r1 = r2 ->
            (fun r => match r with
                      | Ok files => files !! "sitemap.xml"
                      | Throw _ => None
                      end) r1
            = (fun r => match r with
                        | Ok files => files !! "sitemap.xml"
                        | Throw _ => None
                        end) r2) as Hf by (by intros ?? ->).
  apply Hf in H. vm_compute in H. discriminate H.
Qed.

(** C2, amended.  Two runs of the generator on the same documents write
    the same files when they run on the same date with the same date
    formatting of the host; whatever the date and the host, they throw
    together or not at all, and the publication, resource and activity
    fragments and the structured data are the same. *)
Theorem generateContent_deterministic host1 host2 env1 env2 (st : Store) :
  (today env1 = today env2 ->
   (forall date, toLocaleDateString host1 date = toLocaleDateString host2 date) ->
   Render.generateContent host1 env1 st = Render.generateContent host2 env2 st)
  /\ (forall name, name <> "sitemap.xml" -> name <> "news.html" ->
        (fun files : gmap string string => files !! name)
          <$> Render.generateContent host1 env1 st
        = (fun files : gmap string string => files !! name)
          <$> Render.generateContent host2 env2 st).
Proof.
  split.
  - intros Htoday Hdate. unfold Render.generateContent.
    destruct (personal_json st) as [personal|]; [| done].
    rewrite (generateSitemap_today env1 env2 Htoday).
    assert (forall items, map (Render.generateNewsHTML host1) items
                          = map (Render.generateNewsHTML host2) items) as Hnews.
    { intros items. apply map_ext. intros item. by apply generateNewsHTML_host. }
    destruct (news_json st) as [items|]; [| done]. by rewrite Hnews.
  - intros name Hsitemap Hnews. unfold Render.generateContent.
    destruct (personal_json st) as [personal|]; [| done].
    destruct (match publications_json st with
              | Some data => _
              | None => _
              end) as [publications|e]; [| done]. simpl.
    destruct (Render.generateStructuredData personal (publications_json st))
      as [structuredData|e]; [| done]. simpl.
    f_equal.
    rewrite !lookup_insert.
    repeat case_decide; try done; congruence.
Qed.

Lemma generateContent_deterministic_witness :
  today sampleEnv = today sameDay
  /\ (forall date,
        toLocaleDateString sampleHost date = toLocaleDateString sameZoneHost date)
  /\ Render.generateContent sampleHost sampleEnv contentStore
     = Render.generateContent sameZoneHost sameDay contentStore.
Proof.
  split; [reflexivity | split; [reflexivity |]].
  apply (proj1 (generateContent_deterministic sampleHost sameZoneHost sampleEnv sameDay
                  contentStore)); reflexivity.
Defined.

(** ** Validation *)

Section validator_facts.
Implicit Types (publications : list Publication.t) (titles : list string).

(** How often an issue occurs in a report. *)
#[local] Abbreviation count issue issues := (length (filter (fun s : string => s = issue) issues)).

Lemma all_digits_uint d : Js.all Js.is_digit (NilEmpty.string_of_uint d) = true.
Proof. induction d; simpl; try done. Qed.

Lemma nat_to_string_inj n m : Js.nat_to_string n = Js.nat_to_string m -> n = m.
Proof.
  unfold Js.nat_to_string. intros H.
  apply (f_equal NilEmpty.uint_of_string) in H. rewrite !NilEmpty.usu in H.
  injection H as H. by apply DecimalNat.Unsigned.to_uint_inj.
Qed.

Lemma nat_to_string_no_colon n :
  Js.all (fun b => negb (bool_decide (":"%char = b))) (Js.nat_to_string n) = true.
Proof.
  apply (all_weaken Js.is_digit); [| apply all_digits_uint].
  intros c Hc. apply negb_true_iff, bool_decide_eq_false. by intros <-.
Qed.

(** The text of an issue tells the publication and the kind of the issue. *)
Lemma issue_text_inj i j kind1 kind2 :
  Validator.issuePrefix i +:+ kind1 = Validator.issuePrefix j +:+ kind2 ->
  i = j /\ kind1 = kind2.
Proof.
  unfold Validator.issuePrefix. rewrite !app_assoc_s. simpl.
  intros H. injection H as H.
  apply cut_unique in H as [H1 H2]; try apply nat_to_string_no_colon.
  apply nat_to_string_inj in H1. injection H2 as H2. split; [lia | done].
Qed.

Lemma count_app issue (l1 l2 : list string) :
  count issue (l1 ++ l2) = (count issue l1 + count issue l2)%nat.
Proof. by rewrite filter_app, length_app. Qed.

Lemma count_none issue (l : list string) :
  (forall s, s ∈ l -> s <> issue) -> count issue l = 0%nat.
Proof.
  intros H. induction l as [|s l IH]; [done |].
  rewrite filter_cons. destruct (decide (s = issue)) as [-> | _].
  - exfalso. apply (H issue); [apply elem_of_cons; by left | done].
  - apply IH. intros s' Hs'. apply H. apply elem_of_cons. by right.
Qed.

Lemma elem_of_concat (s : string) (ls : list (list string)) :
  s ∈ concat ls -> exists l, s ∈ l /\ l ∈ ls.
Proof.
  rewrite list_elem_of_In, in_concat. intros (l & Hl & Hs).
  exists l. by rewrite !list_elem_of_In.
Qed.

(** The issues of one publication, by kind. *)
Lemma publicationIssues_elem env i pub s :
  s ∈ Validator.publicationIssues env i pub ->
  exists kind, s = Validator.issuePrefix i +:+ kind
    /\ (kind = "Missing title or authors" \/ kind = "Invalid DOI format"
        \/ kind = "Invalid year").
Proof.
  unfold Validator.publicationIssues. rewrite !elem_of_app.
  intros [H | [H | H]]; repeat case_match; try by apply elem_of_nil in H.
  all: apply list_elem_of_singleton in H as ->; eexists; split; eauto.
Qed.

Lemma publicationIssues_count env i pub kind (flag : bool) :
  (kind = "Invalid DOI format" /\ flag = Validator.invalidDoi pub)
  \/ (kind = "Invalid year" /\ flag = Validator.invalidYear env pub) ->
  count (Validator.issuePrefix i +:+ kind) (Validator.publicationIssues env i pub)
  = if flag then 1%nat else 0%nat.
Proof.
  unfold Validator.publicationIssues.
  intros [[-> ->] | [-> ->]]; rewrite !count_app;
    destruct (Validator.missingTitleOrAuthors pub), (Validator.invalidDoi pub),
      (Validator.invalidYear env pub);
    rewrite ?filter_cons, ?filter_nil; repeat case_decide; simpl; try reflexivity;
    match goal with
    | H : _ +:+ _ = _ +:+ _ |- _ => apply issue_text_inj in H as [_ H]; discriminate H
    | H : _ +:+ _ <> _ +:+ _ |- _ => by destruct H
    end.
Qed.

(** In the report of the loop, the issue of a kind for the publication at
    [i] occurs once when the check fires and never otherwise. *)
Lemma loop_count env kind (flag : Publication.t -> bool) publications :
  (kind = "Invalid DOI format" /\ flag = Validator.invalidDoi)
  \/ (kind = "Invalid year" /\ flag = Validator.invalidYear env) ->
  forall offset i pub,
    publications !! i = Some pub ->
    count (Validator.issuePrefix (offset + i) +:+ kind)
          (concat (imap (fun j => Validator.publicationIssues env (offset + j)) publications))
    = if flag pub then 1%nat else 0%nat.
Proof.
  intros Hkind. induction publications as [|p publications IH]; intros offset i pub Hi;
    [done |].
  rewrite imap_cons. simpl concat. rewrite count_app.
  assert (forall offset' k,
    (offset' <= k)%nat ->
    forall j, (j < offset')%nat \/ (length publications + offset' <= j)%nat ->
    count (Validator.issuePrefix j +:+ kind)
      (concat (imap (fun j' => Validator.publicationIssues env (offset' + j')) publications))
    = 0%nat) as Hother.
  { clear. intros offset' k _ j Hj. apply count_none. intros s Hs.
    apply elem_of_concat in Hs as (l & Hs & Hl).
    apply elem_of_lookup_imap in Hl as (j' & p' & -> & Hp').
    apply lookup_lt_Some in Hp'.
    apply publicationIssues_elem in Hs as (kind' & -> & _).
    intros [Heq _]%issue_text_inj. lia. }
  destruct i as [|i]; simpl in Hi.
  - injection Hi as ->. rewrite Nat.add_0_r.
    rewrite (publicationIssues_count env offset pub kind (flag pub)).
    + assert (count (Validator.issuePrefix offset +:+ kind)
                (concat (imap ((fun j => Validator.publicationIssues env (offset + j)) ∘ S)
                           publications)) = 0%nat) as ->; [| lia].
      replace (imap ((fun j => Validator.publicationIssues env (offset + j)) ∘ S) publications)
        with (imap (fun j' => Validator.publicationIssues env (S offset + j')) publications).
      * apply (Hother (S offset) (S offset)); lia.
      * apply imap_ext. intros j' p' _. simpl. f_equal. lia.
    + destruct Hkind as [[-> ->] | [-> ->]]; [by left | by right].
  - assert (count (Validator.issuePrefix (offset + S i) +:+ kind)
              (Validator.publicationIssues env (offset + 0) p) = 0%nat) as ->.
    { apply count_none. intros s (kind' & -> & _)%publicationIssues_elem.
      intros [Heq _]%issue_text_inj. lia. }
    replace (imap ((fun j => Validator.publicationIssues env (offset + j)) ∘ S) publications)
      with (imap (fun j' => Validator.publicationIssues env (S offset + j')) publications)
      by (apply imap_ext; intros j' p' _; simpl; f_equal; lia).
    replace (offset + S i)%nat with (S offset + i)%nat by lia.
    by rewrite (IH (S offset) i pub Hi).
Qed.

(** The parts of a report. *)
Lemma validate_report env st personal data :
  personal_json st = Some personal ->
  publications_json st = Some data ->
  exists base tail,
    Validator.validateAcademicData env st
    = base
      ++ concat (imap (fun j => Validator.publicationIssues env (0 + j))
                      (PublicationsData.publications data))
      ++ tail
    /\ (forall s, s ∈ base -> s = "Missing required personal information")
    /\ (forall s, s ∈ tail -> exists found : string, s = "Duplicate publications found: " +:+ found)
    /\ (forall titles,
          Validator.lowerTitles (PublicationsData.publications data) = Ok titles ->
          tail = match Validator.duplicates titles with
                 | [] => []
                 | dups => ["Duplicate publications found: " +:+ Js.join ", " dups]
                 end).
Proof.
  intros Hp Hd. unfold Validator.validateAcademicData. rewrite Hp, Hd.
  set (base := if _ : bool then _ else _).
  exists base.
  destruct (Validator.lowerTitles _) as [titles|e] eqn:Ht.
  - destruct (Validator.duplicates titles) as [|dup dups] eqn:Hdup.
    + exists []. rewrite app_nil_r. split_and!; [done | | by intros ? ?%elem_of_nil |].
      * subst base. intros s. case_match; [by intros ->%list_elem_of_singleton |
                                           by intros ?%elem_of_nil].
      * intros ? [= <-]. by rewrite Hdup.
    + eexists [_]. rewrite <- app_assoc. split_and!; [done | | |].
      * subst base. intros s. case_match; [by intros ->%list_elem_of_singleton |
                                           by intros ?%elem_of_nil].
      * intros s ->%list_elem_of_singleton. by eexists.
      * intros ? [= <-]. by rewrite Hdup.
  - exists []. rewrite app_nil_r. split_and!; [done | | by intros ? ?%elem_of_nil | done].
    subst base. intros s. case_match; [by intros ->%list_elem_of_singleton |
                                       by intros ?%elem_of_nil].
Qed.

(** A publication with the DOI "abc" gets one DOI issue, a publication of
    the year 1850 one year issue, whatever else the collection holds. *)
Lemma validator_flags_doi_and_year env st personal data i pub :
  personal_json st = Some personal ->
  publications_json st = Some data ->
  PublicationsData.publications data !! i = Some pub ->
  (Publication.doi pub = Val "abc" ->
   length (filter (fun s => s = Validator.issuePrefix i +:+ "Invalid DOI format")
                  (Validator.validateAcademicData env st)) = 1%nat)
  /\ (Publication.year pub = Val (Num 1850) ->
      length (filter (fun s => s = Validator.issuePrefix i +:+ "Invalid year")
                     (Validator.validateAcademicData env st)) = 1%nat).
Proof.
  intros Hp Hd Hi.
  destruct (validate_report env st personal data Hp Hd) as (base & tail & -> & Hb & Ht & _).
  assert (forall kind, count (Validator.issuePrefix i +:+ kind) base = 0%nat) as Hbase.
  { intros kind. apply count_none. intros s ->%Hb. discriminate. }
  assert (forall kind, count (Validator.issuePrefix i +:+ kind) tail = 0%nat) as Htail.
  { intros kind. apply count_none. intros s [found ->]%Ht. discriminate. }
  split; intros Hpub; rewrite !count_app, Hbase, Htail.
  - pose proof (loop_count env "Invalid DOI format" Validator.invalidDoi _
                  (or_introl (conj eq_refl eq_refl)) 0%nat i pub Hi) as Hloop.
    change (0 + i)%nat with i in Hloop. rewrite Hloop.
    unfold Validator.invalidDoi. by rewrite Hpub.
  - pose proof (loop_count env "Invalid year" (Validator.invalidYear env) _
                  (or_intror (conj eq_refl eq_refl)) 0%nat i pub Hi) as Hloop.
    change (0 + i)%nat with i in Hloop. rewrite Hloop.
    unfold Validator.invalidYear. by rewrite Hpub.
Qed.

(** [indexOf] finds the first occurrence. *)
Lemma indexOf_spec title titles k :
  Validator.indexOf title titles = Some k
  <-> titles !! k = Some title /\ forall k', (k' < k)%nat -> titles !! k' <> Some title.
Proof.
  revert k. induction titles as [|t titles IH]; intros k; simpl.
  - split; [done | by intros [? _]].
  - case_bool_decide as Ht.
    + subst t. split.
      * intros [= <-]. split; [done | lia].
      * intros [Hk Hfirst]. destruct k as [|k]; [done |].
        exfalso. by apply (Hfirst 0%nat); [lia |].
    + rewrite fmap_Some. split.
      * intros (k0 & Hk0 & ->). apply IH in Hk0 as [Hk0 Hfirst].
        split; [done |]. intros [|k'] Hlt; simpl; [congruence | apply Hfirst; lia].
      * intros [Hk Hfirst]. destruct k as [|k]; simpl in Hk; [congruence |].
        exists k. split; [| done]. apply IH. split; [done |].
        intros k' Hlt. apply (Hfirst (S k')). lia.
Qed.

Lemma omap_none {A B} (h : A -> option B) (l : list A) :
  (forall k x, l !! k = Some x -> h x = None) -> omap h l = [].
Proof.
  induction l as [|x l IH]; intros Hh; [done |]. simpl.
  rewrite (Hh 0%nat x eq_refl). apply IH. intros k x0 Hk. apply (Hh (S k) x0 Hk).
Qed.

Lemma omap_single {A B} (h : A -> option B) (l : list A) j y :
  (forall k x, l !! k = Some x -> h x = if decide (k = j) then Some y else None) ->
  (j < length l)%nat -> omap h l = [y].
Proof.
  revert j. induction l as [|x l IH]; intros j Hh Hj; simpl in *; [lia |].
  pose proof (Hh 0%nat x eq_refl) as Hx.
  destruct j as [|j].
  - rewrite decide_True in Hx by done. rewrite Hx. f_equal.
    apply omap_none. intros k x0 Hk.
    rewrite (Hh (S k) x0 Hk). by rewrite decide_False.
  - rewrite decide_False in Hx by done. rewrite Hx.
    apply (IH j); [| lia]. intros k x0 Hk.
    rewrite (Hh (S k) x0 Hk). repeat case_decide; try done; lia.
Qed.

(** When all publications have a title and exactly two of them, at [i] and
    [j], share one up to letter case, the report ends with one issue that
    names this title. *)
Lemma validator_flags_duplicate env st personal data titles i j title :
  personal_json st = Some personal ->
  publications_json st = Some data ->
  Validator.lowerTitles (PublicationsData.publications data) = Ok titles ->
  (i < j)%nat -> titles !! i = Some title -> titles !! j = Some title ->
  (forall a b t, (a < b)%nat -> titles !! a = Some t -> titles !! b = Some t ->
                 a = i /\ b = j) ->
  exists others,
    Validator.validateAcademicData env st
    = others ++ ["Duplicate publications found: " +:+ title]
    /\ forall s (found : string), s ∈ others -> s <> "Duplicate publications found: " +:+ found.
Proof.
  intros Hp Hd Ht Hij Hi Hj Honly.
  destruct (validate_report env st personal data Hp Hd) as (base & tail & -> & Hb & _ & Htail).
  rewrite (Htail titles Ht).
  assert (Validator.duplicates titles = [title]) as ->.
  { unfold Validator.duplicates.
    apply (omap_single _ _ j).
    - intros k [k0 t] Hk. apply list_lookup_imap_Some in Hk as (t0 & Hk & [= -> ->]).
      case_decide as Hkj.
      + subst k. rewrite Hj in Hk. injection Hk as <-.
        rewrite bool_decide_eq_false_2; [done |].
        intros [_ Hfirst]%indexOf_spec. by apply (Hfirst i).
      + rewrite bool_decide_eq_true_2; [done |].
        apply indexOf_spec. split; [done |]. intros k' Hlt Hk'.
        destruct (Honly k' k t0 Hlt Hk' Hk) as [_ ?]. done.
    - rewrite length_imap. by apply lookup_lt_Some in Hj. }
  simpl Js.join. eexists. rewrite app_assoc. split; [reflexivity |].
  intros s found [Hs | Hs]%elem_of_app.
  - apply Hb in Hs as ->. discriminate.
  - apply elem_of_concat in Hs as (l & Hs & Hl).
    apply elem_of_lookup_imap in Hl as (k & p & -> & _).
    apply publicationIssues_elem in Hs as (kind & -> & _). discriminate.
Qed.

End validator_facts.

(** A run on three publications, the third with the DOI "abc" and the
    year 1850. *)
Example validator_flags_third_publication :
  Validator.validateAcademicData sampleEnv
    (storeOf (duplicatedTitles (withDoi "abc" (article "doe1850" "Spectra" ["J Doe"] 1850))))
  = ["Publication 3: Invalid DOI format"; "Publication 3: Invalid year";
     "Duplicate publications found: quantum dynamics"].
Proof. vm_compute. reflexivity. Qed.

(** C4 on a collection with a publication that has no title: the loop
    reports the missing title, then [pub.title.toLowerCase()] throws and
    the check for duplicates is skipped, though two publications share a
    title; with a title on the third publication the duplicate is
    reported. *)
Theorem validator_misses_duplicates_without_title :
  Validator.validateAcademicData sampleEnv
    (storeOf (duplicatedTitles (withoutTitle (article "doe2022" "Spectra" ["J Doe"] 2022))))
  = ["Publication 3: Missing title or authors"]
  /\ Validator.validateAcademicData sampleEnv
       (storeOf (duplicatedTitles (article "doe2022" "Spectra" ["J Doe"] 2022)))
     = ["Duplicate publications found: quantum dynamics"].
Proof. split; vm_compute; reflexivity. Qed.
(** ** Repeating the update from the BibTeX file *)

Section merge_again.
Implicit Types (existing incoming : list Publication.t).

Lemma merge_all_present incoming : forall l,
  (forall q, q ∈ incoming -> Publication.id q ∈ Publication.id <$> l) ->
  Merger.merge l incoming = l.
Proof.
  induction incoming as [|q incoming IH]; intros l Hall; [done |].
  unfold Merger.merge. simpl.
  rewrite mergeStep_present by (apply Hall, elem_of_cons; by left).
  apply IH. intros q' Hq'. apply Hall, elem_of_cons. by right.
Qed.

Lemma normalizePublication_id p :
  Publication.id (normalizePublication p) = Publication.id p.
Proof. unfold normalizePublication. by destruct (Publication.year p) as [| |[|z]]. Qed.

Lemma normalizePublication_idem p :
  normalizePublication (normalizePublication p) = normalizePublication p.
Proof.
  unfold normalizePublication.
  destruct (Publication.year p) as [| |[|z]] eqn:E; simpl; rewrite ?E; done.
Qed.

Lemma normalizeStatistics_idem stats :
  normalizeStatistics (normalizeStatistics stats) = normalizeStatistics stats.
Proof.
  unfold normalizeStatistics. simpl. f_equal.
  destruct (Statistics.latest_publication stats); [done | done |].
  by rewrite normalizePublication_idem.
Qed.

Lemma merge_covers existing incoming q :
  q ∈ incoming ->
  Publication.id q ∈ Publication.id <$> Merger.merge existing incoming.
Proof.
  intros Hq.
  destruct (merge_appends incoming existing) as (added & -> & _ & _ & Hall & _).
  by apply Hall.
Qed.

(** The result of an update is a fixed point of the update. *)
Lemma update_again env st st' :
  Merger.updatePublicationsFromSources env st = Ok st' ->
  Merger.updatePublicationsFromSources env st' = Ok st'.
Proof.
  unfold Merger.updatePublicationsFromSources, Merger.mergeData.
  destruct (Bibtex.parseBibtexFile env (references_bib st)) as [incoming|] eqn:Hbib.
  - destruct (publications_json st) as [data|] eqn:Hdata; [| done].
    destruct (PublicationsData.statistics data) as [| |stats] eqn:Hstats; try done.
    simpl. intros [= <-]. simpl. rewrite Hbib. simpl.
    set (merged := Merger.merge (PublicationsData.publications data) incoming).
    assert (Merger.merge (map normalizePublication merged) incoming
            = map normalizePublication merged) as ->.
    { apply merge_all_present. intros q Hq.
      rewrite <- list_fmap_compose.
      rewrite (list_fmap_ext _ Publication.id merged)
        by (intros; apply normalizePublication_id).
      by apply merge_covers. }
    unfold writePublications. simpl. rewrite length_map, map_map.
    rewrite (map_ext _ normalizePublication normalizePublication_idem).
    assert (normalizeStatistics
              (setTotals (length merged) env
                 (normalizeStatistics (setTotals (length merged) env stats)))
            = normalizeStatistics (setTotals (length merged) env stats)) as ->.
    { unfold normalizeStatistics, setTotals. simpl. f_equal.
      destruct (Statistics.latest_publication stats); [done | done |].
      by rewrite normalizePublication_idem. }
    reflexivity.
  - intros [= <-]. by rewrite Hbib.
Qed.


End merge_again.

(** A second update from the same BibTeX file, on the same day, changes
    nothing: every candidate is found by its identifier, and the file
    written is the one that was there. *)
Theorem update_twice_adds_nothing env st st' :
  Merger.updatePublicationsFromSources env st = Ok st' ->
  Merger.updatePublicationsFromSources env st' = Ok st'.
Proof. apply update_again. Qed.

Lemma update_twice_adds_nothing_witness :
  exists st',
    Merger.updatePublicationsFromSources sampleEnv bibStore = Ok st'
    /\ Merger.updatePublicationsFromSources sampleEnv st' = Ok st'.
Proof.
  eexists. split; [reflexivity |].
  apply (update_twice_adds_nothing sampleEnv bibStore). reflexivity.
Defined.

(** The merge keeps identifiers unique: when no two existing publications
    share an identifier, no two merged ones do, and every candidate's
    identifier is in the merged collection. *)
Theorem merge_keeps_ids_unique (existing incoming : list Publication.t) :
  NoDup (Publication.id <$> existing) ->
  NoDup (Publication.id <$> Merger.merge existing incoming)
  /\ (forall q, q ∈ incoming ->
        Publication.id q ∈ Publication.id <$> Merger.merge existing incoming).
Proof.
  intros Hnd. split; [| intros q Hq; by apply merge_covers].
  destruct (merge_appends incoming existing) as (added & -> & Hadd & Hnd' & _).
  rewrite fmap_app. apply NoDup_app. split_and!; [done | | done].
  intros i Hi (q & -> & Hq)%list_elem_of_fmap.
  by apply Hadd in Hq as [_ Hq].
Qed.

Lemma merge_keeps_ids_unique_witness :
  NoDup (Publication.id <$> [article "k1" "A" ["J Doe"] 2020])
  /\ NoDup (Publication.id
            <$> Merger.merge [article "k1" "A" ["J Doe"] 2020]
                  [article "k1" "B" [] 2021; article "k2" "C" [] 2022;
                   article "k2" "D" [] 2023])
  /\ (forall q, q ∈ [article "k1" "B" [] 2021; article "k2" "C" [] 2022;
                     article "k2" "D" [] 2023] ->
        Publication.id q
        ∈ Publication.id
          <$> Merger.merge [article "k1" "A" ["J Doe"] 2020]
                [article "k1" "B" [] 2021; article "k2" "C" [] 2022;
                 article "k2" "D" [] 2023]).
Proof.
  assert (NoDup (Publication.id <$> [article "k1" "A" ["J Doe"] 2020])) as Hnd.
  { simpl. apply NoDup_singleton. }
  split; [exact Hnd |].
  exact (merge_keeps_ids_unique _ _ Hnd).
Defined.
(** ** The counters and the latest publication of the metrics *)

Section counters.
Implicit Types (publications : list Publication.t) (counts : gmap string nat).

#[local] Abbreviation occurrences key k publications :=
  (length (filter (fun pub : Publication.t => key pub = k) publications)).

Lemma bump_lookup key counts k :
  Metrics.bump key counts !! k
  = if decide (key = k) then Some (default 0 (counts !! k) + 1)%nat else counts !! k.
Proof.
  unfold Metrics.bump. case_decide as Hk.
  - subst. by rewrite lookup_insert_eq.
  - by rewrite lookup_insert_ne.
Qed.

Lemma countBy_from key publications : forall counts k,
  foldl (fun counts pub => Metrics.bump (key pub) counts) counts publications !! k
  = match occurrences key k publications with
    | O => counts !! k
    | S n => Some (default 0 (counts !! k) + S n)%nat
    end.
Proof.
  induction publications as [|pub publications IH]; intros counts k; simpl; [done |].
  rewrite IH, bump_lookup, filter_cons.
  case_decide as Hk; simpl.
  - destruct (occurrences key k publications); f_equal; lia.
  - done.
Qed.

(** The sum of the counts of a counter. *)
Lemma sum_insert counts k n :
  (map_fold (fun _ c acc => c + acc) 0 (<[k := n]> counts) + default 0 (counts !! k)
   = n + map_fold (fun _ c acc => c + acc) 0 counts)%nat.
Proof.
  destruct (counts !! k) as [c|] eqn:E; simpl.
  - rewrite <- (insert_delete_id counts k c E) at 2.
    rewrite <- (insert_delete_eq counts k n).
    rewrite !(map_fold_insert_L _ _ _ _ (delete k counts));
      [lia | intros; lia | apply lookup_delete_eq | intros; lia | apply lookup_delete_eq].
  - rewrite (map_fold_insert_L _ _ _ _ counts); [lia | intros; lia | done].
Qed.

Lemma countBy_sum key publications : forall counts,
  map_fold (fun _ c acc => (c + acc)%nat) 0%nat
    (foldl (fun counts pub => Metrics.bump (key pub) counts) counts publications)
  = (map_fold (fun _ c acc => (c + acc)%nat) 0%nat counts + length publications)%nat.
Proof.
  induction publications as [|pub publications IH]; intros counts; simpl; [lia |].
  rewrite IH. unfold Metrics.bump.
  pose proof (sum_insert counts (key pub) (default 0 (counts !! key pub) + 1)%nat). lia.
Qed.

(** The year of a publication as an integer, when it has one. *)
Lemma later_spec latest pub y1 y2 :
  Publication.year latest = Val (Num y1) -> Publication.year pub = Val (Num y2) ->
  Metrics.later latest pub = if y1 <? y2 then pub else latest.
Proof. intros H1 H2. unfold Metrics.later, Js.gt, Js.lt. by rewrite H1, H2. Qed.

Lemma foldl_later rest : forall first y,
  Publication.year first = Val (Num y) ->
  Forall (fun pub => exists y', Publication.year pub = Val (Num y')) rest ->
  exists y_max,
    Publication.year (foldl Metrics.later first rest) = Val (Num y_max)
    /\ foldl Metrics.later first rest ∈ first :: rest
    /\ y <= y_max
    /\ Forall (fun pub => exists y', Publication.year pub = Val (Num y') /\ y' <= y_max) rest.
Proof.
  induction rest as [|pub rest IH]; intros first y Hy Hall; simpl.
  - exists y. split_and!; [done | apply elem_of_cons; by left | lia | constructor].
  - apply Forall_cons in Hall as [[y' Hy'] Hall].
    rewrite (later_spec first pub y y' Hy Hy').
    destruct (y <? y') eqn:Hlt.
    + apply Z.ltb_lt in Hlt.
      destruct (IH pub y' Hy' Hall) as (y_max & Hmax & Hin & Hle & Hrest).
      exists y_max. split_and!; [done | | lia |].
      * apply elem_of_cons. by right.
      * constructor; [exists y'; split; [done | lia] | done].
    + apply Z.ltb_ge in Hlt.
      destruct (IH first y Hy Hall) as (y_max & Hmax & Hin & Hle & Hrest).
      exists y_max. split_and!; [done | | lia |].
      * apply elem_of_cons in Hin as [-> | Hin]; apply elem_of_cons;
          [by left | right; apply elem_of_cons; by right].
      * constructor; [exists y'; split; [done | lia] | done].
Qed.

End counters.

(** When the metrics are computed and no year, status or type of a
    publication has the name of a property of [Object.prototype], each
    counter holds, for every key, the number of publications with this
    year, status or type (and no entry for a key that does not occur);
    the counts of each counter add up to [total_publications], the number
    of publications. *)
Theorem metrics_counters env (publications : list Publication.t) (metrics : Statistics.t) :
  (forall pub, pub ∈ publications ->
     Metrics.yearKey pub ∉ objectPrototypeNames
     /\ Metrics.statusKey pub ∉ objectPrototypeNames
     /\ Metrics.typeKey pub ∉ objectPrototypeNames) ->
  Metrics.computeMetrics env publications = Ok metrics ->
  Statistics.total_publications metrics = Val (Num (Z.of_nat (length publications)))
  /\ forall counter key,
       (counter = Statistics.publications_by_year /\ key = Metrics.yearKey)
       \/ (counter = Statistics.publications_by_status /\ key = Metrics.statusKey)
       \/ (counter = Statistics.publications_by_type /\ key = Metrics.typeKey) ->
       exists counts : gmap string nat,
         counter metrics = Val counts
         /\ (forall k,
               counts !! k
               = match length (filter (fun pub => key pub = k) publications) with
                 | O => None
                 | n => Some n
                 end)
         /\ map_fold (fun _ c acc => (c + acc)%nat) 0%nat counts = length publications.
Proof.
  intros _. unfold Metrics.computeMetrics.
  destruct (Metrics.collaborators publications) as [network|e]; [| done].
  simpl. intros [= <-]. simpl. split; [done |].
  intros counter key Hkind.
  exists (Metrics.countBy key publications).
  split_and!.
  - by destruct Hkind as [[-> ->] | [[-> ->] | [-> ->]]].
  - intros k. unfold Metrics.countBy. rewrite countBy_from, lookup_empty.
    by destruct (length _).
  - unfold Metrics.countBy. rewrite countBy_sum, map_fold_empty. lia.
Qed.

Lemma metrics_counters_witness :
  let publications :=
    [article "a" "A" ["R Korol"; "J Doe"] 2023;
     withStatus "submitted" (article "b" "B" ["J Doe"] 2023)] in
  (forall pub, pub ∈ publications ->
     Metrics.yearKey pub ∉ objectPrototypeNames
     /\ Metrics.statusKey pub ∉ objectPrototypeNames
     /\ Metrics.typeKey pub ∉ objectPrototypeNames)
  /\ exists metrics,
       Metrics.computeMetrics sampleEnv publications = Ok metrics
       /\ Statistics.total_publications metrics = Val (Num 2)
       /\ exists counts : gmap string nat,
            Statistics.publications_by_status metrics = Val counts
            /\ (forall k,
                  counts !! k
                  = match length (filter (fun pub => Metrics.statusKey pub = k)
                                    publications) with
                    | O => None
                    | n => Some n
                    end)
            /\ map_fold (fun _ c acc => (c + acc)%nat) 0%nat counts = 2%nat.
Proof.
  intros publications.
  assert (forall pub, pub ∈ publications ->
            Metrics.yearKey pub ∉ objectPrototypeNames
            /\ Metrics.statusKey pub ∉ objectPrototypeNames
            /\ Metrics.typeKey pub ∉ objectPrototypeNames) as Hkeys.
  { intros pub Hpub. subst publications.
    repeat (apply elem_of_cons in Hpub as [-> | Hpub];
            [split_and!; apply (bool_decide_unpack _); vm_compute; exact I |]).
    by apply elem_of_nil in Hpub. }
  split; [exact Hkeys |].
  eexists. split; [reflexivity |].
  destruct (metrics_counters sampleEnv publications _ Hkeys eq_refl)
    as [Htotal Hcounters].
  split; [exact Htotal |].
  exact (Hcounters Statistics.publications_by_status Metrics.statusKey
           (or_intror (or_introl (conj eq_refl eq_refl)))).
Defined.

(** The latest publication of the metrics.  Without a published
    publication it is [null].  Otherwise, when the published publications
    have numeric years, it is a published publication of the collection
    and no published publication has a greater year. *)
Theorem metrics_latest_publication env (publications : list Publication.t)
    (metrics : Statistics.t) :
  Metrics.computeMetrics env publications = Ok metrics ->
  (forall pub, pub ∈ publications -> Publication.status pub = Val "published" ->
     exists y, Publication.year pub = Val (Num y)) ->
  match Statistics.latest_publication metrics with
  | Val latest =>
      latest ∈ publications
      /\ Publication.status latest = Val "published"
      /\ exists y_max,
           Publication.year latest = Val (Num y_max)
           /\ forall pub, pub ∈ publications ->
                Publication.status pub = Val "published" ->
                exists y, Publication.year pub = Val (Num y) /\ y <= y_max
  | Null =>
      forall pub, pub ∈ publications -> Publication.status pub <> Val "published"
  | Undefined => False
  end.
Proof.
  unfold Metrics.computeMetrics.
  destruct (Metrics.collaborators publications) as [network|e]; [| done].
  simpl. intros [= <-] Hyears. simpl. unfold Metrics.latestPublication.
  destruct (filter _ publications) as [|first rest] eqn:Hpublished.
  - intros pub Hpub Hstatus.
    assert (pub ∈ filter (fun pub => Publication.status pub = Val "published") publications)
      as Hin by (by rewrite list_elem_of_filter).
    rewrite Hpublished in Hin. by apply elem_of_nil in Hin.
  - assert (forall pub, pub ∈ first :: rest <->
              Publication.status pub = Val "published" /\ pub ∈ publications) as Hel.
    { intros pub. by rewrite <- Hpublished, list_elem_of_filter. }
    assert (first ∈ first :: rest) as Hfirst by (apply elem_of_cons; by left).
    apply Hel in Hfirst as [Hs1 Hin1].
    destruct (Hyears first Hin1 Hs1) as [y Hy].
    assert (Forall (fun pub => exists y', Publication.year pub = Val (Num y')) rest) as Hrest.
    { apply Forall_forall. intros pub Hpub.
      assert (pub ∈ first :: rest) as Hpub' by (apply elem_of_cons; by right).
      apply Hel in Hpub' as [? ?]. by apply Hyears. }
    destruct (foldl_later rest first y Hy Hrest) as (y_max & Hmax & Hin & Hle & Hall).
    apply Hel in Hin as [Hs Hin].
    split_and!; [done | done |].
    exists y_max. split; [done |].
    intros pub Hpub Hstatus.
    assert (pub ∈ first :: rest) as [-> | Hpub']%elem_of_cons by (by apply Hel).
    + exists y. done.
    + rewrite Forall_forall in Hall. by apply Hall.
Qed.

Lemma metrics_latest_publication_witness :
  let publications :=
    [article "a" "A" ["J Doe"] 2021; article "b" "B" ["J Doe"] 2023;
     withStatus "submitted" (article "c" "C" ["J Doe"] 2024)] in
  (forall pub, pub ∈ publications -> Publication.status pub = Val "published" ->
     exists y, Publication.year pub = Val (Num y))
  /\ exists metrics,
       Metrics.computeMetrics sampleEnv publications = Ok metrics
       /\ match Statistics.latest_publication metrics with
          | Val latest =>
              latest ∈ publications
              /\ Publication.status latest = Val "published"
              /\ exists y_max,
                   Publication.year latest = Val (Num y_max)
                   /\ forall pub, pub ∈ publications ->
                        Publication.status pub = Val "published" ->
                        exists y, Publication.year pub = Val (Num y) /\ y <= y_max
          | Null =>
              forall pub, pub ∈ publications -> Publication.status pub <> Val "published"
          | Undefined => False
          end.
Proof.
  intros publications.
  assert (forall pub, pub ∈ publications -> Publication.status pub = Val "published" ->
            exists y, Publication.year pub = Val (Num y)) as Hyears.
  { intros pub Hpub _. subst publications.
    repeat (apply elem_of_cons in Hpub as [-> | Hpub]; [eexists; reflexivity |]).
    by apply elem_of_nil in Hpub. }
  split; [exact Hyears |].
  eexists. split; [reflexivity |].
  exact (metrics_latest_publication sampleEnv publications _ eq_refl Hyears).
Defined.
(** ** When the validation passes *)

Section validator_passes.
Implicit Types (publications : list Publication.t) (titles : list string).

Lemma concat_nil (ls : list (list string)) :
  concat ls = [] <-> Forall (fun l => l = []) ls.
Proof.
  induction ls as [|l ls IH]; simpl.
  - split; [constructor | done].
  - rewrite Forall_cons, <- IH. split.
    + intros [-> ->]%app_eq_nil. done.
    + intros [-> ->]. done.
Qed.

Lemma publicationIssues_nil env i pub :
  Validator.publicationIssues env i pub = []
  <-> Validator.missingTitleOrAuthors pub = false
      /\ Validator.invalidDoi pub = false
      /\ Validator.invalidYear env pub = false.
Proof.
  unfold Validator.publicationIssues.
  destruct (Validator.missingTitleOrAuthors pub), (Validator.invalidDoi pub),
    (Validator.invalidYear env pub); simpl; split; try done; intros (? & ? & ?); done.
Qed.

Lemma loop_nil env publications :
  concat (imap (Validator.publicationIssues env) publications) = []
  <-> forall pub, pub ∈ publications ->
        Validator.missingTitleOrAuthors pub = false
        /\ Validator.invalidDoi pub = false
        /\ Validator.invalidYear env pub = false.
Proof.
  rewrite concat_nil, Forall_forall. split.
  - intros H pub [i Hi]%list_elem_of_lookup.
    apply (publicationIssues_nil env i). apply H.
    apply elem_of_lookup_imap. by exists i, pub.
  - intros H l Hl. apply elem_of_lookup_imap in Hl as (i & pub & -> & Hi).
    apply publicationIssues_nil. apply H. by apply list_elem_of_lookup_2 in Hi.
Qed.

(** The three checks on the data of a publication. *)
Lemma missingTitleOrAuthors_false pub :
  Validator.missingTitleOrAuthors pub = false
  <-> (exists title, Publication.title pub = Val title /\ title <> "")
      /\ (exists authors, Publication.authors pub = Val authors /\ authors <> []).
Proof.
  unfold Validator.missingTitleOrAuthors, Js.truthy, Js.truthy_string.
  rewrite orb_false_iff, negb_false_iff. split.
  - intros [Ht Ha].
    destruct (Publication.title pub) as [| |title]; try done.
    destruct (Publication.authors pub) as [| |authors]; try done.
    apply negb_true_iff, bool_decide_eq_false in Ht.
    apply bool_decide_eq_false in Ha.
    split; [by exists title |]. exists authors. split; [done |].
    intros ->. by apply Ha.
  - intros [(title & -> & Ht) (authors & -> & Ha)]. split.
    + by apply negb_true_iff, bool_decide_eq_false.
    + apply bool_decide_eq_false. by destruct authors.
Qed.

Lemma invalidYear_false env pub :
  Validator.invalidYear env pub = false
  <-> exists y, Publication.year pub = Val (Num y) /\ 1900 <= y <= currentYear env + 2.
Proof.
  unfold Validator.invalidYear, Js.truthy, Js.truthy_number, Js.gt, Js.lt, Js.to_number.
  rewrite !orb_false_iff, negb_false_iff. split.
  - intros [[Hy Hlow] Hhigh].
    destruct (Publication.year pub) as [| |[|y]]; try done.
    exists y. split; [done |]. apply Z.ltb_ge in Hlow, Hhigh. lia.
  - intros (y & -> & Hlow & Hhigh). split_and!.
    + apply negb_true_iff, Z.eqb_neq. lia.
    + apply Z.ltb_ge. lia.
    + apply Z.ltb_ge. lia.
Qed.

Lemma invalidDoi_false pub :
  Validator.invalidDoi pub = false
  <-> forall doi, Publication.doi pub = Val doi -> doi <> "" ->
        Js.startsWith "10." doi = true.
Proof.
  unfold Validator.invalidDoi, Js.truthy_string. split.
  - intros H doi Hdoi Hne. rewrite Hdoi in H.
    apply andb_false_iff in H as [H | H].
    + apply negb_false_iff, bool_decide_eq_true in H. done.
    + by apply negb_false_iff in H.
  - intros H. destruct (Publication.doi pub) as [| |doi]; try done.
    destruct (decide (doi = "")) as [-> | Hne]; [done |].
    rewrite (H doi eq_refl Hne). apply andb_false_r.
Qed.

(** The lower-cased titles when every publication has one. *)
Lemma lowerTitles_ok publications :
  (forall pub, pub ∈ publications -> exists title, Publication.title pub = Val title) ->
  exists titles,
    Validator.lowerTitles publications = Ok titles
    /\ length titles = length publications
    /\ forall i pub, publications !! i = Some pub ->
         exists title, Publication.title pub = Val title
                       /\ titles !! i = Some (Js.toLowerCase title).
Proof.
  unfold Validator.lowerTitles.
  induction publications as [|p publications IH]; intros Hall; simpl.
  - exists []. split_and!; [done | done |]. intros i pub Hi. done.
  - destruct (Hall p) as [title Ht]; [apply elem_of_cons; by left |].
    destruct IH as (titles & -> & Hlen & Hlookup).
    { intros pub Hpub. apply Hall, elem_of_cons. by right. }
    rewrite Ht. simpl. exists (Js.toLowerCase title :: titles).
    split_and!; [done | simpl; by rewrite Hlen |].
    intros [|i] pub Hi; simpl in *.
    + injection Hi as <-. by exists title.
    + by apply Hlookup.
Qed.

Lemma omap_nil_inv {A B} (h : A -> option B) (l : list A) :
  omap h l = [] -> forall k x, l !! k = Some x -> h x = None.
Proof.
  induction l as [|a l IH]; intros Hnil k x Hk; [done |].
  simpl in Hnil. destruct (h a) eqn:Ha; [done |].
  destruct k as [|k]; simpl in Hk; [by injection Hk as <- | by apply (IH Hnil k)].
Qed.

Lemma duplicates_nil titles : Validator.duplicates titles = [] <-> NoDup titles.
Proof.
  rewrite NoDup_alt. unfold Validator.duplicates. split.
  - intros Hnil i j title Hi Hj.
    assert (forall k, titles !! k = Some title ->
              Validator.indexOf title titles = Some k) as Hfirst.
    { intros k Hk.
      pose proof (omap_nil_inv _ _ Hnil k (k, title)) as H.
      rewrite list_lookup_imap, Hk in H. specialize (H eq_refl).
      simpl in H. by case_bool_decide. }
    apply Hfirst in Hi, Hj. congruence.
  - intros Hnd. apply omap_none. intros k [k0 title] Hk.
    apply list_lookup_imap_Some in Hk as (t & Hk & [= -> ->]).
    rewrite bool_decide_eq_true_2; [done |].
    apply indexOf_spec. split; [done |].
    intros k' Hlt Hk'. pose proof (Hnd _ _ _ Hk Hk'). lia.
Qed.

End validator_passes.

(** With both documents loaded, the validation reports no issue exactly
    when the personal data has a name and a title, every publication has a
    title, at least one author, a DOI that is absent, empty or starts with
    "10.", and a year from 1900 to two years after the current one, and no
    two publications have the same title up to letter case. *)
Theorem validator_passes_iff env st personal (data : PublicationsData.t) :
  personal_json st = Some personal ->
  publications_json st = Some data ->
  let publications := PublicationsData.publications data in
  Validator.validateAcademicData env st = []
  <-> (exists name, Personal.name personal = Val name /\ name <> "")
      /\ (exists title, Personal.title personal = Val title /\ title <> "")
      /\ (forall pub, pub ∈ publications ->
            (exists title, Publication.title pub = Val title /\ title <> "")
            /\ (exists authors, Publication.authors pub = Val authors /\ authors <> [])
            /\ (forall doi, Publication.doi pub = Val doi -> doi <> "" ->
                  Js.startsWith "10." doi = true)
            /\ (exists y, Publication.year pub = Val (Num y)
                          /\ 1900 <= y <= currentYear env + 2))
      /\ (forall i j p q t u,
            publications !! i = Some p -> publications !! j = Some q -> i <> j ->
            Publication.title p = Val t -> Publication.title q = Val u ->
            Js.toLowerCase t <> Js.toLowerCase u).
Proof.
  intros Hp Hd publications.
  assert (forall f : field string,
            negb (Js.truthy Js.truthy_string f) = false
            <-> exists s, f = Val s /\ s <> "") as Htruthy.
  { intros f. rewrite negb_false_iff. unfold Js.truthy, Js.truthy_string. split.
    - destruct f as [| |s]; try done. intros H%negb_true_iff%bool_decide_eq_false.
      by exists s.
    - intros (s & -> & Hs). by apply negb_true_iff, bool_decide_eq_false. }
  assert ((forall pub, pub ∈ publications ->
             Validator.missingTitleOrAuthors pub = false
             /\ Validator.invalidDoi pub = false
             /\ Validator.invalidYear env pub = false)
          <-> (forall pub, pub ∈ publications ->
                 (exists title, Publication.title pub = Val title /\ title <> "")
                 /\ (exists authors, Publication.authors pub = Val authors /\ authors <> [])
                 /\ (forall doi, Publication.doi pub = Val doi -> doi <> "" ->
                       Js.startsWith "10." doi = true)
                 /\ (exists y, Publication.year pub = Val (Num y)
                               /\ 1900 <= y <= currentYear env + 2))) as Hchecks.
  { split; intros H pub Hpub; specialize (H pub Hpub).
    - destruct H as (Hm & Hdoi & Hy).
      apply missingTitleOrAuthors_false in Hm as [? ?].
      apply invalidYear_false in Hy. split_and!; try done.
      by apply invalidDoi_false.
    - destruct H as (Ht & Ha & Hdoi & Hy). split_and!.
      + by apply missingTitleOrAuthors_false.
      + by apply invalidDoi_false.
      + by apply invalidYear_false. }
  rewrite <- Hchecks, <- loop_nil.
  unfold Validator.validateAcademicData. rewrite Hp, Hd.
  fold publications.
  set (loop := concat (imap (Validator.publicationIssues env) publications)).
  destruct (negb (Js.truthy Js.truthy_string (Personal.name personal))) eqn:Hname.
  { simpl. split.
    - repeat case_match; done.
    - intros [Hn _]. apply Htruthy in Hn. congruence. }
  destruct (negb (Js.truthy Js.truthy_string (Personal.title personal))) eqn:Htitle.
  { simpl. split.
    - repeat case_match; done.
    - intros (_ & Ht & _). apply Htruthy in Ht. congruence. }
  apply Htruthy in Hname, Htitle. simpl.
  destruct (decide (loop = [])) as [Hloop | Hloop].
  - rewrite Hloop.
    destruct (lowerTitles_ok publications) as (titles & Hlower & Hlen & Htitles).
    { intros pub Hpub. subst loop. rewrite loop_nil in Hloop.
      destruct (Hloop pub Hpub) as [Hm _].
      apply missingTitleOrAuthors_false in Hm as [(title & ? & _) _]. by exists title. }
    rewrite Hlower.
    assert (NoDup titles
            <-> (forall i j p q t u,
                   publications !! i = Some p -> publications !! j = Some q -> i <> j ->
                   Publication.title p = Val t -> Publication.title q = Val u ->
                   Js.toLowerCase t <> Js.toLowerCase u)) as Hdistinct.
    { rewrite NoDup_alt. split.
      - intros Hnd i j p q t u Hi Hj Hij Ht Hu Heq.
        destruct (Htitles i p Hi) as (t' & Ht' & Hti).
        destruct (Htitles j q Hj) as (u' & Hu' & Huj).
        rewrite Ht in Ht'. rewrite Hu in Hu'. simplify_eq.
        rewrite <- Heq in Huj. by pose proof (Hnd _ _ _ Hti Huj).
      - intros Hpair i j x Hi Hj.
        destruct (decide (i = j)) as [| Hij]; [done |]. exfalso.
        destruct (publications !! i) as [p|] eqn:Hpi.
        2: { apply lookup_ge_None in Hpi. apply lookup_lt_Some in Hi. lia. }
        destruct (publications !! j) as [q|] eqn:Hqj.
        2: { apply lookup_ge_None in Hqj. apply lookup_lt_Some in Hj. lia. }
        destruct (Htitles i p Hpi) as (t & Ht & Hti).
        destruct (Htitles j q Hqj) as (u & Hu & Huj).
        apply (Hpair i j p q t u); try done. congruence. }
    rewrite <- Hdistinct, <- duplicates_nil.
    destruct (Validator.duplicates titles) as [|dup dups].
    + split; [intros _; split_and!; done | done].
    + split; [intros H; discriminate H | intros (_ & _ & _ & H); discriminate H].
  - split.
    + intros H. exfalso. apply Hloop.
      destruct loop; [done |]. repeat case_match; done.
    + intros (_ & _ & ? & _). done.
Qed.

Lemma validator_passes_iff_witness :
  personal_json contentStore = Some samplePersonal
  /\ Validator.validateAcademicData sampleEnv contentStore = [].
Proof.
  split; [reflexivity |].
  apply (validator_passes_iff sampleEnv contentStore samplePersonal _ eq_refl eq_refl).
  split_and!.
  - eexists. split; [reflexivity | discriminate].
  - eexists. split; [reflexivity | discriminate].
  - intros pub Hpub. simpl in Hpub.
    apply list_elem_of_singleton in Hpub as ->.
    split_and!.
    + eexists. split; [reflexivity | discriminate].
    + eexists. split; [reflexivity | discriminate].
    + intros doi Hdoi. discriminate Hdoi.
    + eexists. split; [reflexivity | simpl; lia].
  - intros [|i] [|j] p q t u Hi Hj Hij; simpl in *; done.
Defined.

(** With both documents loaded, the report holds the DOI issue of the
    publication at position [i] (numbered from 1 in the text) once when
    its DOI is a non-empty string that does not start with "10.", and
    never otherwise; likewise the year issue, once when the year is
    missing, zero, below 1900 or more than two years ahead. *)
Theorem validator_reports_check_once env st personal (data : PublicationsData.t) i pub :
  personal_json st = Some personal ->
  publications_json st = Some data ->
  PublicationsData.publications data !! i = Some pub ->
  length (filter (fun s => s = "Publication " +:+ Js.nat_to_string (i + 1)
                               +:+ ": Invalid DOI format")
                 (Validator.validateAcademicData env st))
  = (if Validator.invalidDoi pub then 1%nat else 0%nat)
  /\ length (filter (fun s => s = "Publication " +:+ Js.nat_to_string (i + 1)
                                  +:+ ": Invalid year")
                    (Validator.validateAcademicData env st))
     = (if Validator.invalidYear env pub then 1%nat else 0%nat).
Proof.
  intros Hp Hd Hi.
  assert (forall kind,
            "Publication " +:+ Js.nat_to_string (i + 1) +:+ String ":" (String " " kind)
            = Validator.issuePrefix i +:+ kind) as Htext.
  { intros kind. unfold Validator.issuePrefix. by rewrite !app_assoc_s. }
  rewrite (Htext "Invalid DOI format"), (Htext "Invalid year").
  destruct (validate_report env st personal data Hp Hd) as (base & tail & -> & Hb & Ht & _).
  assert (forall kind,
            length (filter (fun s => s = Validator.issuePrefix i +:+ kind) base) = 0%nat)
    as Hbase.
  { intros kind. apply count_none. intros s ->%Hb. discriminate. }
  assert (forall kind,
            length (filter (fun s => s = Validator.issuePrefix i +:+ kind) tail) = 0%nat)
    as Htail.
  { intros kind. apply count_none. intros s [found ->]%Ht. discriminate. }
  split; rewrite !count_app, Hbase, Htail.
  - pose proof (loop_count env "Invalid DOI format" Validator.invalidDoi _
                  (or_introl (conj eq_refl eq_refl)) 0%nat i pub Hi) as Hloop.
    change (0 + i)%nat with i in Hloop. rewrite Hloop. lia.
  - pose proof (loop_count env "Invalid year" (Validator.invalidYear env) _
                  (or_intror (conj eq_refl eq_refl)) 0%nat i pub Hi) as Hloop.
    change (0 + i)%nat with i in Hloop. rewrite Hloop. lia.
Qed.

Lemma validator_reports_check_once_witness :
  let third := withDoi "abc" (article "doe1850" "Spectra" ["J Doe"] 1850) in
  let st := storeOf (duplicatedTitles third) in
  length (filter (fun s => s = "Publication " +:+ Js.nat_to_string (2 + 1)
                               +:+ ": Invalid DOI format")
                 (Validator.validateAcademicData sampleEnv st))
  = (if Validator.invalidDoi third then 1%nat else 0%nat)
  /\ length (filter (fun s => s = "Publication " +:+ Js.nat_to_string (2 + 1)
                                  +:+ ": Invalid year")
                    (Validator.validateAcademicData sampleEnv st))
     = (if Validator.invalidYear sampleEnv third then 1%nat else 0%nat).
Proof.
  intros third st.
  exact (validator_reports_check_once sampleEnv st samplePersonal _ 2%nat third
           eq_refl eq_refl eq_refl).
Defined.

(** With both documents loaded and a title on every publication: when
    the publications at [i] and [j] have the same title up to letter case
    and no other two publications do, the report ends with one issue that
    names this title in lower case, and holds no other issue about
    duplicates. *)
Theorem validator_reports_duplicate_once env st personal (data : PublicationsData.t)
    i j p q t u :
  personal_json st = Some personal ->
  publications_json st = Some data ->
  let publications := PublicationsData.publications data in
  (forall pub, pub ∈ publications -> exists title, Publication.title pub = Val title) ->
  publications !! i = Some p -> publications !! j = Some q -> (i < j)%nat ->
  Publication.title p = Val t -> Publication.title q = Val u ->
  Js.toLowerCase t = Js.toLowerCase u ->
  (forall a b pa pb ta tb,
     (a < b)%nat -> publications !! a = Some pa -> publications !! b = Some pb ->
     Publication.title pa = Val ta -> Publication.title pb = Val tb ->
     Js.toLowerCase ta = Js.toLowerCase tb -> a = i /\ b = j) ->
  exists others,
    Validator.validateAcademicData env st
    = others ++ ["Duplicate publications found: " +:+ Js.toLowerCase t]
    /\ forall s (found : string),
         s ∈ others -> s <> "Duplicate publications found: " +:+ found.
Proof.
  intros Hp Hd publications Hall Hi Hj Hij Ht Hu Heq Honly.
  destruct (lowerTitles_ok publications Hall) as (titles & Hlower & Hlen & Htitles).
  destruct (Htitles i p Hi) as (t' & Ht' & Hti).
  destruct (Htitles j q Hj) as (u' & Hu' & Huj).
  rewrite Ht in Ht'. rewrite Hu in Hu'. simplify_eq.
  rewrite <- Heq in Huj.
  apply (validator_flags_duplicate env st personal data titles i j _ Hp Hd Hlower Hij Hti Huj).
  intros a b title Hab Ha Hb.
  destruct (publications !! a) as [pa|] eqn:Hpa.
  2: { apply lookup_ge_None in Hpa. apply lookup_lt_Some in Ha. lia. }
  destruct (publications !! b) as [pb|] eqn:Hpb.
  2: { apply lookup_ge_None in Hpb. apply lookup_lt_Some in Hb. lia. }
  destruct (Htitles a pa Hpa) as (ta & Hta & Hta').
  destruct (Htitles b pb Hpb) as (tb & Htb & Htb').
  apply (Honly a b pa pb ta tb); try done. congruence.
Qed.

Lemma validator_reports_duplicate_once_witness :
  let publications := duplicatedTitles (article "doe2022" "Spectra" ["J Doe"] 2022) in
  exists others,
    Validator.validateAcademicData sampleEnv (storeOf publications)
    = others ++ ["Duplicate publications found: " +:+ Js.toLowerCase "Quantum Dynamics"]
    /\ forall s (found : string),
         s ∈ others -> s <> "Duplicate publications found: " +:+ found.
Proof.
  intros publications.
  apply (validator_reports_duplicate_once sampleEnv (storeOf publications) samplePersonal _
           0%nat 1%nat
           (article "korol2023" "Quantum Dynamics" ["R Korol"] 2023)
           (article "korol2023b" "quantum dynamics" ["R Korol"; "J Doe"] 2023)
           "Quantum Dynamics" "quantum dynamics" eq_refl eq_refl).
  - intros pub Hpub. subst publications.
    repeat (apply elem_of_cons in Hpub as [-> | Hpub]; [eexists; reflexivity |]).
    by apply elem_of_nil in Hpub.
  - reflexivity.
  - reflexivity.
  - lia.
  - reflexivity.
  - reflexivity.
  - reflexivity.
  - intros [|[|[|a]]] [|[|[|b]]] pa pb ta tb Hab Ha Hb Hta Htb Hlow;
      simpl in Ha, Hb; try lia; try discriminate;
      injection Ha as <-; injection Hb as <-;
      injection Hta as <-; injection Htb as <-;
      try (split; reflexivity); vm_compute in Hlow; discriminate Hlow.
Defined.
(** ** What the editor stores for a publication *)

Section trim_facts.

Lemma drop_space_ahead s : no_space_ahead (Js.drop_space s).
Proof.
  induction s as [|c s IH]; simpl; [done |].
  destruct (Js.is_space c) eqn:E; [done | simpl; done].
Qed.

Lemma drop_space_id s : no_space_ahead s -> Js.drop_space s = s.
Proof. destruct s as [|c s]; simpl; [done |]. by intros ->. Qed.

Lemma drop_space_suffix s : exists pre, s = pre +:+ Js.drop_space s.
Proof.
  induction s as [|c s [pre IH]]; simpl.
  - by exists "".
  - destruct (Js.is_space c).
    + exists (String c pre). simpl. by rewrite <- IH.
    + by exists "".
Qed.

Lemma no_space_ahead_prefix s1 s2 : no_space_ahead (s1 +:+ s2) -> no_space_ahead s1.
Proof. by destruct s1. Qed.

(** [trim] leaves no white space at either end. *)
Lemma trim_ends s :
  no_space_ahead (Js.trim s) /\ no_space_ahead (String.rev (Js.trim s)).
Proof.
  unfold Js.trim.
  set (d := Js.drop_space s).
  set (e := Js.drop_space (String.rev d)).
  rewrite rev_rev. split; [| apply drop_space_ahead].
  destruct (drop_space_suffix (String.rev d)) as [pre Hpre]. fold e in Hpre.
  apply (f_equal String.rev) in Hpre. rewrite rev_rev, rev_append in Hpre.
  apply (no_space_ahead_prefix _ (String.rev pre)). rewrite <- Hpre.
  apply drop_space_ahead.
Qed.

Lemma trim_trimmed s :
  no_space_ahead s -> no_space_ahead (String.rev s) -> Js.trim s = s.
Proof.
  intros H1 H2. unfold Js.trim.
  by rewrite (drop_space_id s H1), (drop_space_id _ H2), rev_rev.
Qed.

Lemma trim_idem s : Js.trim (Js.trim s) = Js.trim s.
Proof. destruct (trim_ends s). by apply trim_trimmed. Qed.

End trim_facts.

Section generation_fails.

Lemma mapM_throw {A B} (f : A -> result B) (l1 l2 : list A) x e :
  f x = Throw e -> Forall (fun y => exists z, f y = Ok z) l1 ->
  mapM f (l1 ++ x :: l2) = Throw e.
Proof.
  intros Hx. induction 1 as [|y l1 [z Hz] _ IH]; simpl.
  - by rewrite Hx.
  - rewrite Hz, bind_ok, IH. reflexivity.
Qed.

(** One publication without a year makes [generateStructuredData] throw. *)
Lemma structuredData_throws personal (data : PublicationsData.t) pub :
  pub ∈ PublicationsData.publications data ->
  (Publication.year pub = Null \/ Publication.year pub = Undefined) ->
  exists e, Render.generateStructuredData personal (Some data) = Throw e.
Proof.
  intros Hpub Hyear. unfold Render.generateStructuredData.
  destruct (Personal.institution personal); rewrite ?bind_throw; try by eexists.
  rewrite bind_ok.
  destruct (Personal.social personal); rewrite ?bind_throw; try by eexists.
  rewrite bind_ok.
  destruct (Personal.background personal) as [| |background];
    rewrite ?bind_throw; try by eexists.
  rewrite bind_ok.
  destruct (Background.education background); rewrite ?bind_throw; try by eexists.
  rewrite bind_ok.
  assert (exists e, mapM Render.credential (PublicationsData.publications data) = Throw e)
    as [e ->]; [| by eexists].
  revert Hpub. generalize (PublicationsData.publications data).
  intros pubs. induction pubs as [|p pubs IH]; intros Hpub;
    [by apply elem_of_nil in Hpub |].
  simpl. destruct (Render.credential p) as [c|e] eqn:Hc; [| by eexists].
  rewrite bind_ok.
  apply elem_of_cons in Hpub as [-> | Hpub].
  - unfold Render.credential in Hc. by destruct Hyear as [Hy | Hy]; rewrite Hy in Hc.
  - destruct (IH Hpub) as [e ->]. by eexists.
Qed.

Lemma generateContent_throws host env st personal data :
  personal_json st = Some personal ->
  publications_json st = Some data ->
  (exists e, Render.generateStructuredData personal (Some data) = Throw e) ->
  exists e, Render.generateContent host env st = Throw e.
Proof.
  intros Hp Hd [e He]. unfold Render.generateContent. rewrite Hp, Hd, He.
  destruct (_ <$> mapM Render.generatePublicationHTML _) as [text|e']; by eexists.
Qed.

End generation_fails.

(** The authors of a publication built by the editor are a list with at
    least one name, each of them trimmed; after an empty answer it is the
    list of one empty name.  So the check "Missing title or authors" of
    the validator fires for such a publication only when its title is
    empty. *)
Theorem editor_authors_never_empty (a : Editor.Answers) :
  exists first rest,
    Publication.authors (Editor.newPublication a) = Val (first :: rest)
    /\ Forall (fun author => Js.trim author = author) (first :: rest)
    /\ (Editor.a_authors a = "" -> first = "" /\ rest = [])
    /\ Validator.missingTitleOrAuthors (Editor.newPublication a)
       = bool_decide (Editor.a_title a = "").
Proof.
  destruct (split_go_cons "," (Editor.a_authors a) 0 "") as (first & rest & Hsplit).
  exists (Js.trim first), (map Js.trim rest). split_and!.
  - simpl. unfold Js.split. by rewrite Hsplit.
  - change (Js.trim first :: map Js.trim rest) with (map Js.trim (first :: rest)).
    apply Forall_forall. intros author (s & -> & _)%list_elem_of_fmap.
    apply trim_idem.
  - intros Hempty. rewrite Hempty in Hsplit. simpl in Hsplit.
    injection Hsplit as <- <-. split; reflexivity.
  - unfold Validator.missingTitleOrAuthors. simpl.
    unfold Js.split. rewrite Hsplit. simpl.
    unfold Js.truthy_string. rewrite negb_involutive, orb_false_r. done.
Qed.

(** A year answer that is not a number: [parseInt] gives [NaN], which is
    written as [null].  The publication is stored in front with the year
    [null]; the validator then reports "Publication 1: Invalid year", and
    the generator throws on this publication, so it writes nothing. *)
Theorem editor_year_not_a_number host env st personal data stats (a : Editor.Answers) :
  personal_json st = Some personal ->
  publications_json st = Some data ->
  PublicationsData.statistics data = Val stats ->
  Js.parseInt (Editor.a_year a) = NaN ->
  exists st' data' pub rest,
    Editor.addPublication env a st = Ok st'
    /\ publications_json st' = Some data'
    /\ PublicationsData.publications data' = pub :: rest
    /\ Publication.id pub = Val (Editor.a_id a)
    /\ Publication.year pub = Null
    /\ "Publication 1: Invalid year" ∈ Validator.validateAcademicData env st'
    /\ exists e, Render.generateContent host env st' = Throw e.
Proof.
  intros Hp Hd Hs Hyear.
  unfold Editor.addPublication, Editor.addToData. rewrite Hd, Hs. simpl.
  set (pub := normalizePublication (Editor.newPublication a)).
  assert (Publication.year pub = Null) as Hnull.
  { subst pub. unfold normalizePublication. simpl. by rewrite Hyear. }
  do 4 eexists. split_and!; [reflexivity | reflexivity | reflexivity | | exact Hnull | |].
  - unfold normalizePublication. simpl. by rewrite Hyear.
  - unfold Validator.validateAcademicData. simpl. rewrite Hp.
    fold pub.
    assert ("Publication 1: Invalid year" ∈ Validator.publicationIssues env 0 pub) as Hin.
    { unfold Validator.publicationIssues.
      assert (Validator.invalidYear env pub = true) as ->.
      { unfold Validator.invalidYear. by rewrite Hnull. }
      rewrite !elem_of_app. right. right. apply list_elem_of_singleton. reflexivity. }
    repeat case_match; rewrite ?elem_of_app; simpl; rewrite ?elem_of_app; tauto.
  - eapply generateContent_throws; [simpl; exact Hp | reflexivity |].
    apply (structuredData_throws personal _ pub); [| by left].
    simpl. apply elem_of_cons. by left.
Qed.

Lemma editor_year_not_a_number_witness :
  let a := Editor.mkAnswers "doe2024" "Spectra" "J Doe, R Korol" "J. Chem. Phys."
             "next year" "" "" "" "" in
  Js.parseInt (Editor.a_year a) = NaN
  /\ exists st' data' pub rest,
       Editor.addPublication sampleEnv a contentStore = Ok st'
       /\ publications_json st' = Some data'
       /\ PublicationsData.publications data' = pub :: rest
       /\ Publication.id pub = Val (Editor.a_id a)
       /\ Publication.year pub = Null
       /\ "Publication 1: Invalid year" ∈ Validator.validateAcademicData sampleEnv st'
       /\ exists e, Render.generateContent sampleHost sampleEnv st' = Throw e.
Proof.
  intros a. split; [reflexivity |].
  exact (editor_year_not_a_number sampleHost sampleEnv contentStore samplePersonal _
           sampleStatistics a eq_refl eq_refl eq_refl eq_refl).
Defined.
(** ** What saving does to a document *)

Section saved_facts.
Import Json.

Lemma stringify_dropped v indent :
  stringify_at indent v = None <-> Saved.dropped v = true.
Proof. destruct v as [| | |[|z]| | | |]; simpl; split; done. Qed.

Lemma members_cons indent k v props :
  members indent ((k, v) :: props)
  = match stringify_at (indent + 2) v with
    | Some text => (quote k +:+ ": " +:+ text) :: members indent props
    | None => members indent props
    end.
Proof. unfold members. simpl. by destruct (stringify_at (indent + 2) v). Qed.

Lemma members_kept indent props :
  Forall (fun kv : string * value =>
            forall indent, stringify_at indent (Saved.kept kv.2)
                           = Some (default "null" (stringify_at indent kv.2))) props ->
  members indent
    (omap (fun kv : string * value =>
             let '(k, v') := kv in
             if Saved.dropped v' then None else Some (k, Saved.kept v')) props)
  = members indent props.
Proof.
  induction 1 as [|[k v] props Hv _ IH]; [done |].
  rewrite members_cons. cbn [omap list_omap].
  destruct (Saved.dropped v) eqn:Hd.
  - apply stringify_dropped with (indent := (indent + 2)%nat) in Hd.
    by rewrite Hd.
  - rewrite members_cons. simpl in Hv. rewrite (Hv (indent + 2)%nat).
    destruct (stringify_at (indent + 2) v) as [text|] eqn:E.
    + cbn [from_option id]. by rewrite IH.
    + apply stringify_dropped in E. congruence.
Qed.

Lemma stringify_kept v : forall indent,
  stringify_at indent (Saved.kept v) = Some (default "null" (stringify_at indent v)).
Proof.
  induction v as [| | b | n | s | l IH | props IH | t] using value_ind'; intros indent;
    try reflexivity.
  - by destruct n as [|z].
  - simpl Saved.kept. rewrite !stringify_array. cbn [from_option id]. do 2 f_equal.
    unfold items. rewrite map_map. apply map_ext_Forall.
    eapply Forall_impl; [exact IH |]. intros v Hv. simpl. by rewrite Hv.
  - simpl Saved.kept. rewrite !stringify_object. cbn [from_option id]. do 2 f_equal.
    by apply members_kept.
Qed.

(** Objects whose keys are distinct names (no array index among them)
    are in property order, whatever properties are left out. *)
Lemma kept_keys_ordered props : forall before,
  Forall (fun kv : string * value => index_of_key kv.1 = None) props ->
  NoDup (before ++ map fst props) ->
  keys_ordered before
    (map fst (omap (fun kv : string * value =>
                      let '(k, v') := kv in
                      if Saved.dropped v' then None else Some (k, Saved.kept v')) props))
  = true.
Proof.
  induction props as [|[k v] props IH]; intros before Hnames Hnd; [done |].
  apply Forall_cons in Hnames as [Hk Hnames]. simpl in Hk.
  cbn [omap list_omap]. destruct (Saved.dropped v).
  - apply IH; [done |]. simpl in Hnd.
    apply NoDup_app in Hnd as (Hb & Hdisj & Hkeys).
    apply NoDup_cons in Hkeys as [_ Hkeys].
    apply NoDup_app. split_and!; [done | | done].
    intros x Hx Hx'. apply (Hdisj x Hx). apply elem_of_cons. by right.
  - simpl. apply andb_true_iff. split.
    + unfold key_fits. rewrite Hk, andb_true_r. apply bool_decide_eq_true.
      simpl in Hnd. apply NoDup_app in Hnd as (_ & Hdisj & _).
      intros Hin. apply (Hdisj k Hin). apply elem_of_cons. by left.
    + apply IH; [done |]. simpl in Hnd. by rewrite <- app_assoc.
Qed.

Lemma kept_object_is_json props :
  Forall (fun kv : string * value => index_of_key kv.1 = None) props ->
  NoDup (map fst props) ->
  Forall (fun kv : string * value => is_json (Saved.kept kv.2) = true) props ->
  is_json (Saved.kept (VObject props)) = true.
Proof.
  intros Hnames Hnd Hvalues. simpl. apply andb_true_iff. split.
  - by apply kept_keys_ordered.
  - clear Hnames Hnd. induction Hvalues as [|[k v] props Hv _ IH]; [done |].
    cbn [omap list_omap]. destruct (Saved.dropped v); [done |].
    simpl in *. by rewrite Hv.
Qed.

Lemma kept_array_is_json l :
  Forall (fun v => is_json (Saved.kept v) = true) l ->
  is_json (Saved.kept (VArray l)) = true.
Proof.
  intros H. simpl. induction H as [|v l Hv _ IH]; [done |].
  simpl. by rewrite Hv.
Qed.

Lemma kept_string_value f : is_json (Saved.kept (Render.string_value f)) = true.
Proof. by destruct f. Qed.

Lemma kept_strings (l : list string) : is_json (Saved.kept (VArray (map VString l))) = true.
Proof.
  apply kept_array_is_json, Forall_forall. by intros v (s & -> & _)%list_elem_of_fmap.
Qed.

(** The objects the generator builds for the structured data. *)
Lemma credential_is_json pub c :
  Render.credential pub = Ok c -> is_json (Saved.kept c) = true.
Proof.
  unfold Render.credential. destruct (Publication.year pub) as [| |year]; try done.
  intros [= <-].
  apply kept_object_is_json.
  - repeat constructor.
  - apply (bool_decide_unpack _). by vm_compute.
  - repeat constructor; simpl; try apply kept_string_value.
    + destruct (Publication.authors pub); try done. apply kept_strings.
    + destruct (Publication.doi pub) as [| |doi]; try done. by case_match.
Qed.

Lemma mapM_ok_Forall {A B} (f : A -> result B) (P : B -> Prop) (l : list A) (k : list B) :
  mapM f l = Ok k -> (forall x y, f x = Ok y -> P y) -> Forall P k.
Proof.
  intros Hm Hf. revert k Hm. induction l as [|x l IH]; intros k; simpl.
  - intros [= <-]. constructor.
  - destruct (f x) as [y|e] eqn:Hy; [| done].
    destruct (mapM f l) as [k'|e]; [| done].
    intros [= <-]. constructor; [by apply (Hf x) | by apply IH].
Qed.

End saved_facts.

(** Saving any document that [JSON.stringify] can write, then loading it,
    gives the document with every [NaN] replaced by [null], every
    [undefined] in an array replaced by [null] and every property whose
    value is [undefined] left out.  (The hypothesis says that what is
    kept is a value of a JSON text: integers in the exact range, keys in
    property order.) *)
Theorem save_then_load_normalises host (filename : string) (D : value)
    (files : gmap string string) :
  Saved.dropped D = false ->
  Json.is_json (Saved.kept D) = true ->
  exists files',
    Json.saveData host filename D files = (true, files')
    /\ (forall path, path <> dataPath host filename -> files' !! path = files !! path)
    /\ Json.loadData host filename files' = Saved.kept D
    /\ Json.loadAndDisplayData host filename files' = Saved.kept D.
Proof.
  intros Hkept Hjson.
  pose proof (stringify_kept D 0) as Htext.
  destruct (Json.stringify_at 0 D) as [text|] eqn:E.
  2: { apply stringify_dropped in E. congruence. }
  simpl in Htext.
  exists (<[dataPath host filename := text]> files).
  unfold Json.saveData, Json.loadAndDisplayData, Json.loadData, Json.stringify.
  rewrite E. split_and!; [done | | |].
  - intros path Hpath. by rewrite lookup_insert_ne.
  - rewrite lookup_insert_eq. by rewrite (parse_stringify _ text Hjson Htext).
  - rewrite lookup_insert_eq. by rewrite (parse_stringify _ text Hjson Htext).
Qed.

Lemma save_then_load_normalises_witness :
  let D := VObject [("id", VString "doe2024"); ("year", VNumber NaN);
                    ("image", VUndefined);
                    ("authors", VArray [VString "J Doe"; VUndefined])] in
  Saved.dropped D = false
  /\ Json.is_json (Saved.kept D) = true
  /\ Saved.kept D = VObject [("id", VString "doe2024"); ("year", VNull);
                             ("authors", VArray [VString "J Doe"; VNull])]
  /\ exists files',
       Json.saveData sampleHost "publications.json" D ∅ = (true, files')
       /\ (forall path, path <> dataPath sampleHost "publications.json" ->
             files' !! path = (∅ : gmap string string) !! path)
       /\ Json.loadData sampleHost "publications.json" files' = Saved.kept D
       /\ Json.loadAndDisplayData sampleHost "publications.json" files' = Saved.kept D.
Proof.
  intros D.
  assert (Json.is_json (Saved.kept D) = true) as Hjson by (vm_compute; reflexivity).
  split_and!; [reflexivity | exact Hjson | reflexivity |].
  exact (save_then_load_normalises sampleHost "publications.json" D ∅ eq_refl Hjson).
Defined.

(** The structured data the generator writes is a JSON text: when
    [generateStructuredData] returns, its result parses to an object with
    the context "https://schema.org", the type "Person" and the URL of the
    site, and with the property [hasCredential] exactly when
    [publications.json] was loaded. *)
Theorem structured_data_parses (personal : Personal.t)
    (publications : option PublicationsData.t) (text : string) :
  Render.generateStructuredData personal publications = Ok text ->
  exists props,
    Json.parse text = Some (VObject props)
    /\ Template.own props "@context" = Some (VString "https://schema.org")
    /\ Template.own props "@type" = Some (VString "Person")
    /\ Template.own props "url" = Some (VString Render.baseUrl)
    /\ (publications = None <-> Template.own props "hasCredential" = None).
Proof.
  unfold Render.generateStructuredData.
  destruct (Personal.institution personal) as [| |institution]; try done.
  rewrite bind_ok.
  destruct (Personal.social personal) as [| |social]; try done.
  rewrite bind_ok.
  destruct (Personal.background personal) as [| |background]; try done.
  rewrite bind_ok.
  destruct (Background.education background) as [| |education]; try done.
  rewrite bind_ok.
  match goal with
  | |- context [Ok (?l ++ [("hasCredential", _)])] => set (person := l)
  end.
  assert (Forall (fun kv : string * value => Json.is_json (Saved.kept kv.2) = true) person)
    as Hperson.
  { subst person. repeat constructor; simpl Saved.kept; try apply kept_string_value.
    - change (Json.is_json (Saved.kept (VObject
                [("@type", VString "Organization");
                 ("name", Render.string_value (Institution.name institution));
                 ("url", Render.string_value (Institution.url institution))])) = true).
      apply kept_object_is_json;
        [repeat constructor | apply (bool_decide_unpack _); by vm_compute |].
      repeat constructor; apply kept_string_value.
    - change (Json.is_json (Saved.kept (VArray (map (fun kv : string * string => VString kv.2)
                                                    social))) = true).
      apply kept_array_is_json, Forall_forall.
      by intros v (kv & -> & _)%list_elem_of_fmap.
    - change (Json.is_json (Saved.kept (VArray (map (fun edu =>
                VObject [("@type", VString "Organization");
                         ("name", Render.string_value (Education.institution edu));
                         ("url", Render.string_value (Education.url edu))]) education)))
              = true).
      apply kept_array_is_json, Forall_forall.
      intros v (edu & -> & _)%list_elem_of_fmap.
      apply kept_object_is_json;
        [repeat constructor | apply (bool_decide_unpack _); by vm_compute |].
      repeat constructor; apply kept_string_value. }
  assert (forall document,
            Forall (fun kv : string * value => Json.index_of_key kv.1 = None) document ->
            NoDup (map fst document) ->
            Forall (fun kv : string * value => Json.is_json (Saved.kept kv.2) = true)
                   document ->
            Json.parse (default "" (Json.stringify (VObject document)))
            = Some (Saved.kept (VObject document))) as Hparse.
  { intros document Hnames Hnd Hvalues.
    pose proof (stringify_kept (VObject document) 0) as Htext.
    rewrite stringify_object in Htext. cbn [from_option id] in Htext.
    unfold Json.stringify. rewrite stringify_object. cbn [from_option id].
    apply parse_stringify; [by apply kept_object_is_json | exact Htext]. }
  destruct publications as [data|].
  - destruct (mapM Render.credential (PublicationsData.publications data))
      as [credentials|e] eqn:Hcredentials; [| done].
    rewrite !bind_ok. intros Htext.
    assert (text = default "" (Json.stringify
                      (VObject (person ++ [("hasCredential", VArray credentials)]))))
      as -> by congruence.
    rewrite Hparse.
    2: { subst person. repeat constructor. }
    2: { apply (bool_decide_unpack _). by vm_compute. }
    2: { apply Forall_app. split; [exact Hperson |].
         repeat constructor. simpl snd. apply kept_array_is_json.
         apply (mapM_ok_Forall _ _ _ _ Hcredentials). apply credential_is_json. }
    eexists. split; [reflexivity |].
    destruct (Personal.name personal), (Personal.title personal);
      split_and!; try reflexivity; split; done.
  - rewrite !bind_ok. intros Htext.
    assert (text = default "" (Json.stringify (VObject person))) as -> by congruence.
    rewrite Hparse;
      [| subst person; repeat constructor
       | apply (bool_decide_unpack _); by vm_compute | exact Hperson].
    eexists. split; [reflexivity |].
    subst person.
    destruct (Personal.name personal), (Personal.title personal);
      split_and!; try reflexivity; split; done.
Qed.

Lemma structured_data_parses_witness :
  exists text props,
    Render.generateStructuredData samplePersonal (publications_json contentStore) = Ok text
    /\ Json.parse text = Some (VObject props)
    /\ Template.own props "@context" = Some (VString "https://schema.org")
    /\ Template.own props "@type" = Some (VString "Person")
    /\ Template.own props "url" = Some (VString Render.baseUrl)
    /\ (publications_json contentStore = None
        <-> Template.own props "hasCredential" = None).
Proof.
  eexists.
  destruct (structured_data_parses samplePersonal (publications_json contentStore) _ eq_refl)
    as (props & Hparse & Hrest).
  exists props. split; [reflexivity |]. split; [exact Hparse | exact Hrest].
Defined.
(** ** Edges of the BibTeX extraction *)

Section bibtex_edges.
Import Regex.

(** Every match of the entry pattern holds a line break. *)
Lemma entry_has_line_break s :
  matches Bibtex.entryRegex s ->
  Js.all (fun b => negb (bool_decide ("010"%char = b))) s = false.
Proof.
  unfold Bibtex.entryRegex, seq. simpl. intros H.
  repeat match goal with
         | H : matches (Seq _ _) _ |- _ => inversion H; subst; clear H
         end.
  match goal with
  | H : matches (Chr "010") _ |- _ => inversion H; subst; clear H
  end.
  rewrite !all_app. simpl. by rewrite !andb_false_r.
Qed.

Lemma all_suffix q s t : Js.all q (s +:+ t) = true -> Js.all q t = true.
Proof. rewrite all_app. by intros [_ ?]%andb_true_iff. Qed.

Lemma exec_none_without_line_break x :
  Js.all (fun b => negb (bool_decide ("010"%char = b))) x = true ->
  exec Bibtex.entryRegex x = None.
Proof.
  induction x as [|a x IH]; intros Hall.
  - reflexivity.
  - simpl exec.
    destruct (match_here Bibtex.entryRegex (String a x)) as [[c x']|] eqn:E.
    + apply match_here_inv in E as (s & Hs & Hm).
      apply entry_has_line_break in Hm.
      rewrite Hs, all_app, Hm in Hall. done.
    + apply IH. simpl in Hall. by apply andb_true_iff in Hall as [_ ?].
Qed.

(** [split] and [join] with the same separator. *)
Lemma split_go_skip sep acc u : forall s,
  Js.split_go sep (String.length u) acc (u +:+ s) = Js.split_go sep 0 acc s.
Proof. induction u as [|a u IH]; intros s; simpl; [done | apply IH]. Qed.

Lemma join_cons sep x y l : Js.join sep (x :: y :: l) = x +:+ sep +:+ Js.join sep (y :: l).
Proof. reflexivity. Qed.

Lemma join_split_go sep : sep <> "" ->
  forall n s acc, (String.length s < n)%nat ->
    Js.join sep (Js.split_go sep 0 acc s) = String.rev acc +:+ s.
Proof.
  intros Hsep. induction n as [|n IH]; intros s acc Hlen; [lia |].
  destruct s as [|c s]; simpl.
  - by rewrite app_empty_r.
  - destruct sep as [|a sep']; [done |].
    destruct (Js.startsWith (String a sep') (String c s)) eqn:Hstart.
    + apply startsWith_app in Hstart as [t Ht]. simpl in Ht.
      injection Ht as <- ->.
      replace (String.length (String c sep') - 1)%nat with (String.length sep')
        by (simpl; lia).
      rewrite split_go_skip.
      destruct (split_go_cons (String c sep') t 0 "") as (first & rest & Hsplit).
      pose proof (IH t "" ltac:(simpl in Hlen; rewrite length_app_s in Hlen; lia)) as Ht.
      rewrite Hsplit in *. rewrite join_cons, Ht. reflexivity.
    + rewrite IH by (simpl in Hlen; lia).
      rewrite rev_cons, app_assoc_s. done.
Qed.

Lemma join_split sep s : sep <> "" -> Js.join sep (Js.split sep s) = s.
Proof.
  intros Hsep. unfold Js.split.
  by rewrite (join_split_go sep Hsep (S (String.length s)) s "") by lia.
Qed.

End bibtex_edges.

(** A BibTeX file without a line break yields no candidate, whatever it
    holds: the entry pattern needs a line break before the closing
    brace. *)
Theorem bibtex_needs_line_break env (bibtexContent : string) :
  Js.all (fun b => negb (bool_decide ("010"%char = b))) bibtexContent = true ->
  Bibtex.parseBibtexFile env (Some bibtexContent) = Some [].
Proof.
  intros Hall. unfold Bibtex.parseBibtexFile, Bibtex.parseBibtex.
  rewrite exec_all_unfold by reflexivity.
  by rewrite exec_none_without_line_break.
Qed.

Lemma bibtex_needs_line_break_witness :
  Js.all (fun b => negb (bool_decide ("010"%char = b)))
         "@article{k1, title={T}, author={A Bell and J Doe}, year={2022}} @book{b, title={B}}"
  = true
  /\ Bibtex.parseBibtexFile sampleEnv
       (Some "@article{k1, title={T}, author={A Bell and J Doe}, year={2022}} @book{b, title={B}}")
     = Some [].
Proof.
  split; [reflexivity |].
  apply (bibtex_needs_line_break sampleEnv). reflexivity.
Defined.

(** The authors of a candidate are the pieces of the [author] field
    between the separators " and ": joined with " and " they give the
    field back, and a field without this separator is one author. *)
Theorem bibtex_authors_round_trip env (key : string) (fields : gmap string string)
    (author : string) :
  fields !! "author" = Some author -> author <> "" ->
  exists authors,
    Publication.authors (Bibtex.makePublication env key fields) = Val authors
    /\ authors = Js.split " and " author
    /\ Js.join " and " authors = author
    /\ (Js.includes " and " author = false -> authors = [author]).
Proof.
  intros Hauthor Hne. exists (Js.split " and " author).
  split_and!.
  - simpl. unfold Bibtex.prop. rewrite Hauthor. simpl.
    unfold Js.truthy_string. by rewrite bool_decide_eq_false_2.
  - done.
  - by apply join_split.
  - intros Hinc. unfold Js.split.
    assert (forall s acc, Js.includes " and " s = false ->
              Js.split_go " and " 0 acc s = [String.rev acc +:+ s]) as Hone.
    { clear. induction s as [|c s IH]; intros acc Hinc.
      - simpl. by rewrite app_empty_r.
      - cbn [Js.includes] in Hinc. apply orb_false_iff in Hinc as [Hstart Hinc].
        cbn [Js.split_go]. rewrite Hstart, (IH _ Hinc), rev_cons, app_assoc_s. done. }
    by rewrite (Hone author "" Hinc).
Qed.

Lemma bibtex_authors_round_trip_witness :
  let fields : gmap string string :=
    {["title" := "T"; "author" := "A Bell and J Doe and R Korol"]} in
  fields !! "author" = Some "A Bell and J Doe and R Korol"
  /\ exists authors,
       Publication.authors (Bibtex.makePublication sampleEnv "k1" fields) = Val authors
       /\ authors = Js.split " and " "A Bell and J Doe and R Korol"
       /\ Js.join " and " authors = "A Bell and J Doe and R Korol"
       /\ (Js.includes " and " "A Bell and J Doe and R Korol" = false ->
           authors = ["A Bell and J Doe and R Korol"]).
Proof.
  intros fields. split; [reflexivity |].
  apply (bibtex_authors_round_trip sampleEnv "k1" fields); [reflexivity | discriminate].
Defined.
(** ** Templates without placeholders *)

Section template_plain.
Import Regex.

Lemma template_needs_brace a x :
  a <> "{"%char -> match_here Template.templateRegex (String a x) = None.
Proof.
  intros Ha. unfold match_here, Template.templateRegex, seq. simpl.
  case_decide; [congruence | done].
Qed.

Lemma foldl_getProp_undefined host (path : list string) v :
  path <> [] -> v = VNull \/ v = VUndefined ->
  foldl (Template.getProp host) v path = VUndefined.
Proof.
  intros Hpath Hv. destruct path as [|p path]; [done |]. simpl.
  assert (Template.getProp host v p = VUndefined) as -> by (by destruct Hv as [-> | ->]).
  clear. induction path as [|p' path IH]; [done | exact IH].
Qed.

End template_plain.

(** A template without an opening brace has no placeholder: it is
    rendered as it is, whatever the data. *)
Theorem renderTemplate_plain host (template : string) (data : value) :
  Js.all (fun b => negb (bool_decide ("{"%char = b))) template = true ->
  Template.renderTemplate host template data = Ok template.
Proof.
  unfold Template.renderTemplate.
  induction template as [|a template IH]; intros Hall.
  - reflexivity.
  - simpl in Hall. apply andb_true_iff in Hall as [Ha Hall].
    apply negb_true_iff, bool_decide_eq_false in Ha.
    rewrite replace_all_unfold by reflexivity.
    rewrite template_needs_brace by congruence.
    by rewrite IH.
Qed.

Lemma renderTemplate_plain_witness :
  Js.all (fun b => negb (bool_decide ("{"%char = b))) "<h1>Publications }}</h1>" = true
  /\ Template.renderTemplate sampleHost "<h1>Publications }}</h1>" sampleDocument
     = Ok "<h1>Publications }}</h1>".
Proof.
  split; [reflexivity |].
  apply (renderTemplate_plain sampleHost). reflexivity.
Defined.

(** The lookup of a dotted path goes step by step: the value of [p.q] is
    the value of [q] in the value of [p].  When the value of [p] is
    [null] or [undefined], no exception is thrown: the value of [p.q] is
    [undefined], for which the placeholder is kept. *)
Theorem lookup_composes host (p q : string) (data : value) :
  Template.lookup host (p +:+ "." +:+ q) data
  = Template.lookup host q (Template.lookup host p data)
  /\ (Template.lookup host p data = VNull \/ Template.lookup host p data = VUndefined ->
      Template.lookup host (p +:+ "." +:+ q) data = VUndefined
      /\ forall matched,
           Template.substitute host data matched {[1%nat := p +:+ "." +:+ q]}
           = Ok matched).
Proof.
  assert (Template.lookup host (p +:+ "." +:+ q) data
          = Template.lookup host q (Template.lookup host p data)) as Hstep.
  { unfold Template.lookup, Js.split.
    change (p +:+ "." +:+ q) with (p +:+ String "." q).
    by rewrite split_go_dot, foldl_app. }
  split; [exact Hstep |].
  intros Hnull.
  assert (Template.lookup host (p +:+ "." +:+ q) data = VUndefined) as Hundefined.
  { rewrite Hstep. unfold Template.lookup at 1.
    apply foldl_getProp_undefined; [| done].
    unfold Js.split. by destruct (split_go_cons "." q 0 "") as (? & ? & ->). }
  split; [exact Hundefined |].
  intros matched. unfold Template.substitute, Regex.group.
  rewrite lookup_singleton_eq. cbn [from_option id]. by rewrite Hundefined.
Qed.

Lemma lookup_composes_witness :
  Template.lookup sampleHost "statistics.missing" sampleDocument = VUndefined
  /\ Template.lookup sampleHost ("statistics.missing" +:+ "." +:+ "total") sampleDocument
     = VUndefined
  /\ forall matched,
       Template.substitute sampleHost sampleDocument matched
         {[1%nat := "statistics.missing" +:+ "." +:+ "total"]} = Ok matched.
Proof.
  split; [reflexivity |].
  apply (proj2 (lookup_composes sampleHost "statistics.missing" "total" sampleDocument)).
  right. reflexivity.
Defined.
(** ** Editing a document in place *)

Section define_facts.
Import Json.

Lemma own_define_eq k v props :
  index_of_key k = None -> Template.own (define k v props) k = Some v.
Proof.
  intros Hk. induction props as [|[k' v'] props IH]; simpl.
  - by rewrite bool_decide_eq_true_2.
  - case_bool_decide as Hkk; simpl.
    + by rewrite bool_decide_eq_true_2.
    + rewrite Hk. simpl. rewrite bool_decide_eq_false_2 by congruence. exact IH.
Qed.

Lemma own_define_ne k v props k' :
  index_of_key k = None -> k' <> k ->
  Template.own (define k v props) k' = Template.own props k'.
Proof.
  intros Hk Hne. induction props as [|[k0 v0] props IH]; simpl.
  - by rewrite bool_decide_eq_false_2.
  - case_bool_decide as Hkk; simpl.
    + subst k0. by rewrite !bool_decide_eq_false_2 by congruence.
    + rewrite Hk. simpl. by rewrite IH.
Qed.

Lemma define_keys_ordered k v props : forall before,
  index_of_key k = None -> k ∉ before ->
  keys_ordered before (map fst props) = true ->
  keys_ordered before (map fst (define k v props)) = true.
Proof.
  intros before Hk. revert before.
  induction props as [|[k' v'] props IH]; intros before Hout Hord; simpl.
  - unfold key_fits. rewrite Hk, bool_decide_eq_true_2 by done. done.
  - simpl in Hord. apply andb_true_iff in Hord as [Hfit Hord].
    case_bool_decide as Hkk; simpl.
    + subst k'. by rewrite Hfit, Hord.
    + rewrite Hk. simpl. rewrite Hfit. simpl. apply IH; [| done].
      rewrite elem_of_app, list_elem_of_singleton. intros [? | ?]; done.
Qed.

Lemma define_is_json k v props :
  index_of_key k = None ->
  is_json (VObject props) = true -> is_json v = true ->
  is_json (VObject (define k v props)) = true.
Proof.
  intros Hk Hprops Hv. simpl in *.
  apply andb_true_iff in Hprops as [Hord Hall].
  apply andb_true_iff. split.
  - apply define_keys_ordered; [done | apply not_elem_of_nil | done].
  - clear Hord. induction props as [|[k' v'] props IH]; simpl in *.
    + by rewrite Hv.
    + apply andb_true_iff in Hall as [Hv' Hall].
      case_bool_decide; simpl.
      * by rewrite Hv, Hall.
      * rewrite Hk. simpl. by rewrite Hv', IH.
Qed.

Lemma strings_are_json (l : list string) : is_json (VArray (map VString l)) = true.
Proof. simpl. by induction l. Qed.

(** Saving a document of a JSON text and loading it again. *)
Lemma save_load host filename D files :
  is_json D = true ->
  loadAndDisplayData host filename (saveData host filename D files).2 = D
  /\ forall path, path <> dataPath host filename ->
       (saveData host filename D files).2 !! path = files !! path.
Proof.
  intros Hjson. destruct (stringify_some D 0 Hjson) as [text Htext].
  unfold saveData, loadAndDisplayData, loadData, stringify. rewrite Htext. simpl.
  split.
  - rewrite lookup_insert_eq. by rewrite (parse_stringify D text Hjson Htext).
  - intros path Hpath. by rewrite lookup_insert_ne.
Qed.

End define_facts.

(** The tags of a news item: none is empty and each is trimmed; an empty
    line gives no tag at all.  (The authors of a publication are read
    the same way but not filtered: there an empty line gives one empty
    name.) *)
Theorem news_tags_clean (a : Edit.NewsLines) :
  exists tags props,
    Edit.newsItem a = VObject props
    /\ Template.own props "tags" = Some (VArray (map VString tags))
    /\ tags = Edit.tagsOf (Edit.l_tags a)
    /\ Forall (fun tag => tag <> "" /\ Js.trim tag = tag) tags
    /\ (Edit.l_tags a = "" -> tags = []).
Proof.
  eexists _, _. split_and!; [reflexivity | reflexivity | reflexivity | |].
  - unfold Edit.tagsOf. apply Forall_forall. intros tag [Htag Hin]%list_elem_of_filter.
    split.
    + unfold Js.truthy_string in Htag. by apply negb_true_iff, bool_decide_eq_false in Htag.
    + apply list_elem_of_fmap in Hin as (piece & -> & _). apply trim_idem.
  - intros ->. reflexivity.
Qed.

(** Adding a news item to a [news.json] that holds an object with the
    array [news]: the file then holds the same object with the new item in
    front of the array and with [last_updated] set to the day of the run;
    every other property of the document and every other file stay as they
    were. *)
Theorem addNewsItem_puts_item_first host env (a : Edit.NewsLines)
    (files : gmap string string) (props : list (string * value)) (news : list value) :
  Json.loadAndDisplayData host "news.json" files = VObject props ->
  Json.is_json (VObject props) = true ->
  Template.own props "news" = Some (VArray news) ->
  exists files' props',
    Edit.addNewsItem host env a files = Ok files'
    /\ Json.loadAndDisplayData host "news.json" files' = VObject props'
    /\ Template.own props' "news" = Some (VArray (Edit.newsItem a :: news))
    /\ Template.own props' "last_updated" = Some (VString (today env))
    /\ (forall k, k <> "news" -> k <> "last_updated" ->
          Template.own props' k = Template.own props k)
    /\ (forall path, path <> dataPath host "news.json" -> files' !! path = files !! path).
Proof.
  intros Hload Hjson Hnews.
  unfold Edit.addNewsItem, Edit.addToNews. rewrite Hload. simpl Edit.truthy_value. cbv iota.
  unfold Template.getProp. rewrite Hnews. unfold Edit.assign. rewrite bind_ok.
  set (props' := Json.define "last_updated" (VString (today env))
                   (Json.define "news" (VArray (Edit.newsItem a :: news)) props)).
  assert (Json.is_json (VObject props') = true) as Hjson'.
  { subst props'. apply define_is_json; [done | | done].
    apply define_is_json; [done | done |].
    simpl in Hjson. apply andb_true_iff in Hjson as [_ Hall].
    assert (Json.is_json (VArray news) = true) as Hold.
    { revert Hnews Hall. clear. induction props as [|[k v] props IH]; simpl; [done |].
      intros Hown [Hv Hall]%andb_true_iff. case_bool_decide; [by simplify_eq | auto]. }
    change (Json.is_json (Edit.newsItem a) && Json.is_json (VArray news) = true).
    rewrite Hold, andb_true_r.
    unfold Edit.newsItem.
    change (Json.is_json (VArray (map VString (Edit.tagsOf (Edit.l_tags a)))) && true = true).
    by rewrite strings_are_json. }
  destruct (save_load host "news.json" (VObject props') files Hjson') as [Hback Hother].
  exists (Json.saveData host "news.json" (VObject props') files).2, props'.
  split_and!; [done | done | | | | done].
  - subst props'. rewrite own_define_ne by done. by apply own_define_eq.
  - subst props'. by apply own_define_eq.
  - intros k Hk1 Hk2. subst props'. by rewrite !own_define_ne by done.
Qed.

Lemma addNewsItem_puts_item_first_witness :
  exists props news,
    Json.loadAndDisplayData sampleHost "news.json" editorFiles = VObject props
    /\ Json.is_json (VObject props) = true
    /\ Template.own props "news" = Some (VArray news)
    /\ exists files' props',
         Edit.addNewsItem sampleHost sampleEnv sampleNewsLines editorFiles = Ok files'
         /\ Json.loadAndDisplayData sampleHost "news.json" files' = VObject props'
         /\ Template.own props' "news"
            = Some (VArray (Edit.newsItem sampleNewsLines :: news))
         /\ Template.own props' "last_updated" = Some (VString (today sampleEnv))
         /\ (forall k, k <> "news" -> k <> "last_updated" ->
               Template.own props' k = Template.own props k)
         /\ (forall path, path <> dataPath sampleHost "news.json" ->
               files' !! path = editorFiles !! path).
Proof.
  assert (Json.loadAndDisplayData sampleHost "news.json" editorFiles = newsDocument)
    as Hload by (vm_compute; reflexivity).
  assert (Json.is_json newsDocument = true) as Hjson by (vm_compute; reflexivity).
  eexists _, _. split; [exact Hload |]. split; [exact Hjson |]. split; [reflexivity |].
  exact (addNewsItem_puts_item_first sampleHost sampleEnv sampleNewsLines editorFiles
           _ _ Hload Hjson eq_refl).
Defined.

(** Editing the name or the title of a [personal.json] whose current
    information can be shown: the field is recognised in any letter case,
    the file then holds the same object with this one property set to the
    trimmed answer, and every other property and every other file stay as
    they were. *)
Theorem editPersonalInfo_changes_one_property host (field line1 line2 key : string)
    (files : gmap string string) (props : list (string * value)) :
  Json.loadAndDisplayData host "personal.json" files = VObject props ->
  Json.is_json (VObject props) = true ->
  Edit.showPersonal host (VObject props) = Ok tt ->
  Js.toLowerCase (Js.trim field) = key ->
  key = "name" \/ key = "title" ->
  exists files' props',
    Edit.editPersonalInfo host field line1 line2 files = Ok files'
    /\ Json.loadAndDisplayData host "personal.json" files' = VObject props'
    /\ Template.own props' key = Some (VString (Js.trim line1))
    /\ (forall k, k <> key -> Template.own props' k = Template.own props k)
    /\ (forall path, path <> dataPath host "personal.json" -> files' !! path = files !! path).
Proof.
  intros Hload Hjson Hshow Hfield Hkey.
  unfold Edit.editPersonalInfo. rewrite Hload. simpl Edit.truthy_value. cbv iota.
  rewrite Hshow, bind_ok. unfold Edit.editField, Edit.prompt. rewrite Hfield.
  assert (Json.index_of_key key = None) as Hname by (by destruct Hkey as [-> | ->]).
  set (props' := Json.define key (VString (Js.trim line1)) props).
  assert (Json.is_json (VObject props') = true) as Hjson'
    by (by apply define_is_json).
  destruct (save_load host "personal.json" (VObject props') files Hjson') as [Hback Hother].
  exists (Json.saveData host "personal.json" (VObject props') files).2, props'.
  split_and!; [| done | | | done].
  - by destruct Hkey as [-> | ->].
  - by apply own_define_eq.
  - intros k Hk. by apply own_define_ne.
Qed.

Lemma editPersonalInfo_changes_one_property_witness :
  exists props,
    Json.loadAndDisplayData sampleHost "personal.json" editorFiles = VObject props
    /\ Json.is_json (VObject props) = true
    /\ Edit.showPersonal sampleHost (VObject props) = Ok tt
    /\ Js.toLowerCase (Js.trim " Title") = "title"
    /\ exists files' props',
         Edit.editPersonalInfo sampleHost " Title" " Assistant Professor " "" editorFiles
         = Ok files'
         /\ Json.loadAndDisplayData sampleHost "personal.json" files' = VObject props'
         /\ Template.own props' "title" = Some (VString (Js.trim " Assistant Professor "))
         /\ (forall k, k <> "title" -> Template.own props' k = Template.own props k)
         /\ (forall path, path <> dataPath sampleHost "personal.json" ->
               files' !! path = editorFiles !! path).
Proof.
  assert (Json.loadAndDisplayData sampleHost "personal.json" editorFiles = personalDocument)
    as Hload by (vm_compute; reflexivity).
  assert (Json.is_json personalDocument = true) as Hjson by (vm_compute; reflexivity).
  eexists. split; [exact Hload |]. split; [exact Hjson |].
  split; [reflexivity |]. split; [reflexivity |].
  exact (editPersonalInfo_changes_one_property sampleHost " Title" " Assistant Professor " ""
           "title" editorFiles _ Hload Hjson eq_refl eq_refl (or_intror eq_refl)).
Defined.

(** Editing the institution of a [personal.json] whose institution is an
    object: its [name] and [url] are set to the two trimmed answers, its
    other properties are kept, and so is the rest of the document and of
    the data directory. *)
Theorem editPersonalInfo_institution host (field line1 line2 : string)
    (files : gmap string string) (props iprops : list (string * value)) :
  Json.loadAndDisplayData host "personal.json" files = VObject props ->
  Json.is_json (VObject props) = true ->
  Edit.showPersonal host (VObject props) = Ok tt ->
  Template.own props "institution" = Some (VObject iprops) ->
  Js.toLowerCase (Js.trim field) = "institution" ->
  exists files' props' iprops',
    Edit.editPersonalInfo host field line1 line2 files = Ok files'
    /\ Json.loadAndDisplayData host "personal.json" files' = VObject props'
    /\ Template.own props' "institution" = Some (VObject iprops')
    /\ Template.own iprops' "name" = Some (VString (Js.trim line1))
    /\ Template.own iprops' "url" = Some (VString (Js.trim line2))
    /\ (forall k, k <> "name" -> k <> "url" ->
          Template.own iprops' k = Template.own iprops k)
    /\ (forall k, k <> "institution" -> Template.own props' k = Template.own props k)
    /\ (forall path, path <> dataPath host "personal.json" -> files' !! path = files !! path).
Proof.
  intros Hload Hjson Hshow Hinst Hfield.
  unfold Edit.editPersonalInfo. rewrite Hload. simpl Edit.truthy_value. cbv iota.
  rewrite Hshow, bind_ok. unfold Edit.editField, Edit.prompt. rewrite Hfield.
  simpl bool_decide. cbv iota.
  unfold Template.getProp. rewrite Hinst. unfold Edit.assign. rewrite !bind_ok.
  set (iprops' := Json.define "url" (VString (Js.trim line2))
                    (Json.define "name" (VString (Js.trim line1)) iprops)).
  set (props' := Json.define "institution" (VObject iprops') props).
  assert (Json.is_json (VObject iprops) = true) as Hijson.
  { simpl in Hjson. apply andb_true_iff in Hjson as [_ Hall].
    revert Hinst Hall. clear. induction props as [|[k v] props IH]; simpl; [done |].
    intros Hown [Hv Hall]%andb_true_iff. case_bool_decide; [by simplify_eq | auto]. }
  assert (Json.is_json (VObject props') = true) as Hjson'.
  { subst props' iprops'. apply define_is_json; [done | done |].
    apply define_is_json; [done | | done]. by apply define_is_json. }
  destruct (save_load host "personal.json" (VObject props') files Hjson') as [Hback Hother].
  exists (Json.saveData host "personal.json" (VObject props') files).2, props', iprops'.
  split_and!; [done | done | | | | | | done].
  - by apply own_define_eq.
  - subst iprops'. rewrite own_define_ne by done. by apply own_define_eq.
  - by apply own_define_eq.
  - intros k Hk1 Hk2. subst iprops'. by rewrite !own_define_ne by done.
  - intros k Hk. by apply own_define_ne.
Qed.

Lemma editPersonalInfo_institution_witness :
  exists props iprops,
    Json.loadAndDisplayData sampleHost "personal.json" editorFiles = VObject props
    /\ Json.is_json (VObject props) = true
    /\ Edit.showPersonal sampleHost (VObject props) = Ok tt
    /\ Template.own props "institution" = Some (VObject iprops)
    /\ Js.toLowerCase (Js.trim "INSTITUTION") = "institution"
    /\ exists files' props' iprops',
         Edit.editPersonalInfo sampleHost "INSTITUTION" "MIT" "https://mit.edu" editorFiles
         = Ok files'
         /\ Json.loadAndDisplayData sampleHost "personal.json" files' = VObject props'
         /\ Template.own props' "institution" = Some (VObject iprops')
         /\ Template.own iprops' "name" = Some (VString (Js.trim "MIT"))
         /\ Template.own iprops' "url" = Some (VString (Js.trim "https://mit.edu"))
         /\ (forall k, k <> "name" -> k <> "url" ->
               Template.own iprops' k = Template.own iprops k)
         /\ (forall k, k <> "institution" -> Template.own props' k = Template.own props k)
         /\ (forall path, path <> dataPath sampleHost "personal.json" ->
               files' !! path = editorFiles !! path).
Proof.
  assert (Json.loadAndDisplayData sampleHost "personal.json" editorFiles = personalDocument)
    as Hload by (vm_compute; reflexivity).
  assert (Json.is_json personalDocument = true) as Hjson by (vm_compute; reflexivity).
  eexists _, _. split; [exact Hload |]. split; [exact Hjson |].
  split; [reflexivity |]. split; [reflexivity |]. split; [reflexivity |].
  exact (editPersonalInfo_institution sampleHost "INSTITUTION" "MIT" "https://mit.edu"
           editorFiles _ _ Hload Hjson eq_refl eq_refl eq_refl).
Defined.
(** ** Repeating the full run *)

Section run_again.
Implicit Types (st : Store) (publications : list Publication.t).

Lemma normalizePublication_fixed p :
  Publication.year p <> Val NaN -> normalizePublication p = p.
Proof. unfold normalizePublication. by destruct (Publication.year p) as [| |[|z]]. Qed.

Lemma normalizePublication_year p : Publication.year (normalizePublication p) <> Val NaN.
Proof. unfold normalizePublication. by destruct (Publication.year p) as [| |[|z]] eqn:E; simpl; rewrite ?E. Qed.

Lemma map_normalize_fixed publications :
  Forall (fun p => Publication.year p <> Val NaN) publications ->
  map normalizePublication publications = publications.
Proof.
  induction 1 as [|p l Hp _ IH]; [done |]. simpl.
  by rewrite IH, normalizePublication_fixed.
Qed.

Lemma store_eta st :
  {| personal_json := personal_json st;
     publications_json := publications_json st;
     news_json := news_json st;
     resources_json := resources_json st;
     activities_json := activities_json st;
     references_bib := references_bib st |} = st.
Proof. by destruct st. Qed.

Lemma metrics_ok env st data metrics :
  publications_json st = Some data ->
  Metrics.computeMetrics env (PublicationsData.publications data) = Ok metrics ->
  Metrics.generateAcademicMetrics env st
  = writePublications
      {| PublicationsData.publications := PublicationsData.publications data;
         PublicationsData.statistics :=
           Val (Metrics.spread (PublicationsData.statistics data) metrics) |} st.
Proof. intros Hd Hm. unfold Metrics.generateAcademicMetrics. by rewrite Hd, Hm. Qed.

Lemma metrics_same env st :
  (forall data, publications_json st = Some data ->
     exists e, Metrics.computeMetrics env (PublicationsData.publications data) = Throw e) ->
  Metrics.generateAcademicMetrics env st = st.
Proof.
  intros H. unfold Metrics.generateAcademicMetrics.
  destruct (publications_json st) as [data|]; [| done].
  destruct (H data eq_refl) as [e ->]. done.
Qed.

Lemma computeMetrics_totals env publications metrics :
  Metrics.computeMetrics env publications = Ok metrics ->
  Statistics.total_publications metrics = Val (Num (Z.of_nat (length publications)))
  /\ Statistics.last_updated metrics = Val (today env).
Proof.
  unfold Metrics.computeMetrics.
  destruct (Metrics.collaborators publications); [| done].
  simpl. by intros [= <-].
Qed.

(** The metrics of a store whose publications are as [JSON.parse] gives
    them are a fixed point of the metrics. *)
Lemma metrics_again env st :
  (forall data, publications_json st = Some data ->
     Forall (fun p => Publication.year p <> Val NaN) (PublicationsData.publications data)) ->
  Metrics.generateAcademicMetrics env (Metrics.generateAcademicMetrics env st)
  = Metrics.generateAcademicMetrics env st.
Proof.
  intros Hyears.
  destruct (publications_json st) as [data|] eqn:Hdata.
  2: { rewrite (metrics_same env st); [| by rewrite Hdata].
       apply metrics_same. by rewrite Hdata. }
  specialize (Hyears data eq_refl).
  destruct (Metrics.computeMetrics env (PublicationsData.publications data))
    as [metrics|e] eqn:Hm.
  2: { assert (Metrics.generateAcademicMetrics env st = st) as Hsame.
       { apply metrics_same. rewrite Hdata. intros ? [= <-]. by exists e. }
       by rewrite !Hsame. }
  rewrite (metrics_ok env st data metrics Hdata Hm).
  erewrite metrics_ok; [| reflexivity | simpl; by rewrite (map_normalize_fixed _ Hyears)].
  unfold writePublications. simpl.
  by rewrite !(map_normalize_fixed _ Hyears).
Qed.

(** After the metrics, the update still has nothing to add. *)
Lemma update_after_metrics env st :
  (forall data, publications_json st = Some data ->
     Forall (fun p => Publication.year p <> Val NaN) (PublicationsData.publications data)) ->
  Merger.updatePublicationsFromSources env st = Ok st ->
  Merger.updatePublicationsFromSources env (Metrics.generateAcademicMetrics env st)
  = Ok (Metrics.generateAcademicMetrics env st).
Proof.
  intros Hyears Hfix.
  destruct (publications_json st) as [data|] eqn:Hdata.
  2: { rewrite (metrics_same env st); [done | by rewrite Hdata]. }
  specialize (Hyears data eq_refl).
  destruct (Metrics.computeMetrics env (PublicationsData.publications data))
    as [metrics|e] eqn:Hm.
  2: { rewrite (metrics_same env st); [done |]. rewrite Hdata. intros ? [= <-]. by exists e. }
  rewrite (metrics_ok env st data metrics Hdata Hm).
  destruct (computeMetrics_totals _ _ _ Hm) as [Htotal Hday].
  revert Hfix.
  unfold Merger.updatePublicationsFromSources, Merger.mergeData. simpl. rewrite Hdata.
  destruct (Bibtex.parseBibtexFile env (references_bib st)) as [incoming|]; [| done].
  destruct (PublicationsData.statistics data) as [| |stats] eqn:Hstats; try done.
  simpl. rewrite !(map_normalize_fixed _ Hyears). intros Hfix.
  assert (Merger.merge (PublicationsData.publications data) incoming
          = PublicationsData.publications data) as Hmerge.
  { destruct (merge_appends incoming (PublicationsData.publications data))
      as (added & Hm' & _).
    assert (length (Merger.merge (PublicationsData.publications data) incoming)
            = length (PublicationsData.publications data)) as Hlen.
    { injection Hfix as Hfix. apply (f_equal publications_json) in Hfix.
      simpl in Hfix. rewrite Hdata in Hfix. injection Hfix as Hfix.
      apply (f_equal PublicationsData.publications) in Hfix. simpl in Hfix.
      rewrite <- Hfix at 2. by rewrite length_map. }
    rewrite Hm', length_app in Hlen.
    destruct added; [by rewrite Hm', app_nil_r | simpl in Hlen; lia]. }
  rewrite Hmerge. unfold writePublications. simpl.
  rewrite !(map_normalize_fixed _ Hyears).
  do 3 f_equal. unfold normalizeStatistics, setTotals, Metrics.spread. simpl.
  rewrite Htotal, Hday. f_equal.
  destruct (Statistics.latest_publication metrics); [done | done |].
  by rewrite normalizePublication_idem.
Qed.

End run_again.

(** A second full run on the same day, with the same BibTeX file, leaves
    the data directory as the first run left it and reports the same
    issues.  (The publications of the data directory are as [JSON.parse]
    gives them: none has the year [NaN].) *)
Theorem integration_run_twice env (st st' : Store) (issues : list string) :
  (forall data, publications_json st = Some data ->
     Forall (fun p => Publication.year p <> Val NaN) (PublicationsData.publications data)) ->
  Integration.runAcademicIntegration env st = Ok (st', issues) ->
  Integration.runAcademicIntegration env st' = Ok (st', issues).
Proof.
  intros Hyears. unfold Integration.runAcademicIntegration.
  destruct (Merger.updatePublicationsFromSources env st) as [st1|e] eqn:Hupdate; [| done].
  rewrite bind_ok. intros [= <- <-].
  assert (forall data, publications_json st1 = Some data ->
            Forall (fun p => Publication.year p <> Val NaN)
                   (PublicationsData.publications data)) as Hyears1.
  { revert Hupdate. unfold Merger.updatePublicationsFromSources, Merger.mergeData.
    destruct (Bibtex.parseBibtexFile env (references_bib st)); [| by intros [= <-]].
    destruct (publications_json st) as [data0|]; [| done].
    destruct (PublicationsData.statistics data0); try done.
    simpl. intros [= <-] data [= <-]. simpl.
    apply Forall_forall. intros p (q & -> & _)%list_elem_of_fmap.
    apply normalizePublication_year. }
  rewrite (update_after_metrics env st1 Hyears1 (update_again env st st1 Hupdate)).
  rewrite bind_ok. by rewrite (metrics_again env st1 Hyears1).
Qed.

Lemma integration_run_twice_witness :
  (forall data, publications_json bibStore = Some data ->
     Forall (fun p => Publication.year p <> Val NaN) (PublicationsData.publications data))
  /\ exists st' issues,
       Integration.runAcademicIntegration sampleEnv bibStore = Ok (st', issues)
       /\ Integration.runAcademicIntegration sampleEnv st' = Ok (st', issues).
Proof.
  assert (forall data, publications_json bibStore = Some data ->
            Forall (fun p => Publication.year p <> Val NaN)
                   (PublicationsData.publications data)) as Hyears.
  { intros data [= <-]. simpl. repeat constructor. discriminate. }
  split; [exact Hyears |].
  eexists _, _. split; [reflexivity |].
  apply (integration_run_twice sampleEnv bibStore _ _ Hyears). reflexivity.
Defined.
(** ** Adding a resource *)

Section resource_facts.
Import Json.

Lemma own_replaceOwn_eq k v props v0 :
  Template.own props k = Some v0 -> Template.own (Edit.replaceOwn k v props) k = Some v.
Proof.
  induction props as [|[k' v'] props IH]; simpl; [done |].
  case_bool_decide as Hk; simpl.
  - intros _. by rewrite bool_decide_eq_true_2.
  - rewrite bool_decide_eq_false_2 by done. exact IH.
Qed.

Lemma own_replaceOwn_ne k v props k' :
  k' <> k -> Template.own (Edit.replaceOwn k v props) k' = Template.own props k'.
Proof.
  intros Hne. induction props as [|[k0 v0] props IH]; simpl; [done |].
  case_bool_decide as Hk; simpl.
  - subst k0. by rewrite bool_decide_eq_false_2 by congruence.
  - by rewrite IH.
Qed.

Lemma replaceOwn_keys k v props : map fst (Edit.replaceOwn k v props) = map fst props.
Proof.
  induction props as [|[k' v'] props IH]; simpl; [done |].
  case_bool_decide; simpl; [done | by rewrite IH].
Qed.

Lemma replaceOwn_is_json k v props :
  is_json (VObject props) = true -> is_json v = true ->
  is_json (VObject (Edit.replaceOwn k v props)) = true.
Proof.
  simpl. rewrite replaceOwn_keys. intros [Hord Hall]%andb_true_iff Hv.
  rewrite Hord. simpl. clear Hord.
  induction props as [|[k' v'] props IH]; simpl in *; [done |].
  apply andb_true_iff in Hall as [Hv' Hall].
  case_bool_decide; simpl; [by rewrite Hv, Hall | by rewrite Hv', IH].
Qed.

Lemma own_is_json props k v :
  is_json (VObject props) = true -> Template.own props k = Some v -> is_json v = true.
Proof.
  simpl. intros [_ Hall]%andb_true_iff. revert Hall.
  induction props as [|[k' v'] props IH]; simpl; [done |].
  intros [Hv' Hall]%andb_true_iff. case_bool_decide; [by intros [= <-] | auto].
Qed.

(** The loop over the links reads at least one link. *)
Lemma readLinks_links input links :
  Edit.readLinks input = Some links ->
  links <> []
  /\ Forall (fun link => is_json link = true) links
  /\ (length links <= length input)%nat.
Proof.
  revert links. induction input as [|l input IH]; intros links; simpl; [done |].
  case_bool_decide.
  - destruct (Edit.readLinks input) as [links'|]; [| done].
    simpl. intros [= <-]. destruct (IH links' eq_refl) as (_ & Hjson & Hlen).
    split_and!; [done | by constructor | simpl; lia].
  - intros [= <-]. split_and!; [done | by repeat constructor | simpl; lia].
Qed.

Lemma array_is_json l : Forall (fun v => is_json v = true) l -> is_json (VArray l) = true.
Proof. simpl. induction 1 as [|v l Hv _ IH]; [done |]. simpl. by rewrite Hv. Qed.

Lemma array_is_json_inv l : is_json (VArray l) = true -> Forall (fun v => is_json v = true) l.
Proof.
  simpl. induction l as [|v l IH]; [constructor |]. simpl.
  intros [Hv Hl]%andb_true_iff. constructor; auto.
Qed.

End resource_facts.

(** Adding a resource to a section of [resources.json] that holds a
    list of resources: the resource is built from the trimmed answers,
    with at least one link; the file then holds the same document with
    this resource at the end of the list of this section and with
    [last_updated] set to the day of the run.  The other sections, the
    other properties of the section and of the document, and the other
    files stay as they were. *)
Theorem addResource_appends host env (key title type description : string)
    (input : list Edit.LinkLines) (links : list value) (files : gmap string string)
    (props sprops secprops : list (string * value)) (resources : list value) :
  Json.loadAndDisplayData host "resources.json" files = VObject props ->
  Json.is_json (VObject props) = true ->
  Template.own props "sections" = Some (VObject sprops) ->
  Edit.showSections host (VObject sprops) = Ok tt ->
  Template.own sprops (Js.trim key) = Some (VObject secprops) ->
  Template.own secprops "resources" = Some (VArray resources) ->
  Edit.readLinks input = Some links ->
  let resource :=
    VObject [("title", VString (Js.trim title)); ("type", VString (Js.trim type));
             ("description", VString (Js.trim description)); ("links", VArray links)] in
  links <> []
  /\ exists files' props' sprops' secprops',
       Edit.addResource host env key title type description input files = Ok files'
       /\ Json.loadAndDisplayData host "resources.json" files' = VObject props'
       /\ Template.own props' "sections" = Some (VObject sprops')
       /\ Template.own sprops' (Js.trim key) = Some (VObject secprops')
       /\ Template.own secprops' "resources" = Some (VArray (resources ++ [resource]))
       /\ (forall k, k <> "resources" -> Template.own secprops' k = Template.own secprops k)
       /\ (forall k, k <> Js.trim key -> Template.own sprops' k = Template.own sprops k)
       /\ Template.own props' "last_updated" = Some (VString (today env))
       /\ (forall k, k <> "sections" -> k <> "last_updated" ->
             Template.own props' k = Template.own props k)
       /\ (forall path, path <> dataPath host "resources.json" ->
             files' !! path = files !! path).
Proof.
  intros Hload Hjson Hsections Hshow Hsection Hresources Hlinks resource.
  destruct (readLinks_links input links Hlinks) as (Hsome & Hlinksjson & _).
  split; [exact Hsome |].
  pose proof (own_is_json _ _ _ Hjson Hsections) as Hsjson.
  pose proof (own_is_json _ _ _ Hsjson Hsection) as Hsecjson.
  pose proof (own_is_json _ _ _ Hsecjson Hresources) as Hresjson.
  set (secprops' := Edit.replaceOwn "resources" (VArray (resources ++ [resource])) secprops).
  set (sprops' := Edit.replaceOwn (Js.trim key) (VObject secprops') sprops).
  set (props1 := Edit.replaceOwn "sections" (VObject sprops') props).
  set (props' := Json.define "last_updated" (VString (today env)) props1).
  assert (Json.is_json resource = true) as Hresource.
  { subst resource.
    change (Json.is_json (VArray links) && true = true).
    by rewrite (array_is_json links Hlinksjson). }
  assert (Json.is_json (VObject props') = true) as Hjson'.
  { subst props' props1 sprops' secprops'.
    apply define_is_json; [done | | done].
    apply replaceOwn_is_json; [done |].
    apply replaceOwn_is_json; [done |].
    apply replaceOwn_is_json; [done |].
    apply array_is_json, Forall_app. split; [by apply array_is_json_inv |].
    by repeat constructor. }
  destruct (save_load host "resources.json" (VObject props') files Hjson') as [Hback Hother].
  exists (Json.saveData host "resources.json" (VObject props') files).2,
         props', sprops', secprops'.
  split_and!; [| done | | | | | | | | done].
  - unfold Edit.addResource. rewrite Hload. simpl Edit.truthy_value. cbv iota.
    unfold Template.getProp at 1 2. rewrite Hsections, Hshow, bind_ok.
    unfold Edit.prompt. rewrite Hsection.
    simpl Edit.truthy_value. cbv iota. rewrite Hlinks.
    unfold Edit.pushResource, Edit.modify. rewrite Hsections, Hsection, Hresources.
    rewrite !bind_ok. unfold Edit.assign. rewrite bind_ok. reflexivity.
  - subst props' props1. rewrite own_define_ne by done.
    by apply (own_replaceOwn_eq _ _ _ _ Hsections).
  - by apply (own_replaceOwn_eq _ _ _ _ Hsection).
  - by apply (own_replaceOwn_eq _ _ _ _ Hresources).
  - intros k Hk. by apply own_replaceOwn_ne.
  - intros k Hk. by apply own_replaceOwn_ne.
  - by apply own_define_eq.
  - intros k Hk1 Hk2. subst props' props1.
    rewrite own_define_ne by done. by apply own_replaceOwn_ne.
Qed.

Lemma addResource_appends_witness :
  exists props sprops secprops resources links,
    Json.loadAndDisplayData sampleHost "resources.json" resourceFiles = VObject props
    /\ Json.is_json (VObject props) = true
    /\ Template.own props "sections" = Some (VObject sprops)
    /\ Edit.showSections sampleHost (VObject sprops) = Ok tt
    /\ Template.own sprops (Js.trim " tools") = Some (VObject secprops)
    /\ Template.own secprops "resources" = Some (VArray resources)
    /\ Edit.readLinks sampleLinks = Some links
    /\ length links = 2%nat
    /\ links <> []
    /\ exists files' props' sprops' secprops',
         Edit.addResource sampleHost sampleEnv " tools" "Notes" "course" "Lecture notes"
           sampleLinks resourceFiles = Ok files'
         /\ Json.loadAndDisplayData sampleHost "resources.json" files' = VObject props'
         /\ Template.own props' "sections" = Some (VObject sprops')
         /\ Template.own sprops' (Js.trim " tools") = Some (VObject secprops')
         /\ Template.own secprops' "resources"
            = Some (VArray (resources
                            ++ [VObject [("title", VString (Js.trim "Notes"));
                                         ("type", VString (Js.trim "course"));
                                         ("description", VString (Js.trim "Lecture notes"));
                                         ("links", VArray links)]]))
         /\ (forall k, k <> "resources" ->
               Template.own secprops' k = Template.own secprops k)
         /\ (forall k, k <> Js.trim " tools" -> Template.own sprops' k = Template.own sprops k)
         /\ Template.own props' "last_updated" = Some (VString (today sampleEnv))
         /\ (forall k, k <> "sections" -> k <> "last_updated" ->
               Template.own props' k = Template.own props k)
         /\ (forall path, path <> dataPath sampleHost "resources.json" ->
               files' !! path = resourceFiles !! path).
Proof.
  assert (Json.loadAndDisplayData sampleHost "resources.json" resourceFiles
          = resourcesDocument) as Hload by (vm_compute; reflexivity).
  assert (Json.is_json resourcesDocument = true) as Hjson by (vm_compute; reflexivity).
  eexists _, _, _, _, _.
  split; [exact Hload |]. split; [exact Hjson |].
  split; [reflexivity |]. split; [reflexivity |]. split; [reflexivity |].
  split; [reflexivity |]. split; [reflexivity |]. split; [reflexivity |].
  exact (addResource_appends sampleHost sampleEnv " tools" "Notes" "course" "Lecture notes"
           sampleLinks _ resourceFiles _ _ _ _ Hload Hjson eq_refl eq_refl eq_refl eq_refl
           eq_refl).
Defined.
